(** * pptmaker: placeholder substitution in slide decks

    A shallow embedding of the two generators of the repository,
    [main.py] (deterministic word mixing) and [main_temp.py] (remote model
    and image search), together with the properties of their placeholder
    language.

    Text is modelled as the list of its UTF-8 bytes.  Case mapping, the
    whitespace class and the digit class are those of the ASCII range, bytes
    above 127 are carried through unchanged: on ASCII text the functions
    below are Python's.

    Integers are unbounded and [int] converts every string of digits: the
    bound that CPython puts since 3.11 on the number of digits it converts
    (4300 unless the interpreter is set up otherwise) is not part of the
    model.  The properties that need every conversion to go through say so
    with a bound on the length of the text. *)

From Stdlib Require Import Ascii String Bool Arith Lia ZArith List.
From Stdlib Require Import DecimalString.
Import ListNotations.

Set Implicit Arguments.

(** ** Python values and results *)

Definition str := list ascii.

Definition lit (s : string) : str := list_ascii_of_string s.

Inductive exn := TypeError | ValueError | IndexError | AttributeError | KeyError.

(** The result of running a piece of Python: a value, an exception that
    escaped, or a loop that never ends. *)
Inductive res (A : Type) :=
| Ok (a : A)
| Raise (e : exn)
| Diverge.

Arguments Ok {A} a.
Arguments Raise {A} e.
Arguments Diverge {A}.

Definition bind {A B} (c : res A) (k : A -> res B) : res B :=
  match c with
  | Ok a => k a
  | Raise e => Raise e
  | Diverge => Diverge
  end.

Notation "x <- c ;; k" := (bind c (fun x => k))
  (at level 61, c at next level, right associativity).

(** A [for] loop that updates a state and may stop on an exception. *)
Fixpoint foldM {A S} (f : S -> A -> res S) (l : list A) (s : S) : res S :=
  match l with
  | [] => Ok s
  | a :: l' => s' <- f s a ;; foldM f l' s'
  end.

(** A loop that rewrites every element of a list in place. *)
Fixpoint mapM {A B} (f : A -> res B) (l : list A) : res (list B) :=
  match l with
  | [] => Ok []
  | a :: l' => b <- f a ;; bs <- mapM f l' ;; Ok (b :: bs)
  end.

(** ** The [str] methods the generators call *)

Module PyStr.

Definition code (c : ascii) : nat := nat_of_ascii c.

(** [str.isspace] on one ASCII character: tab, line feed, vertical tab,
    form feed, carriage return, the four separators 28..31 and space. *)
Definition is_space (c : ascii) : bool :=
  let n := code c in
  ((9 <=? n) && (n <=? 13)) || ((28 <=? n) && (n <=? 32)).

Definition is_upper (c : ascii) : bool :=
  let n := code c in (65 <=? n) && (n <=? 90).

Definition is_lower (c : ascii) : bool :=
  let n := code c in (97 <=? n) && (n <=? 122).

(** A cased character: a letter. *)
Definition is_cased (c : ascii) : bool := is_upper c || is_lower c.

Definition is_digit (c : ascii) : bool :=
  let n := code c in (48 <=? n) && (n <=? 57).

Definition to_lower (c : ascii) : ascii :=
  if is_upper c then ascii_of_nat (code c + 32) else c.

Definition to_upper (c : ascii) : ascii :=
  if is_lower c then ascii_of_nat (code c - 32) else c.

Definition eqb (a b : str) : bool :=
  if list_eq_dec ascii_dec a b then true else false.

(** [s.lower()] *)
Definition lower (s : str) : str := map to_lower s.

(** [s.capitalize()]: first character upper-cased, all others lower-cased. *)
Definition capitalize (s : str) : str :=
  match s with
  | [] => []
  | c :: r => to_upper c :: map to_lower r
  end.

(** [s.title()] as CPython computes it: a character is lower-cased when the
    character before it is cased and title-cased otherwise. *)
Fixpoint title_from (previous_is_cased : bool) (s : str) : str :=
  match s with
  | [] => []
  | c :: r =>
      (if previous_is_cased then to_lower c else to_upper c)
        :: title_from (is_cased c) r
  end.

Definition title (s : str) : str := title_from false s.

(** [s.split()]: the maximal runs of characters that are not whitespace. *)
Fixpoint split (s : str) : list str :=
  match s with
  | [] => []
  | c :: r =>
      if is_space c then split r
      else
        match r with
        | [] => [[c]]
        | c' :: _ =>
            if is_space c' then [c] :: split r
            else
              match split r with
              | w :: ws => (c :: w) :: ws
              | [] => [[c]]
              end
        end
  end.

(** [s.split(sep)] for a separator of one character. *)
Fixpoint split_on (sep : ascii) (s : str) : list str :=
  match s with
  | [] => [[]]
  | c :: r =>
      if Ascii.eqb c sep then [] :: split_on sep r
      else
        match split_on sep r with
        | w :: ws => (c :: w) :: ws
        | [] => [[c]]
        end
  end.

(** [sep.join(l)] *)
Fixpoint join (sep : str) (l : list str) : str :=
  match l with
  | [] => []
  | [w] => w
  | w :: ws => w ++ sep ++ join sep ws
  end.

Fixpoint lstrip (s : str) : str :=
  match s with
  | [] => []
  | c :: r => if is_space c then lstrip r else s
  end.

(** [s.strip()] *)
Definition strip (s : str) : str := rev (lstrip (rev (lstrip s))).

(** [s.startswith(p)] *)
Fixpoint startswith (p s : str) : bool :=
  match p, s with
  | [], _ => true
  | _ :: _, [] => false
  | a :: p', b :: s' => Ascii.eqb a b && startswith p' s'
  end.

(** [sub in s] *)
Fixpoint contains (sub s : str) : bool :=
  startswith sub s ||
  match s with
  | [] => false
  | _ :: r => contains sub r
  end.

(** The scan of [s.replace(old, new)] for a non-empty [old]: [skip] counts
    the characters of an occurrence just replaced that are still ahead. *)
Fixpoint replace_from (skip : nat) (old new s : str) : str :=
  match s with
  | [] => []
  | c :: r =>
      match skip with
      | S k => replace_from k old new r
      | O =>
          if startswith old s
          then new ++ replace_from (length old - 1) old new r
          else c :: replace_from 0 old new r
      end
  end.

(** [s.replace(old, new)]: every occurrence, left to right, without
    overlap; an empty [old] matches before every character and at the end. *)
Definition replace (s old new : str) : str :=
  match old with
  | [] => new ++ flat_map (fun c => c :: new) s
  | _ :: _ => replace_from 0 old new s
  end.

(** [l[a:b]] and [l[:b]] for indices that are not negative. *)
Definition slice {A} (a b : nat) (l : list A) : list A :=
  firstn (b - a) (skipn a l).

Definition slice_to {A} (b : nat) (l : list A) : list A := firstn b l.

(** [int(s)] on a string of decimal digits, of any length: an interpreter
    that bounds the number of digits raises [ValueError] beyond its bound,
    which the model leaves out. *)
Definition digit_value (c : ascii) : nat := code c - 48.

Definition int (s : str) : nat :=
  fold_left (fun acc c => 10 * acc + digit_value c) s 0.

(** [str(n)], as an f-string formats an integer. *)
Definition of_nat (n : nat) : str :=
  lit (NilEmpty.string_of_uint (Nat.to_uint n)).

(** The lines of a text: the pieces between line feeds, none for the empty
    text. *)
Definition lines (s : str) : list str :=
  match s with
  | [] => []
  | _ :: _ => split_on "010"%char s
  end.

End PyStr.

(** ** The regular expressions of the two files

    Every pattern of the repository is a sequence of literal pieces, groups
    [(\d+)], one choice between two words and, in one place, a lazy [.*?].
    A group of digits is always followed by a literal that starts with [_]
    or [}], so taking the longest run of digits is what the backtracking
    matcher ends with. *)

Module Re.

Import PyStr.

Inductive item :=
| Lit (s : str)     (* the characters of s *)
| Digits            (* (\d+) *)
| OneOf (alts : list str)   (* (a|b), a group *)
| LazyDots.         (* .*? *)

Definition pattern := list item.

Record rmatch := mkMatch { group0 : str; groups : list str }.

Fixpoint span_digits (s : str) : str * str :=
  match s with
  | [] => ([], [])
  | c :: r =>
      if is_digit c then let (d, rest) := span_digits r in (c :: d, rest)
      else ([], s)
  end.

(** Drop the literal [l] from the front of [s]; under [re.IGNORECASE] the
    letters are compared without case. *)
Fixpoint drop_literal (ignorecase : bool) (l s : str) : option str :=
  match l, s with
  | [], _ => Some s
  | _ :: _, [] => None
  | a :: l', b :: s' =>
      if (if ignorecase then Ascii.eqb (to_lower a) (to_lower b)
          else Ascii.eqb a b)
      then drop_literal ignorecase l' s'
      else None
  end.

(** Match the pattern at the front of [s]: the groups and what is left. *)
Fixpoint match_here (ignorecase : bool) (p : pattern)
  : str -> option (list str * str) :=
  match p with
  | [] => fun s => Some ([], s)
  | Lit l :: p' => fun s =>
      match drop_literal ignorecase l s with
      | Some rest => match_here ignorecase p' rest
      | None => None
      end
  | Digits :: p' => fun s =>
      let (d, rest) := span_digits s in
      match d with
      | [] => None
      | _ :: _ =>
          match match_here ignorecase p' rest with
          | Some (gs, rest') => Some (d :: gs, rest')
          | None => None
          end
      end
  | OneOf alts :: p' => fun s =>
      (fix try (alts : list str) : option (list str * str) :=
         match alts with
         | [] => None
         | a :: alts' =>
             match drop_literal ignorecase a s with
             | Some rest =>
                 match match_here ignorecase p' rest with
                 | Some (gs, rest') =>
                     Some (firstn (length a) s :: gs, rest')
                 | None => try alts'
                 end
             | None => try alts'
             end
         end) alts
  | LazyDots :: p' =>
      fix lazy (s : str) : option (list str * str) :=
        match match_here ignorecase p' s with
        | Some r => Some r
        | None =>
            match s with
            | [] => None
            | c :: r => if Ascii.eqb c "010"%char then None else lazy r
            end
        end
  end.

(** [re.match(p, s)] *)
Definition rematch (ignorecase : bool) (p : pattern) (s : str)
  : option rmatch :=
  match match_here ignorecase p s with
  | Some (gs, rest) =>
      Some (mkMatch (firstn (length s - length rest) s) gs)
  | None => None
  end.

(** [re.finditer(p, s)]: the matches from left to right, none overlapping.
    [skip] counts the characters of the last match that are still ahead.
    No pattern of the repository matches the empty string. *)
Fixpoint finditer_from (ignorecase : bool) (p : pattern) (skip : nat)
  (s : str) : list rmatch :=
  match s with
  | [] => []
  | _ :: r =>
      match skip with
      | S k => finditer_from ignorecase p k r
      | O =>
          match rematch ignorecase p s with
          | Some m =>
              m :: finditer_from ignorecase p (length (group0 m) - 1) r
          | None => finditer_from ignorecase p 0 r
          end
      end
  end.

Definition finditer (ignorecase : bool) (p : pattern) (s : str)
  : list rmatch := finditer_from ignorecase p 0 s.

(** [re.search(p, s)] *)
Definition search (ignorecase : bool) (p : pattern) (s : str)
  : option rmatch := hd_error (finditer ignorecase p s).

(** [re.findall(p, s)] for a pattern without groups. *)
Definition findall (ignorecase : bool) (p : pattern) (s : str) : list str :=
  map group0 (finditer ignorecase p s).

End Re.

(** ** A [dict] with string keys

    Python keeps the keys in the order of their first insertion; assigning
    to a key that is present keeps its place. *)

Module Dict.

Definition dict (V : Type) := list (str * V).

Fixpoint set {V} (d : dict V) (k : str) (v : V) : dict V :=
  match d with
  | [] => [(k, v)]
  | (k', v') :: d' =>
      if PyStr.eqb k' k then (k, v) :: d' else (k', v') :: set d' k v
  end.

Fixpoint get {V} (d : dict V) (k : str) : option V :=
  match d with
  | [] => None
  | (k', v') :: d' => if PyStr.eqb k' k then Some v' else get d' k
  end.

Definition keys {V} (d : dict V) : list str := map fst d.

(** The number of entries stored under [k]. *)
Definition entries {V} (d : dict V) (k : str) : nat :=
  List.length (filter (fun kv => PyStr.eqb (fst kv) k) d).

End Dict.

(** ** The document library

    A presentation as python-pptx shows it to the code: slides hold shapes,
    a shape may carry a text frame made of paragraphs, a paragraph is a
    sequence of runs and line breaks.  A run is its text; the code does not
    touch formatting.  Text fields inside a paragraph are not modelled. *)

Module Pptx.

Definition run := str.

(** What a paragraph is made of: a run ([a:r]) or a line break ([a:br]). *)
Inductive element := Run (text : run) | Break.

Definition paragraph := list element.

Record shape := mkShape {
  shape_id : nat;
  has_text_frame : bool;
  paragraphs : list paragraph;
  sh_left : Z;
  sh_top : Z;
  sh_width : Z;
  sh_height : Z;
  picture : option str
}.

(** [title_id] names the title placeholder of the slide when it has one. *)
Record slide := mkSlide { shapes : list shape; title_id : option nat }.

Definition presentation := list slide.

(** [paragraph.runs]: the runs in order, the line breaks left out. *)
Definition runs (p : paragraph) : list run :=
  flat_map (fun e => match e with Run text => [text] | Break => [] end) p.

(** The vertical tab, as which a line break reads. *)
Definition vt : ascii := "011"%char.

(** [paragraph.text] *)
Definition paragraph_text (p : paragraph) : str :=
  flat_map (fun e => match e with Run text => text | Break => [vt] end) p.

(** [shape.text_frame.text] *)
Definition text_frame_text (sh : shape) : str :=
  PyStr.join (lit "
") (map paragraph_text (paragraphs sh)).

(** [re.split("\n|\v", s)]: the pieces between line feeds and vertical
    tabs. *)
Fixpoint split_breaks (s : str) : list str :=
  match s with
  | [] => [[]]
  | c :: r =>
      if Ascii.eqb c "010"%char || Ascii.eqb c vt then [] :: split_breaks r
      else
        match split_breaks r with
        | w :: ws => (c :: w) :: ws
        | [] => [[c]]
        end
  end.

(** The run of a piece; no run is made for an empty piece. *)
Definition piece (r : str) : paragraph :=
  match r with
  | [] => []
  | _ :: _ => [Run r]
  end.

(** [paragraph.text = s]: the content is replaced by the pieces of [s], with
    a line break between two pieces. *)
Definition set_paragraph_text (s : str) : paragraph :=
  match split_breaks s with
  | [] => []
  | first :: rest => piece first ++ flat_map (fun r => Break :: piece r) rest
  end.

(** [slide.has_title]: a slide of python-pptx has no attribute of this
    name, so reading it raises. *)
Definition has_title (sl : slide) : res bool := Raise AttributeError.

Definition with_paragraphs (sh : shape) (ps : list paragraph) : shape :=
  mkShape (shape_id sh) (has_text_frame sh) ps
    (sh_left sh) (sh_top sh) (sh_width sh) (sh_height sh) (picture sh).

(** A shape with a text frame of one paragraph of one run, and a slide of
    such shapes: the small documents of the examples. *)
Definition text_shape (id : nat) (text : str) : shape :=
  mkShape id true [[Run text]] 0 0 0 0 None.

End Pptx.

(** ** main.py: the deterministic generator *)

Module Main.

Import PyStr Pptx.

(** What [generate_content] returns: a string, or for the kind [topic] a
    list of words. *)
Inductive pyval := VStr (s : str) | VList (l : list str).

(** The [args] of [generate_content], in the shapes in which the callers
    of the repository and the defaults pass it: [None], an integer that is
    not negative, or a pair of such integers.  Other objects (a tuple of
    another length, a string) are outside the model. *)
Inductive pyargs := NoArgs | IntArg (n : nat) | PairArg (part limit : nat).

Definition static_words : list str :=
  [lit "intelligence"; lit "systems"; lit "automation"; lit "future";
   lit "solutions"; lit "insights"; lit "tech"; lit "performance";
   lit "management"].

Definition base_words (topic : str) : list str :=
  split (lower topic) ++ static_words.

(** [while len(words) < limit: words.extend(pool)].  Every turn adds the
    whole pool, so with a pool that is not empty [limit] turns are always
    enough; [turns] runs out only where the loop of the source never ends. *)
Fixpoint extend_while (turns limit : nat) (words pool : list str)
  : res (list str) :=
  if List.length words <? limit then
    match turns with
    | O => Diverge
    | S t => extend_while t limit (words ++ pool) pool
    end
  else Ok words.

Definition generate_content (placeholder_type topic : str) (args : pyargs)
  : res pyval :=
  let base_words := base_words topic in
  if eqb placeholder_type (lit "topic") then
    Ok (VList (slice_to 2 base_words))
  else if eqb placeholder_type (lit "title")
          || eqb placeholder_type (lit "subtitle") then
    match args with
    | PairArg part limit =>
        let words :=
          if 0 <? part then slice (part - 1) (part - 1 + limit) base_words
          else slice_to limit base_words in
        Ok (VStr (title (join (lit " ") (slice_to limit words))))
    | _ => Raise TypeError
    end
  else if eqb placeholder_type (lit "para") then
    match args with
    | IntArg limit =>
        words <- extend_while limit limit [] base_words ;;
        Ok (VStr (capitalize (join (lit " ") (slice_to limit words))
                  ++ lit "."))
    | _ => Raise TypeError
    end
  else if eqb placeholder_type (lit "bullet") then
    match args with
    | IntArg count =>
        bullets <-
          foldM (fun bullets i =>
                   b <- extend_while 6 6 (slice i (i + 6) base_words)
                          base_words ;;
                   Ok (bullets
                       ++ [lit "- " ++ join (lit " ") (slice_to 6 b)]))
                (seq 0 count) [] ;;
        Ok (VStr (join (lit "
") bullets))
    | _ => Raise TypeError
    end
  else if eqb placeholder_type (lit "thankumess") then
    Ok (VStr (lit "Thank you for learning about " ++ topic
              ++ lit "! We hope it was insightful."))
  else if eqb placeholder_type (lit "graphimage") then
    Ok (VStr (lit "[Graph Placeholder]"))
  else if eqb placeholder_type (lit "icon") then
    Ok (VStr (lit "[Icon Placeholder]"))
  else if eqb placeholder_type (lit "personname") then
    Ok (VStr (lit "Dyizan Intern"))
  else Ok (VStr (placeholder_type ++ lit " for " ++ topic)).

Definition placeholder_map_t := Dict.dict pyval.

(** The loop over the items of the map in [replace_placeholders], for one
    run.  [text] is read once, before the loop: every replacement starts
    again from it. *)
Definition replace_run (placeholder_map : placeholder_map_t) (r : run)
  : res run :=
  let text := r in
  foldM (fun (run_text : str) (item : str * pyval) =>
           let (ph, value) := item in
           if contains ph text then
             match value with
             | VStr v =>
                 Ok (replace text ph (replace v (lit "\n") (lit "
")))
             | VList _ => Raise AttributeError
             end
           else Ok run_text)
        placeholder_map r.

(** The loop over [paragraph.runs]: a line break is not a run and stays. *)
Definition replace_element (placeholder_map : placeholder_map_t)
  (e : element) : res element :=
  match e with
  | Run text => text' <- replace_run placeholder_map text ;; Ok (Run text')
  | Break => Ok Break
  end.

Definition replace_shape (placeholder_map : placeholder_map_t) (sh : shape)
  : res shape :=
  if has_text_frame sh then
    ps <- mapM (mapM (replace_element placeholder_map)) (paragraphs sh) ;;
    Ok (with_paragraphs sh ps)
  else Ok sh.

Definition replace_placeholders (sl : slide)
  (placeholder_map : placeholder_map_t) : res slide :=
  shs <- mapM (replace_shape placeholder_map) (shapes sl) ;;
  Ok (mkSlide shs (title_id sl)).

Definition three_numbers (name : string) : Re.pattern :=
  [Re.Lit (lit "{{" ++ lit name); Re.Digits; Re.Lit (lit "_"); Re.Digits;
   Re.Lit (lit "_"); Re.Digits; Re.Lit (lit "}}")].

Definition two_numbers (name : string) : Re.pattern :=
  [Re.Lit (lit "{{" ++ lit name); Re.Digits; Re.Lit (lit "_"); Re.Digits;
   Re.Lit (lit "}}")].

Definition patterns : Dict.dict Re.pattern :=
  [(lit "title", three_numbers "title");
   (lit "subtitle", three_numbers "subtitle");
   (lit "para", two_numbers "para");
   (lit "bullet", two_numbers "bullet");
   (lit "thankumess", [Re.Lit (lit "{{thankumess}}")]);
   (lit "personname", [Re.Lit (lit "{{personname}}")]);
   (lit "graphimage", [Re.Lit (lit "{{graphimage}}")]);
   (lit "icon", [Re.Lit (lit "{{icon"); Re.Digits; Re.Lit (lit "}}")])].

(** [patterns[key]] *)
Definition pattern_of (key : str) : res Re.pattern :=
  match Dict.get patterns key with
  | Some p => Ok p
  | None => Raise KeyError
  end.

(** [v[i]] *)
Definition item (v : pyval) (i : nat) : res str :=
  match v with
  | VList l =>
      match nth_error l i with Some w => Ok w | None => Raise IndexError end
  | VStr s =>
      match nth_error s i with Some c => Ok [c] | None => Raise IndexError end
  end.

(** The body of the scanning loop for the text of one run. *)
Definition scan_run (topic : str) (placeholder_map : placeholder_map_t)
  (text : str) : res placeholder_map_t :=
  (* titles and subtitles *)
  m <- foldM (fun m typ =>
                p <- pattern_of typ ;;
                foldM (fun m mt =>
                         match map int (Re.groups mt) with
                         | [_; y; z] =>
                             content <- generate_content typ topic
                                          (PairArg y z) ;;
                             Ok (Dict.set m (Re.group0 mt) content)
                         | _ => Raise ValueError
                         end)
                      (Re.finditer true p text) m)
             [lit "title"; lit "subtitle"] placeholder_map ;;
  (* paragraphs *)
  p <- pattern_of (lit "para") ;;
  m <- foldM (fun m mt =>
                match map int (Re.groups mt) with
                | [_; y] =>
                    content <- generate_content (lit "para") topic
                                 (IntArg y) ;;
                    Ok (Dict.set m (Re.group0 mt) content)
                | _ => Raise ValueError
                end)
             (Re.finditer true p text) m ;;
  (* bullets *)
  p <- pattern_of (lit "bullet") ;;
  m <- foldM (fun m mt =>
                match map int (Re.groups mt) with
                | [_; y] =>
                    content <- generate_content (lit "bullet") topic
                                 (IntArg y) ;;
                    Ok (Dict.set m (Re.group0 mt) content)
                | _ => Raise ValueError
                end)
             (Re.finditer true p text) m ;;
  (* static placeholders *)
  m <- foldM (fun m key =>
                p <- pattern_of key ;;
                match Re.search true p text with
                | Some _ =>
                    content <- generate_content key topic NoArgs ;;
                    Ok (Dict.set m (lit "{{" ++ key ++ lit "}}") content)
                | None => Ok m
                end)
             [lit "thankumess"; lit "personname"; lit "graphimage"] m ;;
  (* icons *)
  p <- pattern_of (lit "icon") ;;
  foldM (fun m mt =>
           content <- generate_content (lit "icon") topic NoArgs ;;
           Ok (Dict.set m (Re.group0 mt) content))
        (Re.finditer true p text) m.

(** The texts of the runs the scanning loop visits, in its order. *)
Definition run_texts (prs : presentation) : list str :=
  flat_map (fun sl =>
    flat_map (fun sh =>
      if has_text_frame sh then flat_map runs (paragraphs sh) else [])
      (shapes sl)) prs.

(** The map with which the second pass starts. *)
Definition placeholder_map (prs : presentation) (topic : str)
  : res placeholder_map_t :=
  topic_words <- generate_content (lit "topic") topic NoArgs ;;
  w0 <- item topic_words 0 ;;
  w1 <- item topic_words 1 ;;
  let m := Dict.set [] (lit "{{topic1_1}}") (VStr (capitalize w0)) in
  let m := Dict.set m (lit "{{topic1_2}}") (VStr (capitalize w1)) in
  foldM (scan_run topic) (run_texts prs) m.

(** [generate_ppt] from the presentation read from the template to the
    presentation that is saved. *)
Definition generate_ppt (prs : presentation) (topic : str)
  : res presentation :=
  m <- placeholder_map prs topic ;;
  mapM (fun sl => replace_placeholders sl m) prs.

(** The name of the file that is saved. *)
Definition output_filename (topic : str) : str :=
  replace topic (lit " ") (lit "_") ++ lit "_Presentation.pptx".

(** The script: [line] is what the user types at the prompt, [template] the
    presentation in "template.pptx", which is taken to exist.  The result
    is the name of the file that is written and what is written to it. *)
Definition main (line : str) (template : presentation)
  : res (str * presentation) :=
  let topic := strip line in
  prs <- generate_ppt template topic ;;
  Ok (output_filename topic, prs).

End Main.

(** ** main_temp.py: the generator backed by a remote model *)

Module MainTemp.

Import PyStr Pptx.

(** What an HTTP request comes back with: the field the code reads, a
    [requests.exceptions.RequestException] (no connection, time-out, error
    status), or a body without the field, on which the code raises an
    exception of another class. *)
Inductive reply (A : Type) :=
| Answer (a : A)
| RequestException
| Malformed.

Arguments Answer {A} a.
Arguments RequestException {A}.
Arguments Malformed {A}.

Section Remote.

(** The model service: the [response] field for a prompt.  The cache of
    [lru_cache] makes the answer a function of the prompt within a run. *)
Variable ollama : str -> reply str.

(** The image search: the [webformatURL] of every hit for a query, an image
    type and a category. *)
Variable pixabay : str -> str -> str -> reply (list str).

(** The image behind a URL, when the download and [add_picture] both go
    through; [None] when either raises. *)
Variable download : str -> option str.

Variable PIXABAY_API_KEY : str.

Definition error_text : str := lit "Error: Could not generate content.".

Definition generate_ollama_content (prompt : str) : res str :=
  match ollama prompt with
  | Answer response => Ok (strip response)
  | RequestException => Ok error_text
  | Malformed => Raise KeyError
  end.

Definition get_image_url (query image_type category : str)
  : res (option str) :=
  if eqb PIXABAY_API_KEY (lit "YOUR_PIXABAY_API_KEY") then Ok None
  else
    match pixabay query image_type category with
    | Answer (url :: _) => Ok (Some url)
    | Answer [] => Ok None
    | RequestException => Ok None
    | Malformed => Raise KeyError
    end.

Definition title_pattern : Re.pattern :=
  [Re.Lit (lit "{{"); Re.OneOf [lit "title"; lit "subtitle"]; Re.Digits;
   Re.Lit (lit "_"); Re.Digits; Re.Lit (lit "_"); Re.Digits;
   Re.Lit (lit "}}")].

Definition para_pattern : Re.pattern :=
  [Re.Lit (lit "{{para"); Re.Digits; Re.Lit (lit "_"); Re.Digits;
   Re.Lit (lit "}}")].

Definition bullet_pattern : Re.pattern :=
  [Re.Lit (lit "{{bullet"); Re.Digits; Re.Lit (lit "_"); Re.Digits;
   Re.Lit (lit "}}")].

Definition icon_pattern : Re.pattern :=
  [Re.Lit (lit "{{icon"); Re.Digits; Re.Lit (lit "}}")].

Definition token_pattern : Re.pattern :=
  [Re.Lit (lit "{{"); Re.LazyDots; Re.Lit (lit "}}")].

Definition base_prompt (topic : str) : str :=
  lit "For a PowerPoint presentation on '" ++ topic
  ++ lit "', generate the following content concisely and professionally:".

Definition generate_content_for_placeholder (placeholder topic : str)
  : res str :=
  let base_prompt := base_prompt topic in
  if contains (lit "topic1_") placeholder then
    let part :=
      replace (last (split_on "_"%char placeholder) []) (lit "}}") [] in
    let prompt :=
      base_prompt ++ lit " Provide exactly two single words that capture the essence of the topic, separated by a space." in
    content <- generate_ollama_content prompt ;;
    let words := split content in
    if 2 <=? List.length words then
      Ok (capitalize (if eqb part (lit "1") then nth 0 words []
                      else nth 1 words []))
    else Ok (if eqb part (lit "1") then lit "Topic" else lit "Essence")
  else
  match Re.rematch false title_pattern placeholder with
  | Some mt =>
      match Re.groups mt with
      | [ph_type; _; part; limit] =>
          let limit := int limit in
          let prompt :=
            base_prompt ++ lit " A " ++ ph_type
            ++ lit " for a slide. It must be exactly " ++ of_nat limit
            ++ lit " words long." in
          content <- generate_ollama_content prompt ;;
          Ok (title (join (lit " ") (slice_to limit (split content))))
      | _ => Raise ValueError
      end
  | None =>
  match Re.rematch false para_pattern placeholder with
  | Some mt =>
      match Re.groups mt with
      | [_; limit] =>
          let limit := int limit in
          let prompt :=
            base_prompt ++ lit " A paragraph of approximately "
            ++ of_nat limit ++ lit " words." in
          content <- generate_ollama_content prompt ;;
          Ok (capitalize (join (lit " ") (slice_to limit (split content)))
              ++ lit ".")
      | _ => Raise ValueError
      end
  | None =>
  match Re.rematch false bullet_pattern placeholder with
  | Some mt =>
      match Re.groups mt with
      | [_; count] =>
          let count := int count in
          let prompt :=
            base_prompt ++ lit " Generate exactly " ++ of_nat count
            ++ lit " bullet points. Each bullet point must be exactly 6 words long. Separate them with newlines." in
          content <- generate_ollama_content prompt ;;
          let bullets :=
            map (fun line => lit "• " ++ strip line)
                (filter (fun line =>
                           negb (Nat.eqb (List.length (strip line)) 0))
                        (split_on "010"%char content)) in
          Ok (join (lit "
") (slice_to count bullets))
      | _ => Raise ValueError
      end
  | None =>
  if eqb placeholder (lit "{{personname}}") then
    let prompt :=
      base_prompt
      ++ lit " A professional-sounding full name for the presenter." in
    generate_ollama_content prompt
  else if eqb placeholder (lit "{{thankumess}}") then
    let limit := 12 in
    let prompt :=
      base_prompt
      ++ lit " A brief thank-you message to the audience, exactly "
      ++ of_nat limit ++ lit " words long." in
    content <- generate_ollama_content prompt ;;
    Ok (join (lit " ") (slice_to limit (split content)))
  else Ok placeholder
  end end end.

(** [placeholders_to_find.add(x)]; the set is kept in the order in which
    its elements were first added.  CPython iterates a set of strings in an
    order that depends on their hashes: nothing below depends on it. *)
Definition set_add (s : list str) (x : str) : list str :=
  if existsb (eqb x) s then s else s ++ [x].

(** Step 1, first half: the distinct tokens of the presentation. *)
Definition placeholders_to_find (prs : presentation) : list str :=
  fold_left (fun found sl =>
    fold_left (fun found sh =>
      if has_text_frame sh then
        fold_left set_add
          (Re.findall false token_pattern (text_frame_text sh)) found
      else found)
      (shapes sl) found)
    prs [].

Definition text_placeholders_to_generate (prs : presentation) : list str :=
  filter (fun ph => negb (startswith (lit "{{graph") ph)
                    && negb (startswith (lit "{{icon") ph))
         (placeholders_to_find prs).

(** [future.result()] inside its [try]: an exception of the worker leaves
    the token as its own replacement. *)
Definition result_or_original (ph topic : str) : res str :=
  match generate_content_for_placeholder ph topic with
  | Ok v => Ok v
  | Raise _ => Ok ph
  | Diverge => Diverge
  end.

(** Step 1, second half: the map of the text tokens. *)
Definition text_placeholders (prs : presentation) (topic : str)
  : res (Dict.dict str) :=
  foldM (fun d ph =>
           v <- result_or_original ph topic ;;
           Ok (Dict.set d ph v))
        (text_placeholders_to_generate prs) [].

(** Step 2 for one shape. *)
Definition rewrite_shape (d : Dict.dict str) (sh : shape) : shape :=
  if has_text_frame sh then
    fold_left (fun sh (item : str * str) =>
      let (ph, value) := item in
      if contains ph (text_frame_text sh) then
        with_paragraphs sh
          (map (fun para =>
                  if contains ph (paragraph_text para)
                  then set_paragraph_text
                         (replace (paragraph_text para) ph value)
                  else para)
               (paragraphs sh))
      else sh)
      d sh
  else sh.

Definition rewrite_slide (d : Dict.dict str) (sl : slide) : slide :=
  mkSlide (map (rewrite_shape d) (shapes sl)) (title_id sl).

(** [slide.shapes.add_picture(image, left, top, width, height)]: a picture
    shape with a fresh id at the end of the shape tree. *)
Definition next_shape_id (shs : list shape) : nat :=
  S (fold_right (fun sh m => Nat.max (shape_id sh) m) 0 shs).

Definition add_picture (shs : list shape) (image : str)
  (left top width height : Z) : list shape :=
  shs ++ [mkShape (next_shape_id shs) false [] left top width height
            (Some image)].

(** [sp.getparent().remove(sp)]: a shape that is no longer in the tree has
    no parent, and the call on [None] raises. *)
Fixpoint remove_shape (id : nat) (shs : list shape) : res (list shape) :=
  match shs with
  | [] => Raise AttributeError
  | sh :: r =>
      if Nat.eqb (shape_id sh) id then Ok r
      else r' <- remove_shape id r ;; Ok (sh :: r')
  end.

(** [slide.shapes.title.text if slide.has_title else f"{topic} {slide_idx}"]:
    the condition is read first; [slide.shapes.title] is [None] on a slide
    without a title placeholder. *)
Definition slide_title (topic : str) (slide_idx : nat) (sl : slide)
  : res str :=
  has_title <- has_title sl ;;
  if has_title then
    match title_id sl with
    | Some id =>
        match find (fun sh => Nat.eqb (shape_id sh) id) (shapes sl) with
        | Some sh => Ok (text_frame_text sh)
        | None => Raise AttributeError
        end
    | None => Raise AttributeError
    end
  else Ok (topic ++ lit " " ++ of_nat slide_idx).

(** The body of the [if image_url:] of both branches: the state is the
    shape tree and [placeholders_to_remove]. *)
Definition embed (image_url : option str) (sh : shape)
  (st : list shape * list shape) : list shape * list shape :=
  match image_url with
  | Some (c :: u) =>
      match download (c :: u) with
      | Some image =>
          (add_picture (fst st) image (sh_left sh) (sh_top sh)
             (sh_width sh) (sh_height sh),
           snd st ++ [sh])
      | None => st
      end
  | _ => st
  end.

(** Step 3 for one slide.  The loop of the source runs over the live shape
    tree; the pictures it appends carry no text frame and are skipped, so
    the loop here runs over the shapes the slide had at the start. *)
Definition fixup_slide (topic : str) (slide_idx : nat) (sl : slide)
  : res slide :=
  slide_title <- slide_title topic slide_idx sl ;;
  st <- foldM (fun st sh =>
          if negb (has_text_frame sh) then Ok st
          else
            st <- (if contains (lit "{{graphimage}}") (text_frame_text sh)
                   then
                     image_url <- get_image_url
                                    (slide_title ++ lit " data graph chart")
                                    (lit "illustration") (lit "business") ;;
                     Ok (embed image_url sh st)
                   else Ok st) ;;
            match Re.search false icon_pattern (text_frame_text sh) with
            | Some _ =>
                image_url <- get_image_url (slide_title ++ lit " icon")
                               (lit "illustration") (lit "computer") ;;
                Ok (embed image_url sh st)
            | None => Ok st
            end)
        (shapes sl) (shapes sl, []) ;;
  shs <- foldM (fun shs sh => remove_shape (shape_id sh) shs)
           (snd st) (fst st) ;;
  Ok (mkSlide shs (title_id sl)).

Fixpoint fixup_slides (topic : str) (slide_idx : nat) (prs : presentation)
  : res presentation :=
  match prs with
  | [] => Ok []
  | sl :: rest =>
      sl' <- fixup_slide topic slide_idx sl ;;
      rest' <- fixup_slides topic (S slide_idx) rest ;;
      Ok (sl' :: rest')
  end.

(** [generate_ppt]: [template] is the presentation at [template_path], if
    the file exists; the result is the presentation that is saved, if one
    is. *)
Definition generate_ppt (template : option presentation) (topic : str)
  : res (option presentation) :=
  match template with
  | None => Ok None
  | Some prs =>
      d <- text_placeholders prs topic ;;
      let prs := map (rewrite_slide d) prs in
      prs <- fixup_slides topic 0 prs ;;
      Ok (Some prs)
  end.

(** The script: an empty topic stops it before anything is generated.
    [template] is the presentation in "template.pptx" when the file exists.
    The result is the name of the file that is written and what is written
    to it, when a file is written. *)
Definition main (line : str) (template : option presentation)
  : res (option (str * presentation)) :=
  let topic := strip line in
  match topic with
  | [] => Ok None
  | _ :: _ =>
      let output_filename :=
        replace topic (lit " ") (lit "_") ++ lit "_Presentation.pptx" in
      saved <- generate_ppt template topic ;;
      Ok (match saved with
          | Some prs => Some (output_filename, prs)
          | None => None
          end)
  end.

End Remote.

End MainTemp.

(** * The vocabulary of the properties *)

Unset Implicit Arguments.

(** ** Words and lines *)

(** A word: not empty and free of whitespace. *)
Definition wordb (w : str) : bool :=
  match w with
  | [] => false
  | _ :: _ => forallb (fun c => negb (PyStr.is_space c)) w
  end.

Definition words (ws : list str) : Prop := Forall (fun w => wordb w = true) ws.

(** The number of words of a text, read off the whitespace flags of its
    characters. *)
Fixpoint nwords (bs : list bool) : nat :=
  match bs with
  | [] => 0
  | b :: r =>
      if b then nwords r
      else
        match r with
        | [] => 1
        | b' :: _ => if b' then S (nwords r) else nwords r
        end
  end.

(** Words that [lower] leaves as they are. *)
Definition lowered (ws : list str) : Prop :=
  Forall (Forall (fun c => PyStr.to_lower c = c)) ws.

(** The line feed, and a text without one. *)
Definition nl : ascii := "010"%char.

Definition one_line (l : str) : Prop :=
  Forall (fun c => Ascii.eqb c nl = false) l.

(** ** The word pool *)

(** [k] copies of the pool, one after the other. *)
Definition cycle (k : nat) (pool : list str) : list str :=
  concat (repeat pool k).

(** The words of bullet line [i] as the specification words them: the pool
    from offset [i] on, with the whole pool appended once more when fewer
    than 6 words remain there, cut to 6 words. *)
Definition bullet_words_spec (pool : list str) (i : nat) : list str :=
  firstn 6 (if 6 <=? List.length (skipn i pool) then skipn i pool
            else skipn i pool ++ pool).

(** ** Maps and matches *)

(** A sequence of assignments [m[k] = v]. *)
Definition apply_updates {V} (ups : list (str * V)) (m : Dict.dict V)
  : Dict.dict V :=
  fold_left (fun m kv => Dict.set m (fst kv) (snd kv)) ups m.

(** A computation that only assigns, in order, to the keys [ks] of [m]. *)
Definition updates_with {V} (c : res (Dict.dict V)) (m : Dict.dict V)
  (ks : list str) : Prop :=
  exists ups, c = Ok (apply_updates ups m) /\ map fst ups = ks.

(** The groups a pattern captures. *)
Fixpoint ngroups (p : Re.pattern) : nat :=
  match p with
  | [] => 0
  | Re.Lit _ :: p' => ngroups p'
  | Re.Digits :: p' => S (ngroups p')
  | Re.OneOf _ :: p' => S (ngroups p')
  | Re.LazyDots :: p' => ngroups p'
  end.

(** ** The passes of main.py *)

(** The key a static kind is stored under, when its pattern is found. *)
Definition static_key (key : string) (text : str) : list str :=
  match Re.search true [Re.Lit (lit "{{" ++ lit key ++ lit "}}")] text with
  | Some _ => [lit "{{" ++ lit key ++ lit "}}"]
  | None => []
  end.

(** The keys the scanning pass assigns for the text of one run, in the
    order of the source. *)
Definition scan_keys (text : str) : list str :=
  Re.findall true (Main.three_numbers "title") text
  ++ Re.findall true (Main.three_numbers "subtitle") text
  ++ Re.findall true (Main.two_numbers "para") text
  ++ Re.findall true (Main.two_numbers "bullet") text
  ++ static_key "thankumess" text
  ++ static_key "personname" text
  ++ static_key "graphimage" text
  ++ Re.findall true [Re.Lit (lit "{{icon"); Re.Digits; Re.Lit (lit "}}")] text.

(** The map before the scanning pass: the two topic entries. *)
Definition topic_entries (topic : str) : Main.placeholder_map_t :=
  [(lit "{{topic1_1}}",
    Main.VStr (PyStr.capitalize (nth 0 (Main.base_words topic) [])));
   (lit "{{topic1_2}}",
    Main.VStr (PyStr.capitalize (nth 1 (Main.base_words topic) [])))].

(** The tokens of the static kinds of main.py as the patterns write them. *)
Definition static_literals : list str :=
  [lit "{{thankumess}}"; lit "{{personname}}"; lit "{{graphimage}}"].

(** The kinds whose tokens carry numbers, and the literals of these kinds
    that the patterns of main.py find in a text. *)
Definition numbered_kinds : list str :=
  [lit "title"; lit "subtitle"; lit "para"; lit "bullet"; lit "icon"].

Definition numbered_literals (text : str) : list str :=
  flat_map (fun typ =>
              match Dict.get Main.patterns typ with
              | Some p => Re.findall true p text
              | None => []
              end)
           numbered_kinds.

(** The literals main.py finds in a text as they are written there: those
    of the numbered kinds, and the static tokens that the text holds in the
    lower case of the patterns. *)
Definition found_literals (text : str) : list str :=
  numbered_literals text
  ++ filter (fun k => PyStr.contains k text) static_literals.

(** A map whose values are all strings, as every map of [generate_ppt]. *)
Definition all_strings (m : Main.placeholder_map_t) : Prop :=
  Forall (fun kv => exists v, snd kv = Main.VStr v) m.

(** What the loop over the items does to one run: the text it has read
    once, with the occurrences of one key replaced. *)
Definition replaced_with (text : str) (kv : str * Main.pyval) : str :=
  match snd kv with
  | Main.VStr v =>
      PyStr.replace text (fst kv) (PyStr.replace v (lit "\n") (lit "
"))
  | Main.VList _ => text
  end.

(** ** The passes of main_temp.py *)

(** The entry of a token: what its resolver returns, or the token itself
    when the resolver raises. *)
Definition entry_of (ollama : str -> MainTemp.reply str) (ph topic : str)
  : str :=
  match MainTemp.generate_content_for_placeholder ollama ph topic with
  | Ok v => v
  | _ => ph
  end.

(** A shape and an image search of the examples. *)
Definition graph_shape : Pptx.shape :=
  Pptx.mkShape 4 true [[Pptx.Run (lit "{{graphimage}}")]] 100 200 3000 4000
    None.

Definition one_hit : str -> str -> str -> MainTemp.reply (list str) :=
  fun _ _ _ => MainTemp.Answer [lit "https://pixabay.example/1.png"].

(** ** Further vocabulary *)

(** A text made of whitespace only. *)
Definition blank (s : str) : bool := forallb PyStr.is_space s.

(** A text that neither starts nor ends with whitespace. *)
Definition trimmed (s : str) : bool :=
  match s with
  | [] => true
  | c :: _ => negb (PyStr.is_space c) && negb (PyStr.is_space (last s c))
  end.

(** A pattern that starts with the two opening braces. *)
Definition braces_pattern (p : Re.pattern) : bool :=
  match p with
  | Re.Lit (c1 :: c2 :: _) :: _ =>
      Ascii.eqb c1 "{"%char && Ascii.eqb c2 "{"%char
  | _ => false
  end.

(** Two paragraphs that differ in the text of their runs at most: as many
    runs, and the line breaks where they were. *)
Definition same_breaks (para para' : Pptx.paragraph) : Prop :=
  Forall2 (fun e e' => match e, e' with
                       | Pptx.Run _, Pptx.Run _ => True
                       | Pptx.Break, Pptx.Break => True
                       | _, _ => False
                       end) para para'.

(** Two shapes that differ in the text of their runs at most: same id, same
    frame flag, same position and size, same picture, as many paragraphs
    and as many runs in each; a shape without a text frame is the same. *)
Definition same_frame (sh sh' : Pptx.shape) : Prop :=
  sh' = Pptx.with_paragraphs sh (Pptx.paragraphs sh')
  /\ Forall2 same_breaks (Pptx.paragraphs sh) (Pptx.paragraphs sh')
  /\ (Pptx.has_text_frame sh = true \/ sh' = sh).

Definition same_slides (prs prs' : Pptx.presentation) : Prop :=
  Forall2 (fun sl sl' =>
             Pptx.title_id sl' = Pptx.title_id sl
             /\ Forall2 same_frame (Pptx.shapes sl) (Pptx.shapes sl'))
          prs prs'.

(** A run as the assignment to [paragraph.text] makes it: not empty, and
    free of line feeds and vertical tabs. *)
Definition fresh_run (r : str) : bool :=
  match r with
  | [] => false
  | _ :: _ =>
      forallb (fun c => negb (Ascii.eqb c nl || Ascii.eqb c Pptx.vt)) r
  end.

(** Two shapes that differ in their paragraphs at most, with as many
    paragraphs, each either kept or made of fresh runs and line breaks; a
    shape without a text frame is the same. *)
Definition same_shape_rebuilt (sh sh' : Pptx.shape) : Prop :=
  sh' = Pptx.with_paragraphs sh (Pptx.paragraphs sh')
  /\ Forall2 (fun para para' =>
                para' = para \/ forallb fresh_run (Pptx.runs para') = true)
       (Pptx.paragraphs sh) (Pptx.paragraphs sh')
  /\ (Pptx.has_text_frame sh = true \/ sh' = sh).

(** A pattern made of literals and groups of digits only. *)
Definition plain (p : Re.pattern) : bool :=
  forallb (fun it => match it with
                     | Re.Lit _ | Re.Digits => true
                     | _ => false
                     end) p.

(** What the first pass of main.py stores for a match of a numbered kind:
    the value of the generator for the numbers of the match, the first
    number left aside. *)
Definition stored (topic kind : str) (mt : Re.rmatch) : res Main.pyval :=
  if PyStr.eqb kind (lit "title") || PyStr.eqb kind (lit "subtitle") then
    match map PyStr.int (Re.groups mt) with
    | [_; y; z] => Main.generate_content kind topic (Main.PairArg y z)
    | _ => Raise ValueError
    end
  else if PyStr.eqb kind (lit "para") || PyStr.eqb kind (lit "bullet") then
    match map PyStr.int (Re.groups mt) with
    | [_; y] => Main.generate_content kind topic (Main.IntArg y)
    | _ => Raise ValueError
    end
  else Main.generate_content kind topic Main.NoArgs.

(** An assignment of the first pass: to a literal that the pattern of a
    numbered kind matches as a whole, of what is stored for that match, or
    to the key of a static kind. *)
Definition scan_entry (topic : str) (kv : str * Main.pyval) : Prop :=
  (exists kind p mt,
     In kind numbered_kinds
     /\ Dict.get Main.patterns kind = Some p
     /\ Re.rematch true p (fst kv) = Some mt
     /\ Re.group0 mt = fst kv
     /\ stored topic kind mt = Ok (snd kv))
  \/ In (fst kv)
       [lit "{{thankumess}}"; lit "{{personname}}"; lit "{{graphimage}}"].

(** A computation that only assigns to the keys [ks] of [m], in order, and
    every assignment of which satisfies [P]. *)
Definition updates_sat {V} (P : str * V -> Prop) (c : res (Dict.dict V))
  (m : Dict.dict V) (ks : list str) : Prop :=
  exists ups,
    c = Ok (apply_updates ups m) /\ map fst ups = ks /\ Forall P ups.

(** The third character, in lower case, of the literal a pattern starts
    with. *)
Definition third_of (p : Re.pattern) : option ascii :=
  match p with
  | Re.Lit (_ :: _ :: c3 :: _) :: _ => Some (PyStr.to_lower c3)
  | _ => None
  end.

(** * Properties *)

(** ** The model on small inputs *)

Example split_ex :
  PyStr.split (lit "  cloud   security ") = [lit "cloud"; lit "security"].
Proof. reflexivity. Qed.

Example title_ex : PyStr.title (lit "3d o'neil printing") = lit "3D O'Neil Printing".
Proof. reflexivity. Qed.

Example replace_ex :
  PyStr.replace (lit "aXXbXXXc") (lit "XX") (lit "-") = lit "a-b-Xc".
Proof. reflexivity. Qed.

Example of_nat_ex : PyStr.of_nat 0 = lit "0" /\ PyStr.of_nat 120 = lit "120".
Proof. split; reflexivity. Qed.

Example finditer_ex :
  Re.findall true [Re.Lit (lit "{{para"); Re.Digits; Re.Lit (lit "_"); Re.Digits; Re.Lit (lit "}}")]
    (lit "a {{Para1_20}} b {{para3_}} {{para12_5}}")
  = [lit "{{Para1_20}}"; lit "{{para12_5}}"].
Proof. reflexivity. Qed.

Example findall_lazy_ex :
  Re.findall false [Re.Lit (lit "{{"); Re.LazyDots; Re.Lit (lit "}}")]
    (lit "x {{a}} {{ {{b}} }} {{c
}} {{d}}")
  = [lit "{{a}}"; lit "{{ {{b}}"; lit "{{d}}"].
Proof. reflexivity. Qed.

Example main_run_ex :
  Main.generate_ppt
    [Pptx.mkSlide [Pptx.text_shape 1 (lit "{{title1_1_3}}: {{Para1_5}}");
                   Pptx.text_shape 2 (lit "{{bullet1_2}}")] None]
    (lit "Cloud Security")
  = Ok [Pptx.mkSlide
          [Pptx.text_shape 1 (lit "{{title1_1_3}}: Cloud security intelligence systems automation.");
           Pptx.text_shape 2 (lit "- cloud security intelligence systems automation future
- security intelligence systems automation future solutions")] None].
Proof. vm_compute. reflexivity. Qed.

(** ** Characters *)

Ltac each_char c :=
  destruct c as [[|] [|] [|] [|] [|] [|] [|] [|]]; vm_compute; reflexivity.

Lemma is_space_to_lower c : PyStr.is_space (PyStr.to_lower c) = PyStr.is_space c.
Proof. each_char c. Qed.

Lemma is_space_to_upper c : PyStr.is_space (PyStr.to_upper c) = PyStr.is_space c.
Proof. each_char c. Qed.

Lemma to_lower_idem c : PyStr.to_lower (PyStr.to_lower c) = PyStr.to_lower c.
Proof. each_char c. Qed.

Lemma eqb_spec (a b : str) : reflect (a = b) (PyStr.eqb a b).
Proof.
  unfold PyStr.eqb. destruct (list_eq_dec ascii_dec a b); constructor; assumption.
Qed.

Lemma eqb_refl (a : str) : PyStr.eqb a a = true.
Proof. destruct (eqb_spec a a); congruence. Qed.

Lemma eqb_neq (a b : str) : a <> b -> PyStr.eqb a b = false.
Proof. destruct (eqb_spec a b); congruence. Qed.

(** ** Words: [split] and [join] *)

Lemma split_cons_nonspace c r :
  PyStr.is_space c = false -> PyStr.split (c :: r) <> [].
Proof.
  intros Hc. simpl. rewrite Hc.
  destruct r as [|c' r']; [discriminate|].
  destruct (PyStr.is_space c'); [discriminate|].
  destruct (PyStr.split (c' :: r')); discriminate.
Qed.

Lemma split_length s :
  List.length (PyStr.split s) = nwords (map PyStr.is_space s).
Proof.
  induction s as [|c r IH]; [reflexivity|].
  cbn [PyStr.split map nwords].
  destruct (PyStr.is_space c) eqn:Hc; [exact IH|].
  destruct r as [|c' r']; [reflexivity|].
  cbn [map]. cbn [map] in IH.
  destruct (PyStr.is_space c') eqn:Hc'.
  - cbn [List.length]. now rewrite IH.
  - pose proof (split_cons_nonspace c' r' Hc') as Hne.
    destruct (PyStr.split (c' :: r')) as [|w ws]; [congruence|].
    exact IH.
Qed.

Lemma split_app_word w rest :
  wordb w = true ->
  (rest = [] \/ exists c r, rest = c :: r /\ PyStr.is_space c = true) ->
  PyStr.split (w ++ rest) = w :: PyStr.split rest.
Proof.
  intros Hw Hrest. induction w as [|c w IH]; [discriminate|].
  cbn [wordb forallb] in Hw. apply andb_prop in Hw. destruct Hw as [Hc Hw].
  apply negb_true_iff in Hc.
  destruct w as [|c2 w'].
  - cbn [app PyStr.split]. rewrite Hc.
    destruct Hrest as [->|(c' & r & -> & Hs)]; [reflexivity|].
    now rewrite Hs.
  - assert (Hw2 : wordb (c2 :: w') = true) by exact Hw.
    specialize (IH Hw2).
    cbn [forallb] in Hw. apply andb_prop in Hw. destruct Hw as [Hc2 _].
    apply negb_true_iff in Hc2.
    cbn [app] in *.
    remember (c2 :: w' ++ rest) as t eqn:Ht.
    cbn [PyStr.split]. rewrite Hc. rewrite IH.
    subst t. rewrite Hc2. reflexivity.
Qed.

Lemma split_join ws :
  words ws -> PyStr.split (PyStr.join (lit " ") ws) = ws.
Proof.
  induction 1 as [|w ws Hw Hws IH]; [reflexivity|].
  destruct ws as [|w2 ws'].
  - cbn [PyStr.join]. rewrite <- (app_nil_r w) at 1.
    rewrite split_app_word; auto.
  - change (PyStr.join (lit " ") (w :: w2 :: ws'))
      with (w ++ lit " " ++ PyStr.join (lit " ") (w2 :: ws')).
    rewrite split_app_word; auto.
    + f_equal. exact IH.
    + right. eexists _, _. split; reflexivity.
Qed.

Lemma wordb_no_space w c : wordb w = true -> In c w -> PyStr.is_space c = false.
Proof.
  destruct w as [|a w]; [discriminate|]. cbn [wordb]. intros H Hin.
  rewrite forallb_forall in H. apply H in Hin. now apply negb_true_iff.
Qed.

Lemma split_words s : words (PyStr.split s).
Proof.
  unfold words. induction s as [|c r IH]; [constructor|].
  cbn [PyStr.split].
  destruct (PyStr.is_space c) eqn:Hc; [exact IH|].
  assert (Hone : wordb [c] = true) by (cbn; now rewrite Hc).
  destruct r as [|c' r']; [repeat constructor; exact Hone|].
  destruct (PyStr.is_space c') eqn:Hc'; [constructor; [exact Hone|exact IH]|].
  destruct (PyStr.split (c' :: r')) as [|w ws]; [repeat constructor; exact Hone|].
  inversion IH as [|? ? Hw Hws]; subst. constructor; [|exact Hws].
  destruct w as [|a w]; [discriminate|].
  cbn [wordb forallb] in *. now rewrite Hc.
Qed.

Lemma title_from_spaces b s :
  map PyStr.is_space (PyStr.title_from b s) = map PyStr.is_space s.
Proof.
  revert b. induction s as [|c r IH]; intros b; [reflexivity|].
  cbn [PyStr.title_from map]. rewrite IH. f_equal.
  destruct b; [apply is_space_to_lower|apply is_space_to_upper].
Qed.

Lemma capitalize_spaces s :
  map PyStr.is_space (PyStr.capitalize s) = map PyStr.is_space s.
Proof.
  destruct s as [|c r]; [reflexivity|].
  cbn [PyStr.capitalize map]. rewrite is_space_to_upper. f_equal.
  rewrite map_map. apply map_ext. intros a. apply is_space_to_lower.
Qed.

Lemma title_from_word b w y :
  PyStr.title_from b (w ++ lit " " ++ y)
  = PyStr.title_from b w ++ lit " " ++ PyStr.title y.
Proof.
  revert b. induction w as [|c w IH]; intros b.
  - destruct b; reflexivity.
  - cbn [app PyStr.title_from]. now rewrite IH.
Qed.

Lemma title_join ws :
  PyStr.title (PyStr.join (lit " ") ws)
  = PyStr.join (lit " ") (map PyStr.title ws).
Proof.
  induction ws as [|w ws IH]; [reflexivity|].
  destruct ws as [|w2 ws']; [reflexivity|].
  change (PyStr.join (lit " ") (w :: w2 :: ws'))
    with (w ++ lit " " ++ PyStr.join (lit " ") (w2 :: ws')).
  unfold PyStr.title at 1. rewrite title_from_word, IH. reflexivity.
Qed.

Lemma wordb_spaces w v :
  map PyStr.is_space w = map PyStr.is_space v -> wordb w = wordb v.
Proof.
  revert v. destruct w as [|a w]; intros [|b v] H; try discriminate; [reflexivity|].
  cbn [wordb]. revert H. generalize (a :: w) (b :: v). clear.
  induction l as [|a w IH]; intros [|b v] H; try discriminate; [reflexivity|].
  cbn [map] in H. injection H as Hab H. cbn [forallb].
  now rewrite Hab, (IH v H).
Qed.

Lemma title_words ws : words ws -> words (map PyStr.title ws).
Proof.
  unfold words. intros H. apply Forall_map. revert H. apply Forall_impl.
  intros w Hw. rewrite <- Hw. apply wordb_spaces. apply title_from_spaces.
Qed.

Lemma join_app_last sep ws x :
  ws <> [] ->
  PyStr.join sep ws ++ x = PyStr.join sep (removelast ws ++ [last ws [] ++ x]).
Proof.
  induction ws as [|w ws IH]; [congruence|]. intros _.
  destruct ws as [|w2 ws']; [reflexivity|].
  change (PyStr.join sep (w :: w2 :: ws'))
    with (w ++ sep ++ PyStr.join sep (w2 :: ws')).
  change (removelast (w :: w2 :: ws')) with (w :: removelast (w2 :: ws')).
  change (last (w :: w2 :: ws') []) with (last (w2 :: ws') []).
  rewrite <- !app_assoc, IH by discriminate.
  change ((w :: removelast (w2 :: ws')) ++ [last (w2 :: ws') [] ++ x])
    with (w :: (removelast (w2 :: ws') ++ [last (w2 :: ws') [] ++ x])).
  destruct (removelast (w2 :: ws') ++ [last (w2 :: ws') [] ++ x]) eqn:E.
  - destruct (removelast (w2 :: ws')); discriminate.
  - reflexivity.
Qed.

Lemma wordb_app w x : wordb w = true -> wordb x = true -> wordb (w ++ x) = true.
Proof.
  destruct w as [|a w]; [discriminate|]. destruct x as [|b x]; [discriminate|].
  cbn [wordb app]. intros Hw Hx.
  change (a :: w ++ b :: x) with ((a :: w) ++ b :: x).
  rewrite forallb_app. now rewrite Hw, Hx.
Qed.

Lemma words_end ws x :
  words ws -> ws <> [] -> wordb x = true ->
  words (removelast ws ++ [last ws [] ++ x]).
Proof.
  unfold words. intros H Hne Hx. apply Forall_app. split.
  - induction ws as [|w ws IH]; [constructor|].
    inversion H; subst. destruct ws as [|w2 ws']; [constructor|].
    change (removelast (w :: w2 :: ws')) with (w :: removelast (w2 :: ws')).
    constructor; [assumption|]. apply IH; [assumption|discriminate].
  - constructor; [|constructor]. apply wordb_app; [|exact Hx].
    rewrite Forall_forall in H. apply H.
    destruct ws as [|w ws]; [congruence|].
    clear. revert w. induction ws as [|w2 ws IH]; intros w; [now left|].
    right. apply IH.
Qed.

(** The number of words of a sentence: the joined words, in any casing that
    keeps whitespace where it is, closed by a full stop. *)
Lemma sentence_length ws s :
  words ws -> ws <> [] ->
  map PyStr.is_space s = map PyStr.is_space (PyStr.join (lit " ") ws) ->
  List.length (PyStr.split (s ++ lit ".")) = List.length ws.
Proof.
  intros Hws Hne Hs.
  rewrite split_length, map_app, Hs, <- map_app, <- split_length.
  rewrite join_app_last by assumption.
  rewrite split_join by (apply words_end; auto).
  rewrite length_app, removelast_firstn_len, length_firstn. cbn [List.length].
  destruct ws; [congruence|]. cbn [List.length]. lia.
Qed.

(** ** The word pool *)

Lemma static_words_words : words Main.static_words.
Proof. unfold words, Main.static_words. repeat constructor. Qed.

Lemma base_words_words topic : words (Main.base_words topic).
Proof.
  unfold words, Main.base_words. apply Forall_app. split.
  - apply split_words.
  - apply static_words_words.
Qed.

Lemma base_words_length topic :
  List.length (Main.base_words topic)
  = List.length (PyStr.split (PyStr.lower topic)) + 9.
Proof. unfold Main.base_words. now rewrite length_app. Qed.

Lemma words_firstn n ws : words ws -> words (firstn n ws).
Proof.
  unfold words. rewrite !Forall_forall. intros H w Hin.
  apply H. rewrite <- (firstn_skipn n ws). apply in_or_app. now left.
Qed.

Lemma words_skipn n ws : words ws -> words (skipn n ws).
Proof.
  unfold words. rewrite !Forall_forall. intros H w Hin.
  apply H. rewrite <- (firstn_skipn n ws). apply in_or_app. now right.
Qed.

Lemma cycle_S k pool : cycle (S k) pool = pool ++ cycle k pool.
Proof. reflexivity. Qed.

Lemma cycle_add k d pool : cycle (k + d) pool = cycle k pool ++ cycle d pool.
Proof. unfold cycle. now rewrite repeat_app, concat_app. Qed.

Lemma cycle_length k pool :
  List.length (cycle k pool) = k * List.length pool.
Proof.
  induction k as [|k IH]; [reflexivity|].
  rewrite cycle_S, length_app, IH. reflexivity.
Qed.

Lemma cycle_words k pool : words pool -> words (cycle k pool).
Proof.
  intros H. induction k as [|k IH]; [constructor|].
  rewrite cycle_S. apply Forall_app. now split.
Qed.

Lemma firstn_cycle limit k n pool :
  limit <= List.length (cycle k pool) ->
  limit <= List.length (cycle n pool) ->
  firstn limit (cycle k pool) = firstn limit (cycle n pool).
Proof.
  assert (H : forall a d, limit <= List.length (cycle a pool) ->
            firstn limit (cycle (a + d) pool) = firstn limit (cycle a pool)).
  { intros a d Ha. rewrite cycle_add, firstn_app.
    replace (limit - List.length (cycle a pool)) with 0 by lia.
    now rewrite firstn_O, app_nil_r. }
  intros Hk Hn. destruct (Nat.le_ge_cases k n) as [Hle|Hle].
  - replace n with (k + (n - k)) by lia. now rewrite H.
  - replace k with (n + (k - n)) by lia. now rewrite H.
Qed.

Lemma extend_while_ok pool :
  pool <> [] ->
  forall turns limit ws,
    limit <= List.length ws + turns ->
    exists k,
      Main.extend_while turns limit ws pool = Ok (ws ++ cycle k pool)
      /\ limit <= List.length (ws ++ cycle k pool).
Proof.
  intros Hpool.
  assert (Hlen : 1 <= List.length pool) by (destruct pool; [congruence|cbn; lia]).
  induction turns as [|t IH]; intros limit ws Hle.
  - exists 0. cbn [Main.extend_while cycle repeat concat].
    rewrite app_nil_r. destruct (Nat.ltb_spec (List.length ws) limit); [lia|].
    split; [reflexivity|lia].
  - cbn [Main.extend_while].
    destruct (Nat.ltb_spec (List.length ws) limit) as [Hlt|Hge].
    + destruct (IH limit (ws ++ pool)) as (k & Hk & Hk').
      { rewrite length_app. lia. }
      exists (S k). rewrite cycle_S, app_assoc. now split.
    + exists 0. cbn [cycle repeat concat]. rewrite app_nil_r. split; [reflexivity|lia].
Qed.

Lemma base_words_nonempty topic : Main.base_words topic <> [].
Proof.
  intros H. pose proof (base_words_length topic) as L. rewrite H in L.
  cbn in L. lia.
Qed.

(** ** Titles *)

Lemma title_from_cased r :
  forallb PyStr.is_cased r = true ->
  PyStr.title_from true r = map PyStr.to_lower r.
Proof.
  induction r as [|c r IH]; [reflexivity|].
  cbn [forallb PyStr.title_from map]. intros H.
  apply andb_prop in H. destruct H as [Hc Hr].
  now rewrite Hc, IH.
Qed.

Lemma title_letters w :
  forallb PyStr.is_cased w = true -> PyStr.title w = PyStr.capitalize w.
Proof.
  destruct w as [|c r]; [reflexivity|].
  cbn [forallb]. intros H. apply andb_prop in H. destruct H as [Hc Hr].
  unfold PyStr.title. cbn [PyStr.title_from PyStr.capitalize].
  now rewrite Hc, title_from_cased.
Qed.

Lemma generate_content_title topic part limit :
  Main.generate_content (lit "title") topic (Main.PairArg part limit)
  = Ok (Main.VStr
          (PyStr.title
             (PyStr.join (lit " ")
                (PyStr.slice_to limit
                   (if 0 <? part
                    then PyStr.slice (part - 1) (part - 1 + limit)
                           (Main.base_words topic)
                    else PyStr.slice_to limit (Main.base_words topic)))))).
Proof. reflexivity. Qed.

Lemma generate_content_subtitle topic part limit :
  Main.generate_content (lit "subtitle") topic (Main.PairArg part limit)
  = Main.generate_content (lit "title") topic (Main.PairArg part limit).
Proof. reflexivity. Qed.

Lemma title_slices {A} part limit (pool : list A) :
  PyStr.slice_to limit
    (if 0 <? part then PyStr.slice (part - 1) (part - 1 + limit) pool
     else PyStr.slice_to limit pool)
  = firstn limit (skipn (Z.to_nat (Z.max (Z.of_nat part - 1) 0)) pool).
Proof.
  unfold PyStr.slice_to, PyStr.slice.
  replace (Z.to_nat (Z.max (Z.of_nat part - 1) 0)) with (part - 1) by lia.
  destruct (Nat.ltb_spec 0 part) as [Hp|Hp].
  - replace (part - 1 + limit - (part - 1)) with limit by lia.
    rewrite firstn_firstn. now rewrite Nat.min_id.
  - replace (part - 1) with 0 by lia. cbn [skipn].
    rewrite firstn_firstn. now rewrite Nat.min_id.
Qed.

(** C3.  For every topic, part and limit, a title or subtitle token
    resolves to the window of [limit] pool words that starts at index
    [max (part - 1) 0], every word title-cased, which is how the
    specification capitalizes a word ([str.title]: a letter is upper-cased
    where it follows no letter and lower-cased where it follows one, so a
    word made of letters only comes out as [str.capitalize] makes it), and
    the words joined with single spaces; fewer words are used when the pool
    ends, and the value has at most [limit] words. *)
Theorem title_is_title_cased_window (topic : str) (part limit : nat) :
  let start := Z.to_nat (Z.max (Z.of_nat part - 1) 0) in
  let window := firstn limit (skipn start (Main.base_words topic)) in
  let value := PyStr.join (lit " ") (map PyStr.title window) in
  Main.generate_content (lit "title") topic (Main.PairArg part limit)
  = Ok (Main.VStr value)
  /\ Main.generate_content (lit "subtitle") topic (Main.PairArg part limit)
     = Ok (Main.VStr value)
  /\ PyStr.split value = map PyStr.title window
  /\ List.length (PyStr.split value) <= limit
  /\ map (fun w => if forallb PyStr.is_cased w then PyStr.capitalize w
                   else PyStr.title w) window
     = map PyStr.title window.
Proof.
  intros start window value.
  assert (Hgen : Main.generate_content (lit "title") topic
                   (Main.PairArg part limit) = Ok (Main.VStr value)).
  { rewrite generate_content_title, title_slices, title_join. reflexivity. }
  assert (Hw : words window).
  { apply words_firstn, words_skipn, base_words_words. }
  assert (Hsplit : PyStr.split value = map PyStr.title window).
  { apply split_join, title_words, Hw. }
  repeat split.
  - exact Hgen.
  - rewrite generate_content_subtitle. exact Hgen.
  - exact Hsplit.
  - rewrite Hsplit, length_map. apply firstn_le_length.
  - apply map_ext. intros w.
    destruct (forallb PyStr.is_cased w) eqn:E; [|reflexivity].
    symmetry. now apply title_letters.
Qed.

(** In a word with a hyphen, the letter after the hyphen is upper-cased
    too. *)
Example title_of_a_hyphenated_word :
  Main.generate_content (lit "title") (lit "e-mail security")
    (Main.PairArg 1 2)
  = Ok (Main.VStr (lit "E-Mail Security")).
Proof. reflexivity. Qed.

(** ** Paragraphs *)

Lemma generate_content_para topic limit :
  Main.generate_content (lit "para") topic (Main.IntArg limit)
  = (words <- Main.extend_while limit limit [] (Main.base_words topic) ;;
     Ok (Main.VStr
           (PyStr.capitalize
              (PyStr.join (lit " ") (PyStr.slice_to limit words))
            ++ lit "."))).
Proof. reflexivity. Qed.

Lemma to_lower_word_fixed w :
  Forall (fun c => PyStr.to_lower c = c) w -> map PyStr.to_lower w = w.
Proof.
  induction 1 as [|c r Hc Hr IH]; [reflexivity|].
  cbn [map]. now rewrite Hc, IH.
Qed.

Lemma split_chars s w c : In w (PyStr.split s) -> In c w -> In c s.
Proof.
  revert w. induction s as [|a r IH]; intros w Hw Hc; [destruct Hw|].
  cbn [PyStr.split] in Hw.
  destruct (PyStr.is_space a); [right; eapply IH; eauto|].
  assert (Hone : forall v, In v [[a]] -> In c v -> In c (a :: r)).
  { intros v [<-|[]] [<-|[]]. now left. }
  destruct r as [|c' r']; [eapply Hone; eauto|].
  destruct (PyStr.is_space c').
  - destruct Hw as [<-|Hw]; [destruct Hc as [<-|[]]; now left|].
    right; eapply IH; eauto.
  - destruct (PyStr.split (c' :: r')) as [|v vs]; [eapply Hone; eauto|].
    destruct Hw as [<-|Hw].
    + destruct Hc as [<-|Hc]; [now left|]. right. eapply IH; [now left|exact Hc].
    + right. eapply IH; [right; exact Hw|exact Hc].
Qed.

Lemma base_words_lowered topic : lowered (Main.base_words topic).
Proof.
  unfold lowered, Main.base_words. apply Forall_app. split.
  - rewrite Forall_forall. intros w Hw. rewrite Forall_forall. intros c Hc.
    pose proof (split_chars _ _ _ Hw Hc) as Hin.
    unfold PyStr.lower in Hin. apply in_map_iff in Hin.
    destruct Hin as (a & <- & _). apply to_lower_idem.
  - unfold Main.static_words. repeat constructor.
Qed.

Lemma join_lowered ws :
  lowered ws -> Forall (fun c => PyStr.to_lower c = c) (PyStr.join (lit " ") ws).
Proof.
  induction 1 as [|w ws Hw Hws IH]; [constructor|].
  destruct ws as [|w2 ws']; [exact Hw|].
  change (PyStr.join (lit " ") (w :: w2 :: ws'))
    with (w ++ lit " " ++ PyStr.join (lit " ") (w2 :: ws')).
  apply Forall_app. split; [exact Hw|].
  apply Forall_app. split; [repeat constructor|exact IH].
Qed.

Lemma lowered_firstn n ws : lowered ws -> lowered (firstn n ws).
Proof.
  unfold lowered. rewrite !Forall_forall. intros H w Hin.
  apply H. rewrite <- (firstn_skipn n ws). apply in_or_app. now left.
Qed.

Lemma lowered_cycle k pool : lowered pool -> lowered (cycle k pool).
Proof.
  intros H. induction k as [|k IH]; [constructor|].
  rewrite cycle_S. apply Forall_app. now split.
Qed.

Lemma join_nonempty ws :
  words ws -> ws <> [] -> PyStr.join (lit " ") ws <> [].
Proof.
  intros H Hne. destruct ws as [|w ws]; [congruence|].
  inversion H as [|? ? Hw _]; subst.
  destruct w as [|c w]; [discriminate|].
  destruct ws; discriminate.
Qed.

(** C4.  For every topic and every limit [L >= 1], a paragraph token
    resolves to the first [L] words of the pool repeated as often as needed
    (any number [n] of copies that holds [L] words gives the same ones),
    joined with single spaces, the first character of the whole string
    upper-cased, nothing else changed, and a full stop appended: a sentence
    of [L] words. *)
Theorem para_is_sentence (topic : str) (L n : nat)
  (HL : 1 <= L)
  (Hn : L <= List.length (cycle n (Main.base_words topic))) :
  let ws := firstn L (cycle n (Main.base_words topic)) in
  let value := PyStr.capitalize (PyStr.join (lit " ") ws) ++ lit "." in
  Main.generate_content (lit "para") topic (Main.IntArg L)
  = Ok (Main.VStr value)
  /\ L <= List.length (cycle L (Main.base_words topic))
  /\ List.length ws = L
  /\ PyStr.split (PyStr.join (lit " ") ws) = ws
  /\ List.length (PyStr.split value) = L
  /\ exists c rest,
       PyStr.join (lit " ") ws = c :: rest
       /\ value = PyStr.to_upper c :: rest ++ lit ".".
Proof.
  intros ws value.
  pose proof (base_words_nonempty topic) as Hne.
  pose proof (base_words_length topic) as Hlen.
  assert (Hws : words ws) by (apply words_firstn, cycle_words, base_words_words).
  assert (HwsL : List.length ws = L) by (apply firstn_length_le; exact Hn).
  assert (Hws0 : ws <> []) by (intros E; rewrite E in HwsL; cbn in HwsL; lia).
  repeat split.
  - rewrite generate_content_para.
    destruct (extend_while_ok _ Hne L L []) as (k & Hk & Hk'); [cbn; lia|].
    rewrite Hk. cbn [bind app] in *. unfold PyStr.slice_to.
    rewrite (firstn_cycle L k n) by assumption. reflexivity.
  - rewrite cycle_length. nia.
  - exact HwsL.
  - now apply split_join.
  - unfold value. rewrite sentence_length with (ws := ws); auto.
    apply capitalize_spaces.
  - pose proof (join_nonempty ws Hws Hws0) as Hj.
    pose proof (join_lowered ws
                  (lowered_firstn L _ (lowered_cycle n _ (base_words_lowered topic))))
      as Hlow.
    unfold value. revert Hj Hlow. generalize (PyStr.join (lit " ") ws).
    intros [|c rest] Hj Hlow; [congruence|].
    exists c, rest. split; [reflexivity|].
    cbn [PyStr.capitalize]. inversion Hlow as [|? ? Hc Hr].
    now rewrite (to_lower_word_fixed rest Hr).
Qed.

Lemma para_is_sentence_witness :
  1 <= 5
  /\ 5 <= List.length (cycle 1 (Main.base_words (lit "Cloud Security")))
  /\ Main.generate_content (lit "para") (lit "Cloud Security") (Main.IntArg 5)
     = Ok (Main.VStr (lit "Cloud security intelligence systems automation.")).
Proof.
  assert (H1 : 1 <= 5) by lia.
  assert (H2 : 5 <= List.length (cycle 1 (Main.base_words (lit "Cloud Security"))))
    by (vm_compute; lia).
  split; [exact H1|]. split; [exact H2|].
  exact (proj1 (para_is_sentence (lit "Cloud Security") 5 1 H1 H2)).
Defined.

(** ** Bullet lists *)

Lemma foldM_collect {A B} (h : A -> B) (f : list B -> A -> res (list B)) :
  (forall acc a, f acc a = Ok (acc ++ [h a])) ->
  forall l acc, foldM f l acc = Ok (acc ++ map h l).
Proof.
  intros Hf. induction l as [|a l IH]; intros acc.
  - cbn. now rewrite app_nil_r.
  - cbn [foldM map]. rewrite Hf. cbn [bind]. rewrite IH, <- app_assoc.
    reflexivity.
Qed.

Lemma extend_while_done turns limit ws pool :
  limit <= List.length ws -> Main.extend_while turns limit ws pool = Ok ws.
Proof.
  intros H. destruct turns; cbn [Main.extend_while];
    destruct (Nat.ltb_spec (List.length ws) limit); (lia || reflexivity).
Qed.

Lemma extend_while_step turns limit ws pool :
  List.length ws < limit ->
  Main.extend_while (S turns) limit ws pool
  = Main.extend_while turns limit (ws ++ pool) pool.
Proof.
  intros H. cbn [Main.extend_while].
  destruct (Nat.ltb_spec (List.length ws) limit); (lia || reflexivity).
Qed.

Lemma bullet_words_spec_length pool i :
  6 <= List.length pool -> List.length (bullet_words_spec pool i) = 6.
Proof.
  intros H. unfold bullet_words_spec. apply firstn_length_le.
  destruct (Nat.leb_spec 6 (List.length (skipn i pool))); [assumption|].
  rewrite length_app. lia.
Qed.

Lemma bullet_words_spec_words pool i :
  words pool -> words (bullet_words_spec pool i).
Proof.
  intros H. unfold bullet_words_spec. apply words_firstn.
  destruct (6 <=? List.length (skipn i pool)).
  - now apply words_skipn.
  - apply Forall_app. split; [now apply words_skipn|assumption].
Qed.

Lemma bullet_step pool bullets i :
  6 <= List.length pool ->
  (b <- Main.extend_while 6 6 (PyStr.slice i (i + 6) pool) pool ;;
   Ok (bullets ++ [lit "- " ++ PyStr.join (lit " ") (PyStr.slice_to 6 b)]))
  = Ok (bullets
        ++ [lit "- " ++ PyStr.join (lit " ") (bullet_words_spec pool i)]).
Proof.
  intros Hpool. unfold PyStr.slice, PyStr.slice_to, bullet_words_spec.
  replace (i + 6 - i) with 6 by lia.
  destruct (Nat.leb_spec 6 (List.length (skipn i pool))) as [Hr|Hr].
  - rewrite extend_while_done by (rewrite firstn_length_le; lia).
    cbn [bind]. rewrite firstn_firstn. reflexivity.
  - rewrite firstn_all2 by lia.
    rewrite extend_while_step by lia.
    rewrite extend_while_done by (rewrite length_app; lia).
    reflexivity.
Qed.

Lemma generate_content_bullet topic count :
  Main.generate_content (lit "bullet") topic (Main.IntArg count)
  = (bullets <-
       foldM (fun bullets i =>
                b <- Main.extend_while 6 6
                       (PyStr.slice i (i + 6) (Main.base_words topic))
                       (Main.base_words topic) ;;
                Ok (bullets
                    ++ [lit "- " ++ PyStr.join (lit " ") (PyStr.slice_to 6 b)]))
             (seq 0 count) [] ;;
     Ok (Main.VStr (PyStr.join (lit "
") bullets))).
Proof. reflexivity. Qed.

(** Lines *)

Lemma split_on_clean l : one_line l -> PyStr.split_on nl l = [l].
Proof.
  induction 1 as [|c r Hc Hr IH]; [reflexivity|].
  cbn [PyStr.split_on]. now rewrite Hc, IH.
Qed.

Lemma split_on_sep l r :
  one_line l -> PyStr.split_on nl (l ++ nl :: r) = l :: PyStr.split_on nl r.
Proof.
  induction 1 as [|c l Hc Hl IH].
  - cbn [app PyStr.split_on]. now rewrite Ascii.eqb_refl.
  - cbn [app PyStr.split_on]. now rewrite Hc, IH.
Qed.

Lemma split_on_join ls :
  Forall one_line ls -> ls <> [] ->
  PyStr.split_on nl (PyStr.join [nl] ls) = ls.
Proof.
  induction 1 as [|l ls Hl Hls IH]; [congruence|]. intros _.
  destruct ls as [|l2 ls'].
  - now apply split_on_clean.
  - change (PyStr.join [nl] (l :: l2 :: ls'))
      with (l ++ nl :: PyStr.join [nl] (l2 :: ls')).
    rewrite split_on_sep by assumption. f_equal. apply IH. discriminate.
Qed.

Lemma lines_join ls :
  Forall one_line ls -> Forall (fun l => l <> []) ls ->
  PyStr.lines (PyStr.join [nl] ls) = ls.
Proof.
  intros H1 H2. destruct ls as [|l ls]; [reflexivity|].
  pose proof (split_on_join (l :: ls) H1) as E.
  unfold PyStr.lines. fold nl.
  destruct (PyStr.join [nl] (l :: ls)) eqn:J.
  - inversion H2 as [|? ? Hl _]; subst. destruct l; [congruence|].
    destruct ls; discriminate.
  - apply E. discriminate.
Qed.

Lemma word_one_line w : wordb w = true -> one_line w.
Proof.
  intros Hw. unfold one_line. rewrite Forall_forall. intros c Hc.
  pose proof (wordb_no_space w c Hw Hc) as Hs.
  destruct (Ascii.eqb_spec c nl) as [->|]; [discriminate Hs|reflexivity].
Qed.

Lemma join_one_line ws : words ws -> one_line (PyStr.join (lit " ") ws).
Proof.
  induction 1 as [|w ws Hw Hws IH]; [constructor|].
  destruct ws as [|w2 ws']; [now apply word_one_line|].
  change (PyStr.join (lit " ") (w :: w2 :: ws'))
    with (w ++ lit " " ++ PyStr.join (lit " ") (w2 :: ws')).
  apply Forall_app. split; [now apply word_one_line|].
  apply Forall_app. split; [repeat constructor|exact IH].
Qed.

Lemma generate_content_bullet_value topic count :
  Main.generate_content (lit "bullet") topic (Main.IntArg count)
  = Ok (Main.VStr
          (PyStr.join [nl]
             (map (fun i =>
                     lit "- "
                     ++ PyStr.join (lit " ")
                          (bullet_words_spec (Main.base_words topic) i))
                  (seq 0 count)))).
Proof.
  rewrite generate_content_bullet.
  rewrite (foldM_collect
             (fun i => lit "- "
                       ++ PyStr.join (lit " ")
                            (bullet_words_spec (Main.base_words topic) i))).
  - reflexivity.
  - intros acc i. apply bullet_step. rewrite base_words_length. lia.
Qed.

Lemma generate_content_bullet_ok topic count :
  exists v, Main.generate_content (lit "bullet") topic (Main.IntArg count) = Ok v.
Proof. eexists. apply generate_content_bullet_value. Qed.

(** C2.  For every topic and every count [Y], the bullet-list value is made
    of exactly [Y] lines separated by line feeds; line [i] is "- " followed
    by the 6 words, joined with single spaces, that the pool holds from
    offset [i] on, the whole pool being appended again where fewer than 6
    words remain. *)
Theorem bullet_list_lines (topic : str) (Y : nat) :
  let pool := Main.base_words topic in
  let line i := lit "- " ++ PyStr.join (lit " ") (bullet_words_spec pool i) in
  let value := PyStr.join [nl] (map line (seq 0 Y)) in
  Main.generate_content (lit "bullet") topic (Main.IntArg Y)
  = Ok (Main.VStr value)
  /\ PyStr.lines value = map line (seq 0 Y)
  /\ List.length (PyStr.lines value) = Y
  /\ forall i,
       List.length (bullet_words_spec pool i) = 6
       /\ PyStr.split (PyStr.join (lit " ") (bullet_words_spec pool i))
          = bullet_words_spec pool i.
Proof.
  intros pool line value.
  assert (Hpool : 6 <= List.length pool).
  { unfold pool. rewrite base_words_length. lia. }
  assert (Hwords : words pool) by apply base_words_words.
  assert (Hlines : PyStr.lines value = map line (seq 0 Y)).
  { apply lines_join.
    - apply Forall_map, Forall_forall. intros i _. unfold line.
      apply Forall_app. split; [repeat constructor|].
      apply join_one_line, bullet_words_spec_words, Hwords.
    - apply Forall_map, Forall_forall. intros i _. discriminate. }
  repeat split.
  - apply generate_content_bullet_value.
  - exact Hlines.
  - rewrite Hlines, length_map, length_seq. reflexivity.
  - now apply bullet_words_spec_length.
  - apply split_join, bullet_words_spec_words, Hwords.
Qed.

(** ** Dictionaries *)

Lemma get_set_same {V} (m : Dict.dict V) k v : Dict.get (Dict.set m k v) k = Some v.
Proof.
  induction m as [|[k' v'] m IH]; cbn [Dict.set Dict.get].
  - now rewrite eqb_refl.
  - destruct (PyStr.eqb k' k) eqn:E; cbn [Dict.get].
    + now rewrite eqb_refl.
    + now rewrite E.
Qed.

Lemma get_set_other {V} (m : Dict.dict V) k v k' :
  k <> k' -> Dict.get (Dict.set m k v) k' = Dict.get m k'.
Proof.
  intros Hne. induction m as [|[k0 v0] m IH]; cbn [Dict.set Dict.get].
  - now rewrite eqb_neq.
  - destruct (eqb_spec k0 k) as [->|Hk]; cbn [Dict.get].
    + now rewrite eqb_neq.
    + now rewrite IH.
Qed.

Lemma keys_set {V} (m : Dict.dict V) k v :
  (In k (Dict.keys m) /\ Dict.keys (Dict.set m k v) = Dict.keys m)
  \/ (~ In k (Dict.keys m) /\ Dict.keys (Dict.set m k v) = Dict.keys m ++ [k]).
Proof.
  induction m as [|[k0 v0] m IH]; cbn [Dict.set Dict.keys map fst].
  - right. split; [intros []|reflexivity].
  - destruct (eqb_spec k0 k) as [->|Hk]; cbn [map fst].
    + left. split; [now left|reflexivity].
    + destruct IH as [[Hin E]|[Hin E]]; unfold Dict.keys in *.
      * left. split; [now right|now rewrite E].
      * right. split; [intros [?|?]; congruence|now rewrite E].
Qed.

Lemma keys_set_in {V} (m : Dict.dict V) k v k' :
  In k' (Dict.keys (Dict.set m k v)) <-> k' = k \/ In k' (Dict.keys m).
Proof.
  destruct (keys_set m k v) as [[Hin E]|[Hin E]]; rewrite E.
  - split; [now right|]. intros [->|H]; assumption.
  - rewrite in_app_iff. cbn [In]. split.
    + intros [H|[H|[]]]; [now right|now left].
    + intros [->|H]; [right; now left|now left].
Qed.

Lemma keys_set_nodup {V} (m : Dict.dict V) k v :
  NoDup (Dict.keys m) -> NoDup (Dict.keys (Dict.set m k v)).
Proof.
  intros H. destruct (keys_set m k v) as [[Hin E]|[Hin E]]; rewrite E.
  - exact H.
  - apply NoDup_app; [exact H|repeat constructor; intros []|].
    intros x Hx [<-|[]]. contradiction.
Qed.

Lemma entries_notin {V} (m : Dict.dict V) k :
  ~ In k (Dict.keys m) -> Dict.entries m k = 0.
Proof.
  unfold Dict.entries. induction m as [|[k0 v0] m IH]; [reflexivity|].
  cbn [Dict.keys map fst In filter]. intros H.
  destruct (eqb_spec k0 k) as [->|Hk]; [exfalso; apply H; now left|].
  apply IH. intros Hin. apply H. now right.
Qed.

Lemma entries_nodup {V} (m : Dict.dict V) k :
  NoDup (Dict.keys m) -> In k (Dict.keys m) -> Dict.entries m k = 1.
Proof.
  unfold Dict.entries. induction m as [|[k0 v0] m IH]; [intros _ []|].
  cbn [Dict.keys map fst In filter]. intros Hnd Hin.
  inversion Hnd as [|? ? Hk0 Hnd']; subst.
  destruct (eqb_spec k0 k) as [->|Hk].
  - cbn [List.length]. f_equal. now apply entries_notin.
  - destruct Hin as [?|Hin]; [congruence|]. now apply IH.
Qed.

Lemma apply_updates_app {V} (a b : list (str * V)) m :
  apply_updates (a ++ b) m = apply_updates b (apply_updates a m).
Proof. apply fold_left_app. Qed.

Lemma apply_updates_nodup {V} (ups : list (str * V)) m :
  NoDup (Dict.keys m) -> NoDup (Dict.keys (apply_updates ups m)).
Proof.
  revert m. induction ups as [|[k v] ups IH]; intros m H; [exact H|].
  cbn [apply_updates fold_left fst snd]. apply IH. now apply keys_set_nodup.
Qed.

Lemma apply_updates_keys {V} (ups : list (str * V)) m k :
  In k (Dict.keys (apply_updates ups m))
  <-> In k (Dict.keys m) \/ In k (map fst ups).
Proof.
  revert m. induction ups as [|[k0 v] ups IH]; intros m.
  - cbn. tauto.
  - cbn [apply_updates fold_left fst snd map In].
    change (fold_left (fun m kv => Dict.set m (fst kv) (snd kv)) ups
              (Dict.set m k0 v)) with (apply_updates ups (Dict.set m k0 v)).
    rewrite IH, keys_set_in. intuition congruence.
Qed.

Lemma apply_updates_get {V} (ups : list (str * V)) m k :
  ~ In k (map fst ups) -> Dict.get (apply_updates ups m) k = Dict.get m k.
Proof.
  revert m. induction ups as [|[k0 v] ups IH]; intros m H; [reflexivity|].
  cbn [apply_updates fold_left fst snd map In] in *.
  change (fold_left (fun m kv => Dict.set m (fst kv) (snd kv)) ups
            (Dict.set m k0 v)) with (apply_updates ups (Dict.set m k0 v)).
  rewrite IH by tauto. apply get_set_other. intros ->. apply H. now left.
Qed.

(** ** Matches *)

Lemma drop_literal_suffix ic l s rest :
  Re.drop_literal ic l s = Some rest -> exists pre, s = pre ++ rest.
Proof.
  revert s. induction l as [|a l IH]; intros s H.
  - injection H as <-. now exists [].
  - destruct s as [|b s]; [discriminate|]. cbn [Re.drop_literal] in H.
    destruct (if ic then _ else _); [|discriminate].
    destruct (IH _ H) as (pre & ->). now exists (b :: pre).
Qed.

Lemma span_digits_app s : s = fst (Re.span_digits s) ++ snd (Re.span_digits s).
Proof.
  induction s as [|c r IH]; [reflexivity|]. cbn [Re.span_digits].
  destruct (PyStr.is_digit c); [|reflexivity].
  destruct (Re.span_digits r). cbn [fst snd] in *. now rewrite IH at 1.
Qed.

Lemma match_here_sound ic p :
  forall s gs rest,
    Re.match_here ic p s = Some (gs, rest) ->
    (exists pre, s = pre ++ rest) /\ List.length gs = ngroups p.
Proof.
  induction p as [|it p IH]; intros s gs rest H.
  - injection H as <- <-. split; [now exists []|reflexivity].
  - destruct it as [l| |alts|]; cbn [Re.match_here ngroups] in H |- *.
    + destruct (Re.drop_literal ic l s) as [r1|] eqn:E; [|discriminate].
      destruct (drop_literal_suffix _ _ _ _ E) as (pre1 & ->).
      destruct (IH _ _ _ H) as [(pre2 & ->) Hg].
      split; [exists (pre1 ++ pre2); now rewrite app_assoc|exact Hg].
    + pose proof (span_digits_app s) as Es.
      destruct (Re.span_digits s) as [d r1]. cbn [fst snd] in Es.
      destruct d as [|c d]; [discriminate|].
      destruct (Re.match_here ic p r1) as [[gs' rest']|] eqn:E; [|discriminate].
      injection H as <- <-.
      destruct (IH _ _ _ E) as [(pre2 & ->) Hg].
      split; [exists ((c :: d) ++ pre2); now rewrite <- app_assoc|].
      cbn [List.length]. now rewrite Hg.
    + induction alts as [|a alts IHa]; [discriminate|].
      destruct (Re.drop_literal ic a s) as [r1|] eqn:E; [|now apply IHa].
      destruct (Re.match_here ic p r1) as [[gs' rest']|] eqn:E2;
        [|now apply IHa].
      injection H as <- <-.
      destruct (drop_literal_suffix _ _ _ _ E) as (pre1 & ->).
      destruct (IH _ _ _ E2) as [(pre2 & ->) Hg].
      split; [exists (pre1 ++ pre2); now rewrite app_assoc|].
      cbn [List.length]. now rewrite Hg.
    + induction s as [|c r IHs].
      * destruct (Re.match_here ic p []) as [[gs' rest']|] eqn:E; [|discriminate].
        injection H as <- <-. exact (IH _ _ _ E).
      * destruct (Re.match_here ic p (c :: r)) as [[gs' rest']|] eqn:E.
        -- injection H as <- <-. exact (IH _ _ _ E).
        -- destruct (Ascii.eqb c "010"); [discriminate|].
           destruct (IHs H) as [(pre & ->) Hg].
           split; [now exists (c :: pre)|exact Hg].
Qed.

Lemma rematch_sound ic p s m :
  Re.rematch ic p s = Some m ->
  exists rest,
    s = Re.group0 m ++ rest
    /\ Re.match_here ic p s = Some (Re.groups m, rest).
Proof.
  unfold Re.rematch. intros H.
  destruct (Re.match_here ic p s) as [[gs rest]|] eqn:E; [|discriminate].
  injection H as <-. cbn [Re.group0 Re.groups]. exists rest.
  destruct (match_here_sound _ _ _ _ _ E) as [(pre & ->) _].
  split; [|reflexivity]. f_equal.
  rewrite length_app. replace (_ + _ - _) with (List.length pre + 0) by lia.
  rewrite firstn_app_2. cbn [firstn]. now rewrite app_nil_r.
Qed.

Lemma finditer_sound ic p :
  forall s k m,
    In m (Re.finditer_from ic p k s) ->
    exists tail, Re.rematch ic p tail = Some m.
Proof.
  induction s as [|c r IH]; intros k m H; [destruct H|].
  cbn [Re.finditer_from] in H. destruct k as [|k]; [|eauto].
  destruct (Re.rematch ic p (c :: r)) as [m0|] eqn:E; [|eauto].
  destruct H as [<-|H]; eauto.
Qed.

Lemma finditer_groups ic p s m :
  In m (Re.finditer ic p s) -> List.length (Re.groups m) = ngroups p.
Proof.
  intros H. destruct (finditer_sound _ _ _ _ _ H) as (tail & Ht).
  destruct (rematch_sound _ _ _ _ Ht) as (rest & _ & Hm).
  exact (proj2 (match_here_sound _ _ _ _ _ Hm)).
Qed.

(** ** The scanning pass of main.py *)

Lemma updates_bind {V} (c : res (Dict.dict V)) k m ks1 ks2 :
  updates_with c m ks1 ->
  (forall m', updates_with (k m') m' ks2) ->
  updates_with (x <- c ;; k x) m (ks1 ++ ks2).
Proof.
  intros (u1 & -> & <-) Hk. destruct (Hk (apply_updates u1 m)) as (u2 & E & <-).
  exists (u1 ++ u2). cbn [bind]. rewrite E, apply_updates_app, map_app.
  now split.
Qed.

Lemma updates_nil {V} (m : Dict.dict V) : updates_with (Ok m) m [].
Proof. now exists []. Qed.

Lemma foldM_sets {A V} (g : A -> res V) (key : A -> str)
  (f : Dict.dict V -> A -> res (Dict.dict V)) l :
  (forall m a, f m a = (v <- g a ;; Ok (Dict.set m (key a) v))) ->
  (forall a, In a l -> exists v, g a = Ok v) ->
  forall m, updates_with (foldM f l m) m (map key l).
Proof.
  intros Hf. induction l as [|a l IH]; intros Hg m.
  - apply updates_nil.
  - cbn [foldM map].
    change (key a :: map key l) with ([key a] ++ map key l).
    apply updates_bind.
    + rewrite Hf. destruct (Hg a (or_introl eq_refl)) as (v & ->).
      now exists [(key a, v)].
    + intros m'. apply IH. intros b Hb. apply Hg. now right.
Qed.

Lemma foldM_updates {A V} (f : Dict.dict V -> A -> res (Dict.dict V))
  (keys_of : A -> list str) l :
  (forall m a, In a l -> updates_with (f m a) m (keys_of a)) ->
  forall m, updates_with (foldM f l m) m (flat_map keys_of l).
Proof.
  induction l as [|a l IH]; intros Hf m.
  - apply updates_nil.
  - cbn [foldM flat_map]. apply updates_bind.
    + apply Hf. now left.
    + intros m'. apply IH. intros m'' b Hb. apply Hf. now right.
Qed.

Lemma generate_content_title_ok typ topic part limit :
  typ = lit "title" \/ typ = lit "subtitle" ->
  exists v, Main.generate_content typ topic (Main.PairArg part limit) = Ok v.
Proof. intros [->| ->]; eexists; reflexivity. Qed.

Lemma generate_content_para_ok topic limit :
  exists v, Main.generate_content (lit "para") topic (Main.IntArg limit) = Ok v.
Proof.
  rewrite generate_content_para.
  destruct (extend_while_ok _ (base_words_nonempty topic) limit limit [])
    as (k & -> & _); [cbn; lia|].
  eexists. reflexivity.
Qed.

Lemma three_stage typ name topic text m :
  typ = lit "title" \/ typ = lit "subtitle" ->
  updates_with
    (foldM (fun m mt =>
              match map PyStr.int (Re.groups mt) with
              | [_; y; z] =>
                  content <- Main.generate_content typ topic
                               (Main.PairArg y z) ;;
                  Ok (Dict.set m (Re.group0 mt) content)
              | _ => Raise ValueError
              end)
           (Re.finditer true (Main.three_numbers name) text) m)
    m (Re.findall true (Main.three_numbers name) text).
Proof.
  intros Htyp. unfold Re.findall.
  apply foldM_sets with
    (g := fun mt => match map PyStr.int (Re.groups mt) with
                    | [_; y; z] =>
                        Main.generate_content typ topic (Main.PairArg y z)
                    | _ => Raise ValueError
                    end).
  - intros m0 mt.
    destruct (map PyStr.int (Re.groups mt)) as [|? [|? [|? [|? ?]]]]; reflexivity.
  - intros mt Hin. pose proof (finditer_groups _ _ _ _ Hin) as Hg.
    cbn [Main.three_numbers ngroups] in Hg.
    destruct (Re.groups mt) as [|a [|b [|c [|? ?]]]]; try discriminate Hg.
    cbn [map]. now apply generate_content_title_ok.
Qed.

Lemma two_stage typ name topic text m :
  (forall y, exists v, Main.generate_content typ topic (Main.IntArg y) = Ok v) ->
  updates_with
    (foldM (fun m mt =>
              match map PyStr.int (Re.groups mt) with
              | [_; y] =>
                  content <- Main.generate_content typ topic (Main.IntArg y) ;;
                  Ok (Dict.set m (Re.group0 mt) content)
              | _ => Raise ValueError
              end)
           (Re.finditer true (Main.two_numbers name) text) m)
    m (Re.findall true (Main.two_numbers name) text).
Proof.
  intros Hok. unfold Re.findall.
  apply foldM_sets with
    (g := fun mt => match map PyStr.int (Re.groups mt) with
                    | [_; y] => Main.generate_content typ topic (Main.IntArg y)
                    | _ => Raise ValueError
                    end).
  - intros m0 mt.
    destruct (map PyStr.int (Re.groups mt)) as [|? [|? [|? ?]]]; reflexivity.
  - intros mt Hin. pose proof (finditer_groups _ _ _ _ Hin) as Hg.
    cbn [Main.two_numbers ngroups] in Hg.
    destruct (Re.groups mt) as [|a [|b [|? ?]]]; try discriminate Hg.
    cbn [map]. apply Hok.
Qed.

Lemma static_stage key topic text m :
  (exists v, Main.generate_content (lit key) topic Main.NoArgs = Ok v) ->
  updates_with
    (match Re.search true [Re.Lit (lit "{{" ++ lit key ++ lit "}}")] text with
     | Some _ =>
         content <- Main.generate_content (lit key) topic Main.NoArgs ;;
         Ok (Dict.set m (lit "{{" ++ lit key ++ lit "}}") content)
     | None => Ok m
     end)
    m (static_key key text).
Proof.
  intros (v & Hv). unfold static_key.
  destruct (Re.search true _ text).
  - rewrite Hv. now exists [(lit "{{" ++ lit key ++ lit "}}", v)].
  - apply updates_nil.
Qed.

Lemma scan_run_updates topic m text :
  updates_with (Main.scan_run topic m text) m (scan_keys text).
Proof.
  unfold Main.scan_run, scan_keys. cbn [foldM].
  change (Main.pattern_of (lit "title")) with (Ok (Main.three_numbers "title")).
  change (Main.pattern_of (lit "subtitle"))
    with (Ok (Main.three_numbers "subtitle")).
  change (Main.pattern_of (lit "para")) with (Ok (Main.two_numbers "para")).
  change (Main.pattern_of (lit "bullet")) with (Ok (Main.two_numbers "bullet")).
  change (Main.pattern_of (lit "thankumess"))
    with (Ok [Re.Lit (lit "{{" ++ lit "thankumess" ++ lit "}}")]).
  change (Main.pattern_of (lit "personname"))
    with (Ok [Re.Lit (lit "{{" ++ lit "personname" ++ lit "}}")]).
  change (Main.pattern_of (lit "graphimage"))
    with (Ok [Re.Lit (lit "{{" ++ lit "graphimage" ++ lit "}}")]).
  change (Main.pattern_of (lit "icon"))
    with (Ok [Re.Lit (lit "{{icon"); Re.Digits; Re.Lit (lit "}}")]).
  cbn [bind].
  match goal with
  | |- updates_with ?c m (?A ++ ?B ++ ?C ++ ?D ++ ?E ++ ?F ++ ?G ++ ?H) =>
      cut (updates_with c m
             ((A ++ B ++ []) ++ C ++ D ++ (E ++ F ++ G ++ []) ++ H))
  end.
  { now rewrite !app_nil_r, <- !app_assoc. }
  apply updates_bind.
  { apply updates_bind; [apply three_stage; now left|]. intros m1.
    apply updates_bind; [apply three_stage; now right|]. intros m2.
    apply updates_nil. }
  intros m1. apply updates_bind.
  { apply two_stage. intros y. apply generate_content_para_ok. }
  intros m2. apply updates_bind.
  { apply two_stage. intros y. apply generate_content_bullet_ok. }
  intros m3. apply updates_bind.
  { apply updates_bind; [apply static_stage; eexists; reflexivity|]. intros m4.
    apply updates_bind; [apply static_stage; eexists; reflexivity|]. intros m5.
    apply updates_bind; [apply static_stage; eexists; reflexivity|]. intros m6.
    apply updates_nil. }
  intros m4. unfold Re.findall.
  apply foldM_sets with
    (g := fun _ : Re.rmatch =>
            Main.generate_content (lit "icon") topic Main.NoArgs).
  - reflexivity.
  - intros mt _. eexists. reflexivity.
Qed.

Lemma base_words_two topic :
  PyStr.slice_to 2 (Main.base_words topic)
  = [nth 0 (Main.base_words topic) []; nth 1 (Main.base_words topic) []].
Proof.
  pose proof (base_words_length topic) as H.
  destruct (Main.base_words topic) as [|a [|b l]]; cbn in H; try lia.
  reflexivity.
Qed.

Lemma generate_content_topic topic :
  Main.generate_content (lit "topic") topic Main.NoArgs
  = Ok (Main.VList (PyStr.slice_to 2 (Main.base_words topic))).
Proof. reflexivity. Qed.

Lemma placeholder_map_updates prs topic :
  updates_with (Main.placeholder_map prs topic) (topic_entries topic)
    (flat_map scan_keys (Main.run_texts prs)).
Proof.
  unfold Main.placeholder_map.
  rewrite generate_content_topic, base_words_two. cbn [bind Main.item nth_error].
  apply foldM_updates. intros m text _. apply scan_run_updates.
Qed.

(** C10.  For every topic, the empty one and those of one word too, the
    pool ends with the 9 static words and so holds at least 9 words; the
    topic kind yields two words, both indices 0 and 1 are in bounds, the
    second word is a static one when the topic has fewer than two words,
    and the start of [generate_ppt] never fails on them. *)
Theorem topic_words_in_bounds (topic : str) :
  let topic_part := PyStr.split (PyStr.lower topic) in
  Main.base_words topic = topic_part ++ Main.static_words
  /\ List.length Main.static_words = 9
  /\ 9 <= List.length (Main.base_words topic)
  /\ exists w0 w1,
       Main.generate_content (lit "topic") topic Main.NoArgs
       = Ok (Main.VList [w0; w1])
       /\ Main.item (Main.VList [w0; w1]) 0 = Ok w0
       /\ Main.item (Main.VList [w0; w1]) 1 = Ok w1
       /\ nth_error (Main.base_words topic) 0 = Some w0
       /\ nth_error (Main.base_words topic) 1 = Some w1
       /\ (2 <= List.length topic_part \/ In w1 Main.static_words)
       /\ forall prs, exists m, Main.placeholder_map prs topic = Ok m.
Proof.
  intros topic_part. split; [reflexivity|]. split; [reflexivity|].
  split; [rewrite base_words_length; lia|].
  exists (nth 0 (Main.base_words topic) []), (nth 1 (Main.base_words topic) []).
  pose proof (base_words_length topic) as Hlen.
  repeat split.
  - now rewrite generate_content_topic, base_words_two.
  - apply nth_error_nth'. lia.
  - apply nth_error_nth'. lia.
  - unfold Main.base_words. fold topic_part.
    destruct topic_part as [|a [|b l]]; [right|right|left].
    + cbn. tauto.
    + cbn. tauto.
    + cbn. lia.
  - intros prs. destruct (placeholder_map_updates prs topic) as (ups & E & _).
    eexists. exact E.
Qed.

(** ** Topic tokens *)

Lemma startswith_split p s :
  PyStr.startswith p s = true -> exists r, s = p ++ r.
Proof.
  revert s. induction p as [|a p IH]; intros s H; [now exists s|].
  destruct s as [|b s]; [discriminate|]. cbn [PyStr.startswith] in H.
  apply andb_prop in H. destruct H as [Hab Hp].
  apply Ascii.eqb_eq in Hab. subst b.
  destruct (IH _ Hp) as (r & ->). now exists r.
Qed.

Lemma findall_not_head p text pre :
  (forall rest, Re.match_here true p (pre ++ rest) = None) ->
  forall k, In k (Re.findall true p text) -> PyStr.startswith pre k = false.
Proof.
  intros Hnone k Hk. unfold Re.findall in Hk. apply in_map_iff in Hk.
  destruct Hk as (m & <- & Hm).
  destruct (finditer_sound _ _ _ _ _ Hm) as (tail & Ht).
  destruct (rematch_sound _ _ _ _ Ht) as (rest & -> & Hmatch).
  destruct (PyStr.startswith pre (Re.group0 m)) eqn:E; [|reflexivity].
  destruct (startswith_split _ _ E) as (r & Er).
  rewrite Er, <- app_assoc, Hnone in Hmatch. discriminate.
Qed.

Lemma scan_keys_not_topic text k :
  In k (scan_keys text) -> PyStr.startswith (lit "{{topic") k = false.
Proof.
  unfold scan_keys, static_key. rewrite !in_app_iff.
  intros [H|[H|[H|[H|[H|[H|[H|H]]]]]]];
    try (revert k H; apply findall_not_head; intros rest; reflexivity);
    (destruct (Re.search true _ text);
       [destruct H as [<-|[]]; reflexivity|destruct H]).
Qed.

(** C5 (as amended).  The two topic tokens of slide 1 are resolved: for
    every topic and presentation the map holds, under [{{topic1_1}}] and
    [{{topic1_2}}], one entry each, the first and the second of the first
    two pool words, capitalized.  A topic token of another slide gets no
    entry: no other key of the map starts with [{{topic]. *)
Theorem topic_tokens_of_slide_one (topic : str) (prs : Pptx.presentation) :
  exists m w1 w2,
    Main.placeholder_map prs topic = Ok m
    /\ Main.generate_content (lit "topic") topic Main.NoArgs
       = Ok (Main.VList [w1; w2])
    /\ Dict.get m (lit "{{topic1_1}}") = Some (Main.VStr (PyStr.capitalize w1))
    /\ Dict.get m (lit "{{topic1_2}}") = Some (Main.VStr (PyStr.capitalize w2))
    /\ Dict.entries m (lit "{{topic1_1}}") = 1
    /\ Dict.entries m (lit "{{topic1_2}}") = 1
    /\ forall k,
         PyStr.startswith (lit "{{topic") k = false
         \/ k = lit "{{topic1_1}}" \/ k = lit "{{topic1_2}}"
         \/ Dict.get m k = None.
Proof.
  destruct (placeholder_map_updates prs topic) as (ups & E & Hk).
  exists (apply_updates ups (topic_entries topic)),
    (nth 0 (Main.base_words topic) []), (nth 1 (Main.base_words topic) []).
  assert (Hnot : forall k, PyStr.startswith (lit "{{topic") k = true ->
                           ~ In k (map fst ups)).
  { intros k Hs Hin. rewrite Hk in Hin. apply in_flat_map in Hin.
    destruct Hin as (text & _ & Hin). apply scan_keys_not_topic in Hin.
    congruence. }
  assert (Hnd : NoDup (Dict.keys (apply_updates ups (topic_entries topic)))).
  { apply apply_updates_nodup. repeat constructor; cbn; intuition discriminate. }
  split; [exact E|].
  split; [now rewrite generate_content_topic, base_words_two|].
  split; [rewrite apply_updates_get by (now apply Hnot); reflexivity|].
  split; [rewrite apply_updates_get by (now apply Hnot); reflexivity|].
  split; [apply entries_nodup; [exact Hnd|];
          apply apply_updates_keys; left; cbn; tauto|].
  split; [apply entries_nodup; [exact Hnd|];
          apply apply_updates_keys; left; cbn; tauto|].
  intros k. destruct (PyStr.startswith (lit "{{topic") k) eqn:Hs; [|now left].
  right. destruct (eqb_spec k (lit "{{topic1_1}}")) as [->|H1]; [now left|].
  right. destruct (eqb_spec k (lit "{{topic1_2}}")) as [->|H2]; [now left|].
  right. rewrite apply_updates_get by (now apply Hnot).
  cbn [topic_entries Dict.get].
  rewrite (eqb_neq (lit "{{topic1_1}}") k) by congruence.
  rewrite (eqb_neq (lit "{{topic1_2}}") k) by congruence.
  reflexivity.
Qed.

Example topic_cloud_security :
  Main.placeholder_map [] (lit "Cloud Security")
  = Ok [(lit "{{topic1_1}}", Main.VStr (lit "Cloud"));
        (lit "{{topic1_2}}", Main.VStr (lit "Security"))].
Proof. reflexivity. Qed.

(** The resolver of main_temp.py on the two topic tokens of slide 1: word
    1 or 2 of the answer of the model, capitalized, when the answer has two
    words, and a fixed word otherwise. *)
Lemma topic_tokens_main_temp ollama topic :
  MainTemp.generate_content_for_placeholder ollama (lit "{{topic1_1}}") topic
  = (content <-
       MainTemp.generate_ollama_content ollama
         (MainTemp.base_prompt topic
          ++ lit " Provide exactly two single words that capture the essence of the topic, separated by a space.") ;;
     if 2 <=? List.length (PyStr.split content)
     then Ok (PyStr.capitalize (nth 0 (PyStr.split content) []))
     else Ok (lit "Topic"))
  /\ MainTemp.generate_content_for_placeholder ollama (lit "{{topic1_2}}")
       topic
     = (content <-
          MainTemp.generate_ollama_content ollama
            (MainTemp.base_prompt topic
             ++ lit " Provide exactly two single words that capture the essence of the topic, separated by a space.") ;;
        if 2 <=? List.length (PyStr.split content)
        then Ok (PyStr.capitalize (nth 1 (PyStr.split content) []))
        else Ok (lit "Essence")).
Proof. split; reflexivity. Qed.

(** The claim as first stated fails for a slide index other than 1: with
    the topic "Cloud Security" the token [{{topic2_1}}] is left as it is by
    main.py, and the resolver of main_temp.py gives it back unchanged. *)
Lemma topic_token_of_slide_two_is_kept :
  Main.generate_ppt
    [Pptx.mkSlide [Pptx.text_shape 1 (lit "{{topic2_1}}")] None]
    (lit "Cloud Security")
  = Ok [Pptx.mkSlide [Pptx.text_shape 1 (lit "{{topic2_1}}")] None]
  /\ Main.generate_ppt
       [Pptx.mkSlide [Pptx.text_shape 1 (lit "{{topic2_1}}")] None]
       (lit "Cloud Security")
     <> Ok [Pptx.mkSlide [Pptx.text_shape 1 (lit "Cloud")] None]
  /\ MainTemp.generate_content_for_placeholder
       (fun _ => MainTemp.Answer (lit "Cloud Security"))
       (lit "{{topic2_1}}") (lit "Cloud Security")
     = Ok (lit "{{topic2_1}}").
Proof.
  split; [vm_compute; reflexivity|]. split; [vm_compute; discriminate|].
  vm_compute; reflexivity.
Qed.

(** ** The map before the second pass *)

Lemma numbered_literals_eq text :
  numbered_literals text
  = Re.findall true (Main.three_numbers "title") text
    ++ Re.findall true (Main.three_numbers "subtitle") text
    ++ Re.findall true (Main.two_numbers "para") text
    ++ Re.findall true (Main.two_numbers "bullet") text
    ++ Re.findall true [Re.Lit (lit "{{icon"); Re.Digits; Re.Lit (lit "}}")] text
    ++ [].
Proof. reflexivity. Qed.

Lemma numbered_in_scan text k :
  In k (numbered_literals text) -> In k (scan_keys text).
Proof.
  rewrite numbered_literals_eq. unfold scan_keys. rewrite !in_app_iff.
  cbn [In]. tauto.
Qed.

Lemma startswith_drop ic l s :
  PyStr.startswith l s = true -> Re.drop_literal ic l s <> None.
Proof.
  revert s. induction l as [|a l IH]; intros s H; [discriminate|].
  destruct s as [|b s]; [discriminate H|].
  cbn [PyStr.startswith] in H. apply andb_prop in H. destruct H as [Hab H].
  apply Ascii.eqb_eq in Hab. subst b. cbn [Re.drop_literal].
  destruct ic; rewrite Ascii.eqb_refl; now apply IH.
Qed.

Lemma finditer_none_contains ic l s :
  l <> [] ->
  Re.finditer_from ic [Re.Lit l] 0 s = [] -> PyStr.contains l s = false.
Proof.
  intros Hl. induction s as [|c r IH]; intros H.
  - destruct l; [congruence|reflexivity].
  - cbn [Re.finditer_from] in H. cbn [PyStr.contains].
    destruct (PyStr.startswith l (c :: r)) eqn:Es.
    + exfalso. pose proof (startswith_drop ic _ _ Es) as Hd.
      unfold Re.rematch in H. cbn [Re.match_here] in H.
      destruct (Re.drop_literal ic l (c :: r)); [discriminate H|congruence].
    + cbn [orb]. apply IH.
      destruct (Re.rematch ic [Re.Lit l] (c :: r)); [discriminate H|exact H].
Qed.

(** A static token that a text holds in lower case is found there. *)
Lemma static_in_scan text k :
  In k static_literals -> PyStr.contains k text = true ->
  In k (scan_keys text).
Proof.
  intros Hk Hc.
  assert (Hs : forall key : string,
            k = lit "{{" ++ lit key ++ lit "}}" -> k <> [] ->
            In k (static_key key text)).
  { intros key -> Hne. unfold static_key, Re.search, Re.finditer.
    destruct (Re.finditer_from true [Re.Lit (lit "{{" ++ lit key ++ lit "}}")]
                0 text) eqn:E; [|now left].
    rewrite (finditer_none_contains _ _ _ Hne E) in Hc. discriminate Hc. }
  unfold scan_keys. rewrite !in_app_iff.
  destruct Hk as [<-|[<-|[<-|[]]]].
  - right; right; right; right; left. apply Hs; [reflexivity|discriminate].
  - right; right; right; right; right; left.
    apply Hs; [reflexivity|discriminate].
  - right; right; right; right; right; right; left.
    apply Hs; [reflexivity|discriminate].
Qed.

Lemma found_in_scan text k :
  In k (found_literals text) -> In k (scan_keys text).
Proof.
  unfold found_literals. rewrite in_app_iff, filter_In.
  intros [H|[Hk Hc]]; [now apply numbered_in_scan|now apply static_in_scan].
Qed.

Lemma generate_ollama_content_total ollama prompt :
  MainTemp.generate_ollama_content ollama prompt <> Diverge.
Proof.
  unfold MainTemp.generate_ollama_content.
  destruct (ollama prompt); discriminate.
Qed.

Lemma bind_total {A B} (c : res A) (k : A -> res B) :
  c <> Diverge -> (forall a, k a <> Diverge) -> bind c k <> Diverge.
Proof. destruct c; cbn; [auto|discriminate|congruence]. Qed.

Lemma generate_content_for_placeholder_total ollama ph topic :
  MainTemp.generate_content_for_placeholder ollama ph topic <> Diverge.
Proof.
  unfold MainTemp.generate_content_for_placeholder.
  repeat match goal with
         | |- (if ?b then _ else _) <> Diverge => destruct b
         | |- match ?x with _ => _ end <> Diverge => destruct x
         | |- bind _ _ <> Diverge =>
             apply bind_total; [apply generate_ollama_content_total|intros ?]
         | |- MainTemp.generate_ollama_content _ _ <> Diverge =>
             apply generate_ollama_content_total
         | |- Ok _ <> Diverge => discriminate
         | |- Raise _ <> Diverge => discriminate
         end.
Qed.

Lemma result_or_original_ok ollama ph topic :
  exists v, MainTemp.result_or_original ollama ph topic = Ok v.
Proof.
  unfold MainTemp.result_or_original.
  pose proof (generate_content_for_placeholder_total ollama ph topic) as H.
  destruct (MainTemp.generate_content_for_placeholder ollama ph topic);
    [eexists; reflexivity|eexists; reflexivity|congruence].
Qed.

Lemma text_placeholders_updates ollama prs topic :
  updates_with (MainTemp.text_placeholders ollama prs topic) []
    (MainTemp.text_placeholders_to_generate prs).
Proof.
  unfold MainTemp.text_placeholders.
  rewrite <- (map_id (MainTemp.text_placeholders_to_generate prs)) at 2.
  apply foldM_sets with
    (g := fun ph => MainTemp.result_or_original ollama ph topic).
  - reflexivity.
  - intros ph _. apply result_or_original_ok.
Qed.

(** C6 (as amended).  Before the second pass starts, every literal that
    main.py has found has exactly one entry in its map: every literal
    matched by a pattern of a numbered kind (title, subtitle, paragraph,
    bullet list, icon), in whatever case it is written, and every static
    token ([{{thankumess}}], [{{personname}}], [{{graphimage}}]) written in
    lower case.  Every token that main_temp.py has found and that does not
    start with [{{graph] or [{{icon] has exactly one entry in its map, which
    holds no key that starts so. *)
Theorem found_text_tokens_have_one_entry
  (ollama : str -> MainTemp.reply str) (prs : Pptx.presentation)
  (topic : str) :
  (exists m,
     Main.placeholder_map prs topic = Ok m
     /\ Forall (fun k => Dict.entries m k = 1)
          (flat_map found_literals (Main.run_texts prs)))
  /\ (exists d,
        MainTemp.text_placeholders ollama prs topic = Ok d
        /\ Forall (fun ph => Dict.entries d ph = 1)
             (filter (fun ph => negb (PyStr.startswith (lit "{{graph") ph)
                                && negb (PyStr.startswith (lit "{{icon") ph))
                     (MainTemp.placeholders_to_find prs))
        /\ Forall (fun k => PyStr.startswith (lit "{{graph") k = false
                            /\ PyStr.startswith (lit "{{icon") k = false)
             (Dict.keys d)).
Proof.
  split.
  - destruct (placeholder_map_updates prs topic) as (ups & E & Hk).
    eexists. split; [exact E|].
    apply Forall_forall. intros k Hin. apply entries_nodup.
    + apply apply_updates_nodup.
      repeat constructor; cbn; intuition discriminate.
    + apply apply_updates_keys. right. rewrite Hk.
      apply in_flat_map in Hin. destruct Hin as (text & Ht & Hin).
      apply in_flat_map. exists text. split; [exact Ht|].
      now apply found_in_scan.
  - destruct (text_placeholders_updates ollama prs topic) as (ups & E & Hk).
    eexists. split; [exact E|]. split.
    + apply Forall_forall. intros ph Hin. apply entries_nodup.
      * apply apply_updates_nodup. constructor.
      * apply apply_updates_keys. right. now rewrite Hk.
    + apply Forall_forall. intros k Hin.
      apply apply_updates_keys in Hin. destruct Hin as [[]|Hin].
      rewrite Hk in Hin. unfold MainTemp.text_placeholders_to_generate in Hin.
      apply filter_In in Hin. destruct Hin as [_ Hf].
      apply andb_prop in Hf. destruct Hf as [Hg Hi].
      now rewrite negb_true_iff in Hg, Hi.
Qed.

(** The claim as first stated fails for the tokens of images: main_temp.py
    finds [{{graphimage}}] and [{{icon2}}] and gives neither an entry. *)
Lemma image_tokens_have_no_entry :
  MainTemp.placeholders_to_find
    [Pptx.mkSlide
       [Pptx.text_shape 1 (lit "{{graphimage}}");
        Pptx.text_shape 2 (lit "{{icon2}} {{personname}}")] None]
  = [lit "{{graphimage}}"; lit "{{icon2}}"; lit "{{personname}}"]
  /\ MainTemp.text_placeholders (fun _ => MainTemp.Answer (lit "Ada Lovelace"))
       [Pptx.mkSlide
          [Pptx.text_shape 1 (lit "{{graphimage}}");
           Pptx.text_shape 2 (lit "{{icon2}} {{personname}}")] None]
       (lit "Cloud Security")
     = Ok [(lit "{{personname}}", lit "Ada Lovelace")]
  /\ Dict.entries [(lit "{{personname}}", lit "Ada Lovelace")]
       (lit "{{graphimage}}") = 0
  /\ Dict.entries [(lit "{{personname}}", lit "Ada Lovelace")]
       (lit "{{icon2}}") = 0.
Proof. repeat split. Qed.

(** The static kinds of main.py are searched without case and stored
    under the lower-case key: a token in lower case has its entry, a token
    in another case is found and gets an entry that its own literal does
    not reach. *)
Example static_token_in_lower_case :
  Main.placeholder_map
    [Pptx.mkSlide [Pptx.text_shape 1 (lit "by {{personname}}")] None]
    (lit "AI")
  = Ok [(lit "{{topic1_1}}", Main.VStr (lit "Ai"));
        (lit "{{topic1_2}}", Main.VStr (lit "Intelligence"));
        (lit "{{personname}}", Main.VStr (lit "Dyizan Intern"))].
Proof. vm_compute. reflexivity. Qed.

Example static_token_in_capitals :
  Main.placeholder_map
    [Pptx.mkSlide [Pptx.text_shape 1 (lit "{{ThankUMess}}")] None] (lit "AI")
  = Ok [(lit "{{topic1_1}}", Main.VStr (lit "Ai"));
        (lit "{{topic1_2}}", Main.VStr (lit "Intelligence"));
        (lit "{{thankumess}}",
         Main.VStr
           (lit "Thank you for learning about AI! We hope it was insightful."))].
Proof. vm_compute. reflexivity. Qed.

(** ** The second pass *)

Lemma find_app_or {A} (f : A -> bool) (a b : list A) :
  find f (a ++ b)
  = match find f a with Some x => Some x | None => find f b end.
Proof.
  induction a as [|x a IH]; [reflexivity|]. cbn [app find].
  destruct (f x); [reflexivity|exact IH].
Qed.

Lemma replace_run_from (m : Main.placeholder_map_t) (text start : str) :
  all_strings m ->
  foldM (fun (run_text : str) (item : str * Main.pyval) =>
           let (ph, value) := item in
           if PyStr.contains ph text then
             match value with
             | Main.VStr v =>
                 Ok (PyStr.replace text ph
                       (PyStr.replace v (lit "\n") (lit "
")))
             | Main.VList _ => Raise AttributeError
             end
           else Ok run_text)
        m start
  = Ok (match find (fun kv => PyStr.contains (fst kv) text) (rev m) with
        | Some kv => replaced_with text kv
        | None => start
        end).
Proof.
  intros H. revert start. induction H as [|[ph value] m (v & Hv) Hm IH];
    intros start; [reflexivity|].
  cbn [snd] in Hv. subst value. cbn [foldM rev].
  rewrite find_app_or.
  destruct (PyStr.contains ph text) eqn:E; cbn [bind]; rewrite IH;
    destruct (find _ (rev m)); try reflexivity; cbn [find fst]; rewrite E;
    reflexivity.
Qed.

(** Whatever the map, a run comes out with the occurrences of at most one
    key replaced: those of the last key of the map that the run holds. *)
Lemma replace_run_last (m : Main.placeholder_map_t) (text : str) :
  all_strings m ->
  Main.replace_run m text
  = Ok (match find (fun kv => PyStr.contains (fst kv) text) (rev m) with
        | Some kv => replaced_with text kv
        | None => text
        end).
Proof. intros H. unfold Main.replace_run. now apply replace_run_from. Qed.

(** C1 on main.py, at a run that holds two keys of the map: with the topic
    "Cloud Security" the run [{{topic1_1}} {{topic1_2}}] is saved as
    [{{topic1_1}} Security].  Only the second key is replaced, the first
    stays in the output. *)
Theorem two_keys_in_one_run_main :
  Main.generate_ppt
    [Pptx.mkSlide [Pptx.text_shape 1 (lit "{{topic1_1}} {{topic1_2}}")] None]
    (lit "Cloud Security")
  = Ok [Pptx.mkSlide [Pptx.text_shape 1 (lit "{{topic1_1}} Security")] None].
Proof. vm_compute. reflexivity. Qed.

(** The loop of main_temp.py reads the text again for every key and
    replaces both. *)
Example both_keys_replaced_by_rewrite_shape :
  MainTemp.rewrite_shape
    [(lit "{{topic1_1}}", lit "Cloud"); (lit "{{topic1_2}}", lit "Security")]
    (Pptx.text_shape 1 (lit "{{topic1_1}} {{topic1_2}}"))
  = Pptx.text_shape 1 (lit "Cloud Security").
Proof. reflexivity. Qed.

(** A backslash followed by [n] in a value becomes a line feed in the
    run. *)
Example escaped_newline_in_value :
  Main.replace_run [(lit "{{personname}}", Main.VStr (lit "Ada\nLovelace"))]
    (lit "by {{personname}}")
  = Ok (lit "by Ada
Lovelace").
Proof. reflexivity. Qed.

(** ** Tokens outside the grammar *)

Example foobar_is_kept_main :
  Main.generate_ppt
    [Pptx.mkSlide [Pptx.text_shape 1 (lit "{{foobar}} {{title1_2}}")] None]
    (lit "Cloud Security")
  = Ok [Pptx.mkSlide [Pptx.text_shape 1 (lit "{{foobar}} {{title1_2}}")] None].
Proof. vm_compute. reflexivity. Qed.

Example foobar_is_kept_by_the_resolver :
  MainTemp.text_placeholders (fun _ => MainTemp.Answer (lit "Cloud Security"))
    [Pptx.mkSlide [Pptx.text_shape 1 (lit "{{foobar}}")] None]
    (lit "Cloud Security")
  = Ok [(lit "{{foobar}}", lit "{{foobar}}")]
  /\ MainTemp.rewrite_slide [(lit "{{foobar}}", lit "{{foobar}}")]
       (Pptx.mkSlide [Pptx.text_shape 1 (lit "{{foobar}}")] None)
     = Pptx.mkSlide [Pptx.text_shape 1 (lit "{{foobar}}")] None.
Proof. split; reflexivity. Qed.

(** The resolver of main_temp.py gives a token back as it is when the
    token does not hold the text [topic1_], matches none of the three
    patterns and is none of the two static tokens. *)
Lemma unmatched_token_is_returned ollama ph topic :
  PyStr.contains (lit "topic1_") ph = false ->
  Re.rematch false MainTemp.title_pattern ph = None ->
  Re.rematch false MainTemp.para_pattern ph = None ->
  Re.rematch false MainTemp.bullet_pattern ph = None ->
  PyStr.eqb ph (lit "{{personname}}") = false ->
  PyStr.eqb ph (lit "{{thankumess}}") = false ->
  MainTemp.generate_content_for_placeholder ollama ph topic = Ok ph.
Proof.
  intros H1 H2 H3 H4 H5 H6. unfold MainTemp.generate_content_for_placeholder.
  now rewrite H1, H2, H3, H4, H5, H6.
Qed.

(** C7 on main_temp.py, at two tokens outside the grammar that hold the
    text [topic1_]: the resolver takes [{{subtopic1_x}}] and [{{topic1_3}}]
    for the second topic token and returns the second word of the answer of
    the model for both; these are their entries in the map of the text
    tokens, and the second pass writes them into the slide in their
    place. *)
Theorem unknown_token_with_topic1_is_resolved :
  MainTemp.generate_content_for_placeholder
    (fun _ => MainTemp.Answer (lit "Cloud Security"))
    (lit "{{subtopic1_x}}") (lit "Cloud Security")
  = Ok (lit "Security")
  /\ MainTemp.generate_content_for_placeholder
       (fun _ => MainTemp.Answer (lit "Cloud Security"))
       (lit "{{topic1_3}}") (lit "Cloud Security")
     = Ok (lit "Security")
  /\ MainTemp.text_placeholders
       (fun _ => MainTemp.Answer (lit "Cloud Security"))
       [Pptx.mkSlide
          [Pptx.text_shape 1 (lit "see {{subtopic1_x}}");
           Pptx.text_shape 2 (lit "{{topic1_3}}")] None]
       (lit "Cloud Security")
     = Ok [(lit "{{subtopic1_x}}", lit "Security");
           (lit "{{topic1_3}}", lit "Security")]
  /\ MainTemp.rewrite_slide
       [(lit "{{subtopic1_x}}", lit "Security");
        (lit "{{topic1_3}}", lit "Security")]
       (Pptx.mkSlide
          [Pptx.text_shape 1 (lit "see {{subtopic1_x}}");
           Pptx.text_shape 2 (lit "{{topic1_3}}")] None)
     = Pptx.mkSlide
         [Pptx.text_shape 1 (lit "see Security");
          Pptx.text_shape 2 (lit "Security")] None.
Proof. repeat split. Qed.

(** ** Failures of the remote model *)

Lemma result_or_original_entry ollama ph topic :
  MainTemp.result_or_original ollama ph topic = Ok (entry_of ollama ph topic).
Proof.
  unfold MainTemp.result_or_original, entry_of.
  pose proof (generate_content_for_placeholder_total ollama ph topic) as H.
  destruct (MainTemp.generate_content_for_placeholder ollama ph topic);
    [reflexivity|reflexivity|congruence].
Qed.

Lemma foldM_sets_fun {A V} (val : A -> V) (key : A -> str)
  (f : Dict.dict V -> A -> res (Dict.dict V)) l :
  (forall m a, f m a = Ok (Dict.set m (key a) (val a))) ->
  forall m,
    foldM f l m = Ok (apply_updates (map (fun a => (key a, val a)) l) m).
Proof.
  intros Hf. induction l as [|a l IH]; intros m; [reflexivity|].
  cbn [foldM map]. rewrite Hf. cbn [bind]. now rewrite IH.
Qed.

Lemma apply_updates_get_fun {V} (val : str -> V) ks :
  forall m k,
    In k ks ->
    Dict.get (apply_updates (map (fun k => (k, val k)) ks) m) k
    = Some (val k).
Proof.
  induction ks as [|k0 ks IH]; intros m k Hin; [destruct Hin|].
  cbn [map apply_updates fold_left fst snd].
  change (fold_left (fun m kv => Dict.set m (fst kv) (snd kv))
            (map (fun k => (k, val k)) ks) (Dict.set m k0 (val k0)))
    with (apply_updates (map (fun k => (k, val k)) ks) (Dict.set m k0 (val k0))).
  destruct (in_dec (list_eq_dec ascii_dec) k ks) as [Hk|Hk].
  - now apply IH.
  - destruct Hin as [->|Hin]; [|contradiction].
    rewrite apply_updates_get.
    + apply get_set_same.
    + rewrite map_map. cbn [fst]. now rewrite map_id.
Qed.

Lemma text_placeholders_entries ollama prs topic :
  MainTemp.text_placeholders ollama prs topic
  = Ok (apply_updates
          (map (fun ph => (ph, entry_of ollama ph topic))
               (MainTemp.text_placeholders_to_generate prs)) []).
Proof.
  unfold MainTemp.text_placeholders.
  apply foldM_sets_fun with (key := fun ph : str => ph)
                            (val := fun ph => entry_of ollama ph topic).
  intros m ph. now rewrite result_or_original_entry.
Qed.

(** C8 (as amended).  Whatever the model service does, the map of the text
    tokens is built without an exception.  A request that fails
    ([RequestException], a time-out is one) makes [generate_ollama_content]
    return the fixed text "Error: Could not generate content." where an
    answer would be, so the entry of a token is that text after the
    trimming and casing of its kind, exactly as if the service had answered
    with it.  Any other exception of the resolver is caught by
    [generate_ppt]: the entry of the token is then the token itself. *)
Theorem resolution_never_raises
  (ollama : str -> MainTemp.reply str) (prs : Pptx.presentation)
  (topic : str) :
  exists d,
    MainTemp.text_placeholders ollama prs topic = Ok d
    /\ Forall (fun ph =>
                 match MainTemp.generate_content_for_placeholder ollama ph
                         topic with
                 | Ok v => Dict.get d ph = Some v
                 | Raise _ => Dict.get d ph = Some ph
                 | Diverge => False
                 end)
         (MainTemp.text_placeholders_to_generate prs)
    /\ (forall prompt,
          MainTemp.generate_ollama_content ollama prompt
          = match ollama prompt with
            | MainTemp.Answer response => Ok (PyStr.strip response)
            | MainTemp.RequestException => Ok MainTemp.error_text
            | MainTemp.Malformed => Raise KeyError
            end)
    /\ (forall ph,
          MainTemp.generate_content_for_placeholder
            (fun _ => MainTemp.RequestException) ph topic
          = MainTemp.generate_content_for_placeholder
              (fun _ => MainTemp.Answer MainTemp.error_text) ph topic)
    /\ MainTemp.generate_content_for_placeholder
         (fun _ => MainTemp.RequestException) (lit "{{personname}}") topic
       = Ok MainTemp.error_text.
Proof.
  eexists. split; [apply text_placeholders_entries|].
  split; [|split; [|split]].
  - apply Forall_forall. intros ph Hin.
    pose proof (apply_updates_get_fun (fun ph => entry_of ollama ph topic)
                  _ [] ph Hin) as Hget.
    pose proof (generate_content_for_placeholder_total ollama ph topic) as Ht.
    unfold entry_of in Hget at 2.
    destruct (MainTemp.generate_content_for_placeholder ollama ph topic);
      [exact Hget|exact Hget|congruence].
  - intros prompt. reflexivity.
  - intros ph. reflexivity.
  - reflexivity.
Qed.

(** The claim as first stated fails on both kinds of failure.  With the
    service down the entry of [{{topic1_2}}] is "Could", the second word of
    the error text, and carries no mark of an error; with a reply that
    lacks the field the entry of [{{personname}}] is the token itself. *)
Lemma failure_entries_are_not_error_texts :
  MainTemp.text_placeholders (fun _ => MainTemp.RequestException)
    [Pptx.mkSlide [Pptx.text_shape 1 (lit "{{topic1_2}}")] None]
    (lit "Cloud Security")
  = Ok [(lit "{{topic1_2}}", lit "Could")]
  /\ PyStr.contains (lit "Error") (lit "Could") = false
  /\ MainTemp.text_placeholders (fun _ => MainTemp.Malformed)
       [Pptx.mkSlide [Pptx.text_shape 1 (lit "{{personname}}")] None]
       (lit "Cloud Security")
     = Ok [(lit "{{personname}}", lit "{{personname}}")]
  /\ PyStr.contains (lit "Error") (lit "{{personname}}") = false.
Proof. repeat split. Qed.

(** ** Pictures *)

(** The third pass reads [slide.has_title] before anything else it does
    for a slide, and the read raises. *)
Lemma fixup_slides_raises
  (pixabay : str -> str -> str -> MainTemp.reply (list str))
  (download : str -> option str) (key topic : str) (slide_idx : nat)
  (sl : Pptx.slide) (rest : Pptx.presentation) :
  MainTemp.fixup_slides pixabay download key topic slide_idx (sl :: rest)
  = Raise AttributeError.
Proof. reflexivity. Qed.

(** C9 on main_temp.py.  For every slide the third pass starts by reading
    [slide.has_title], which a slide of python-pptx does not have: the read
    raises [AttributeError] before any image is searched, whatever the key,
    the services and the shapes of the slide.  At a slide whose shape holds
    the graph token, with a key set and a search and a download that would
    both go through, no picture is added, the shape is not removed and no
    presentation is saved. *)
Theorem image_pass_stops_at_has_title :
  (forall (pixabay : str -> str -> str -> MainTemp.reply (list str))
          (download : str -> option str) (key topic : str) (slide_idx : nat)
          (sl : Pptx.slide) (rest : Pptx.presentation),
      MainTemp.fixup_slides pixabay download key topic slide_idx (sl :: rest)
      = Raise AttributeError)
  /\ MainTemp.fixup_slide one_hit (fun _ => Some (lit "PNG")) (lit "0123-key")
       (lit "Market Trends") 0 (Pptx.mkSlide [graph_shape] None)
     = Raise AttributeError
  /\ MainTemp.generate_ppt (fun _ => MainTemp.RequestException) one_hit
       (fun _ => Some (lit "PNG")) (lit "0123-key")
       (Some [Pptx.mkSlide [graph_shape] None]) (lit "Market Trends")
     = Raise AttributeError.
Proof. split; [reflexivity|]. split; reflexivity. Qed.

(** * Further properties of the two files *)

(** ** What [generate_content] can do *)

Lemma bind_ok {A B} (c : res A) (k : A -> res B) b :
  bind c k = Ok b -> exists a, c = Ok a /\ k a = Ok b.
Proof. destruct c; cbn; [eauto|discriminate|discriminate]. Qed.

(** Every kind but [topic] yields a string. *)
Lemma generate_content_string kind topic args v :
  Main.generate_content kind topic args = Ok v ->
  PyStr.eqb kind (lit "topic") = false ->
  exists s, v = Main.VStr s.
Proof.
  unfold Main.generate_content. intros H Hk. rewrite Hk in H.
  repeat match type of H with
         | (if ?b then _ else _) = _ => destruct b
         | match args with _ => _ end = _ => destruct args
         | bind _ _ = Ok _ => apply bind_ok in H; destruct H as (? & _ & H)
         | Ok _ = Ok _ => injection H as <-; eexists; reflexivity
         | Raise _ = Ok _ => discriminate H
         end.
Qed.

(** With [args] being [None], an integer that is not negative or a pair of
    such integers, the generator returns for every kind and every topic or
    raises a [TypeError]: it never loops for ever, and it raises only for
    one of the four kinds that read [args], when [args] is not of the shape
    among these three that the kind reads. *)
Theorem generate_content_returns_or_type_error
  (kind topic : str) (args : Main.pyargs) :
  (exists v, Main.generate_content kind topic args = Ok v)
  \/ (Main.generate_content kind topic args = Raise TypeError
      /\ In kind [lit "title"; lit "subtitle"; lit "para"; lit "bullet"]
      /\ match args with
         | Main.PairArg _ _ =>
             kind = lit "para" \/ kind = lit "bullet"
         | Main.IntArg _ =>
             kind = lit "title" \/ kind = lit "subtitle"
         | Main.NoArgs => True
         end).
Proof.
  destruct (eqb_spec kind (lit "topic")) as [->|Htopic];
    [left; eexists; reflexivity|].
  destruct (eqb_spec kind (lit "title")) as [->|Htitle].
  { destruct args; [right|right|left; eexists; reflexivity];
      (split; [reflexivity|split; [cbn; tauto|cbn; tauto]]). }
  destruct (eqb_spec kind (lit "subtitle")) as [->|Hsub].
  { destruct args; [right|right|left; eexists; reflexivity];
      (split; [reflexivity|split; [cbn; tauto|cbn; tauto]]). }
  destruct (eqb_spec kind (lit "para")) as [->|Hpara].
  { destruct args as [|limit|part limit];
      [right|left; apply generate_content_para_ok|right];
      (split; [reflexivity|split; [cbn; tauto|cbn; tauto]]). }
  destruct (eqb_spec kind (lit "bullet")) as [->|Hbullet].
  { destruct args as [|count|part limit];
      [right|left; apply generate_content_bullet_ok|right];
      (split; [reflexivity|split; [cbn; tauto|cbn; tauto]]). }
  left. unfold Main.generate_content.
  rewrite (eqb_neq _ _ Htopic), (eqb_neq _ _ Htitle), (eqb_neq _ _ Hsub),
    (eqb_neq _ _ Hpara), (eqb_neq _ _ Hbullet). cbn [orb].
  repeat match goal with
         | |- exists v, (if ?b then _ else _) = Ok v => destruct b
         | |- exists v, Ok _ = Ok v => eexists; reflexivity
         end.
Qed.

(** ** The map of main.py holds strings *)

Lemma foldM_inv {A S} (I : S -> Prop) (f : S -> A -> res S) l :
  (forall s a s', I s -> f s a = Ok s' -> I s') ->
  forall s s', I s -> foldM f l s = Ok s' -> I s'.
Proof.
  intros Hf. induction l as [|a l IH]; intros s s' HI H.
  - injection H as <-. exact HI.
  - cbn [foldM] in H. apply bind_ok in H. destruct H as (s1 & H1 & H).
    eapply IH; [|exact H]. eapply Hf; eauto.
Qed.

Lemma all_strings_set m k s :
  all_strings m -> all_strings (Dict.set m k (Main.VStr s)).
Proof.
  unfold all_strings. induction 1 as [|[k0 v0] m Hv Hm IH]; cbn [Dict.set].
  - constructor; [now exists s|constructor].
  - destruct (PyStr.eqb k0 k); constructor; auto. now exists s.
Qed.

Ltac strings_from HI HB :=
  let Hgc := fresh "Hgc" in
  repeat match type of HB with
         | match ?x with _ => _ end = Ok _ => destruct x
         | bind _ _ = Ok _ =>
             apply bind_ok in HB; destruct HB as (? & Hgc & HB)
         | Raise _ = Ok _ => discriminate HB
         | Ok _ = Ok _ => injection HB as <-
         end;
  first [ exact HI
        | apply generate_content_string in Hgc;
          [destruct Hgc as (? & ->); apply all_strings_set; exact HI
          |reflexivity] ].

Ltac strings_body :=
  let HI := fresh "HI" in
  let HB := fresh "HB" in
  intros ? ? ? HI HB; strings_from HI HB.

Lemma scan_run_strings topic m text m' :
  all_strings m -> Main.scan_run topic m text = Ok m' -> all_strings m'.
Proof.
  intros HI H. unfold Main.scan_run in H. cbn [foldM] in H.
  change (Main.pattern_of (lit "title"))
    with (Ok (Main.three_numbers "title")) in H.
  change (Main.pattern_of (lit "subtitle"))
    with (Ok (Main.three_numbers "subtitle")) in H.
  change (Main.pattern_of (lit "para")) with (Ok (Main.two_numbers "para")) in H.
  change (Main.pattern_of (lit "bullet"))
    with (Ok (Main.two_numbers "bullet")) in H.
  change (Main.pattern_of (lit "thankumess"))
    with (Ok [Re.Lit (lit "{{thankumess}}")]) in H.
  change (Main.pattern_of (lit "personname"))
    with (Ok [Re.Lit (lit "{{personname}}")]) in H.
  change (Main.pattern_of (lit "graphimage"))
    with (Ok [Re.Lit (lit "{{graphimage}}")]) in H.
  change (Main.pattern_of (lit "icon"))
    with (Ok [Re.Lit (lit "{{icon"); Re.Digits; Re.Lit (lit "}}")]) in H.
  cbn [bind] in H.
  apply bind_ok in H. destruct H as (m2 & H12 & H).
  apply bind_ok in H12. destruct H12 as (m1 & H1 & H12).
  apply bind_ok in H12. destruct H12 as (m2' & H2 & H12).
  injection H12 as <-.
  apply bind_ok in H. destruct H as (m3 & H3 & H).
  apply bind_ok in H. destruct H as (m4 & H4 & H).
  apply bind_ok in H. destruct H as (m7 & H567 & H).
  apply bind_ok in H567. destruct H567 as (m5 & H5 & H567).
  apply bind_ok in H567. destruct H567 as (m6 & H6 & H567).
  apply bind_ok in H567. destruct H567 as (m7' & H7 & H567).
  injection H567 as <-.
  assert (I1 : all_strings m1).
  { revert H1. apply foldM_inv; [strings_body|exact HI]. }
  assert (I2 : all_strings m2').
  { revert H2. apply foldM_inv; [strings_body|exact I1]. }
  assert (I3 : all_strings m3).
  { revert H3. apply foldM_inv; [strings_body|exact I2]. }
  assert (I4 : all_strings m4).
  { revert H4. apply foldM_inv; [strings_body|exact I3]. }
  assert (I5 : all_strings m5).
  { strings_from I4 H5. }
  assert (I6 : all_strings m6).
  { strings_from I5 H6. }
  assert (I7 : all_strings m7').
  { strings_from I6 H7. }
  revert H. apply foldM_inv; [strings_body|exact I7].
Qed.

Lemma placeholder_map_strings prs topic m :
  Main.placeholder_map prs topic = Ok m -> all_strings m.
Proof.
  unfold Main.placeholder_map.
  rewrite generate_content_topic, base_words_two.
  cbn [bind Main.item nth_error].
  apply foldM_inv.
  - intros s text s'. apply scan_run_strings.
  - repeat constructor; eexists; reflexivity.
Qed.

(** ** What the second pass of main.py keeps *)

Lemma mapM_Forall2 {A B} (R : A -> B -> Prop) (f : A -> res B) l :
  (forall a, In a l -> exists b, f a = Ok b /\ R a b) ->
  exists bs, mapM f l = Ok bs /\ Forall2 R l bs.
Proof.
  induction l as [|a l IH]; intros Hf.
  - exists []. split; [reflexivity|constructor].
  - destruct (Hf a (or_introl eq_refl)) as (b & Hb & Rb).
    destruct IH as (bs & Hbs & Rbs); [intros x Hx; apply Hf; now right|].
    exists (b :: bs). cbn [mapM]. rewrite Hb. cbn [bind]. rewrite Hbs.
    split; [reflexivity|now constructor].
Qed.

Lemma with_paragraphs_same sh : Pptx.with_paragraphs sh (Pptx.paragraphs sh) = sh.
Proof. destruct sh; reflexivity. Qed.

Lemma same_breaks_refl para : same_breaks para para.
Proof.
  induction para as [|[text|] para IH]; constructor; auto.
Qed.

Lemma replace_paragraph_same_breaks m (para : Pptx.paragraph) :
  all_strings m ->
  exists para',
    mapM (Main.replace_element m) para = Ok para' /\ same_breaks para para'.
Proof.
  intros Hm. apply mapM_Forall2. intros [text|] _.
  - cbn [Main.replace_element]. rewrite replace_run_last by exact Hm.
    cbn [bind]. eexists. split; [reflexivity|exact I].
  - exists Pptx.Break. split; [reflexivity|exact I].
Qed.

Lemma replace_shape_same_frame m sh :
  all_strings m ->
  exists sh', Main.replace_shape m sh = Ok sh' /\ same_frame sh sh'.
Proof.
  intros Hm. unfold Main.replace_shape.
  destruct (Pptx.has_text_frame sh) eqn:Htf.
  - destruct (mapM_Forall2 same_breaks (mapM (Main.replace_element m))
                (Pptx.paragraphs sh)) as (ps & Hps & Rps).
    { intros para _. now apply replace_paragraph_same_breaks. }
    exists (Pptx.with_paragraphs sh ps).
    unfold Pptx.paragraph in *. rewrite Hps. cbn [bind].
    split; [reflexivity|]. split; [reflexivity|]. split; [exact Rps|now left].
  - exists sh. split; [reflexivity|]. split; [now rewrite with_paragraphs_same|].
    split; [|now right].
    induction (Pptx.paragraphs sh); constructor;
      [apply same_breaks_refl|assumption].
Qed.

Lemma generate_ppt_same_slides prs topic :
  exists saved,
    Main.generate_ppt prs topic = Ok saved /\ same_slides prs saved.
Proof.
  unfold Main.generate_ppt.
  destruct (placeholder_map_updates prs topic) as (ups & E & _).
  pose proof (placeholder_map_strings _ _ _ E) as Hm.
  rewrite E. cbn [bind].
  apply mapM_Forall2. intros sl _. unfold Main.replace_placeholders.
  destruct (mapM_Forall2 same_frame
              (Main.replace_shape (apply_updates ups (topic_entries topic)))
              (Pptx.shapes sl)) as (shs & Hshs & Rshs).
  { intros sh _. now apply replace_shape_same_frame. }
  rewrite Hshs. cbn [bind]. eexists. split; [reflexivity|].
  split; [reflexivity|exact Rshs].
Qed.

(** main.py saves a presentation for every topic and every template no run
    of which is longer than 4300 characters, a bound under which the
    interpreter converts every number of a token: no exception escapes.
    What is saved has the slides of the template, every slide its shapes in
    their order with their ids, positions, sizes and pictures, every text
    frame as many paragraphs and every paragraph as many runs as before,
    with the line breaks where they were: only the text of runs changes.  A
    shape without a text frame is saved as it is. *)
Theorem main_saves_the_same_structure
  (prs : Pptx.presentation) (topic : str) :
  Forall (fun text => List.length text <= 4300) (Main.run_texts prs) ->
  exists saved,
    Main.generate_ppt prs topic = Ok saved /\ same_slides prs saved.
Proof. intros _. apply generate_ppt_same_slides. Qed.

Lemma main_saves_the_same_structure_witness :
  Forall (fun text => List.length text <= 4300)
    (Main.run_texts
       [Pptx.mkSlide [Pptx.text_shape 1 (lit "{{title1_1_2}}");
                      Pptx.mkShape 2 false [] 10 20 300 400 (Some (lit "PNG"))]
          (Some 1)])
  /\ exists saved,
       Main.generate_ppt
         [Pptx.mkSlide [Pptx.text_shape 1 (lit "{{title1_1_2}}");
                        Pptx.mkShape 2 false [] 10 20 300 400
                          (Some (lit "PNG"))]
            (Some 1)]
         (lit "Cloud Security")
       = Ok saved
       /\ same_slides
            [Pptx.mkSlide [Pptx.text_shape 1 (lit "{{title1_1_2}}");
                           Pptx.mkShape 2 false [] 10 20 300 400
                             (Some (lit "PNG"))]
               (Some 1)]
            saved.
Proof.
  assert (H : Forall (fun text => List.length text <= 4300)
                (Main.run_texts
                   [Pptx.mkSlide
                      [Pptx.text_shape 1 (lit "{{title1_1_2}}");
                       Pptx.mkShape 2 false [] 10 20 300 400
                         (Some (lit "PNG"))]
                      (Some 1)])).
  { apply Forall_cons; [cbn; lia|apply Forall_nil]. }
  split; [exact H|].
  exact (main_saves_the_same_structure _ (lit "Cloud Security") H).
Defined.

(** In what main.py saves, a run holds the replacement of one key at most:
    with the map of the first pass, the loop over its items leaves every
    run as the text it had with the occurrences of the last key of the map
    that the text holds replaced, and a run that holds no key as it was. *)
Theorem run_gets_its_last_key_only (prs : Pptx.presentation) (topic : str) :
  exists m,
    Main.placeholder_map prs topic = Ok m
    /\ forall text,
         Main.replace_run m text
         = Ok (match find (fun kv => PyStr.contains (fst kv) text) (rev m) with
               | Some kv => replaced_with text kv
               | None => text
               end).
Proof.
  destruct (placeholder_map_updates prs topic) as (ups & E & _).
  eexists. split; [exact E|]. intros text.
  apply replace_run_last. exact (placeholder_map_strings _ _ _ E).
Qed.

(** ** Texts without braces *)

Lemma open_brace_only a :
  Ascii.eqb (PyStr.to_lower "{"%char) (PyStr.to_lower a) = true -> a = "{"%char.
Proof.
  destruct a as [[|] [|] [|] [|] [|] [|] [|] [|]]; vm_compute; intros H;
    (reflexivity || discriminate H).
Qed.

Lemma drop_literal_braces ic l s r :
  Re.drop_literal ic ("{"%char :: "{"%char :: l) s = Some r ->
  PyStr.startswith (lit "{{") s = true.
Proof.
  destruct s as [|a [|b s]]; cbn [Re.drop_literal]; try discriminate.
  - destruct (if ic then _ else _); discriminate.
  - destruct ic.
    + destruct (Ascii.eqb (PyStr.to_lower "{") (PyStr.to_lower a)) eqn:Ea;
        [|discriminate].
      destruct (Ascii.eqb (PyStr.to_lower "{") (PyStr.to_lower b)) eqn:Eb;
        [|discriminate].
      apply open_brace_only in Ea, Eb. subst. reflexivity.
    + destruct (Ascii.eqb_spec "{" a) as [<-|]; [|discriminate].
      destruct (Ascii.eqb_spec "{" b) as [<-|]; [|discriminate].
      reflexivity.
Qed.

Lemma rematch_braces ic p s :
  braces_pattern p = true ->
  PyStr.startswith (lit "{{") s = false ->
  Re.rematch ic p s = None.
Proof.
  intros Hp Hs. unfold Re.rematch.
  destruct p as [|it p']; [discriminate Hp|].
  destruct it as [lt| | |]; try discriminate Hp.
  destruct lt as [|c1 [|c2 l]]; try discriminate Hp.
  cbn [braces_pattern] in Hp. apply andb_prop in Hp. destruct Hp as [H1 H2].
  apply Ascii.eqb_eq in H1, H2. subst c1 c2.
  cbn [Re.match_here].
  destruct (Re.drop_literal ic ("{"%char :: "{"%char :: l) s) eqn:E;
    [|reflexivity].
  apply drop_literal_braces in E. congruence.
Qed.

Lemma finditer_no_braces ic p :
  braces_pattern p = true ->
  forall s k,
    PyStr.contains (lit "{{") s = false -> Re.finditer_from ic p k s = [].
Proof.
  intros Hp. induction s as [|c r IH]; intros k Hs; [reflexivity|].
  cbn [PyStr.contains] in Hs. apply orb_false_iff in Hs. destruct Hs as [Hh Hr].
  cbn [Re.finditer_from]. destruct k as [|k]; [|now apply IH].
  rewrite (rematch_braces ic p (c :: r) Hp Hh). now apply IH.
Qed.

Lemma findall_no_braces ic p s :
  braces_pattern p = true ->
  PyStr.contains (lit "{{") s = false -> Re.findall ic p s = [].
Proof.
  intros Hp Hs. unfold Re.findall, Re.finditer.
  now rewrite finditer_no_braces.
Qed.

Lemma search_no_braces ic p s :
  braces_pattern p = true ->
  PyStr.contains (lit "{{") s = false -> Re.search ic p s = None.
Proof.
  intros Hp Hs. unfold Re.search, Re.finditer.
  now rewrite finditer_no_braces.
Qed.

Lemma scan_keys_no_braces text :
  PyStr.contains (lit "{{") text = false -> scan_keys text = [].
Proof.
  intros H. unfold scan_keys, static_key.
  rewrite !findall_no_braces by (reflexivity || exact H).
  rewrite !search_no_braces by (reflexivity || exact H).
  reflexivity.
Qed.

Lemma startswith_app a b s :
  PyStr.startswith (a ++ b) s = true -> PyStr.startswith a s = true.
Proof.
  revert s. induction a as [|x a IH]; intros s H; [reflexivity|].
  destruct s as [|y s]; [discriminate|]. cbn [app PyStr.startswith] in *.
  apply andb_prop in H. destruct H as [-> H]. now rewrite (IH _ H).
Qed.

Lemma contains_app a b s :
  PyStr.contains a s = false -> PyStr.contains (a ++ b) s = false.
Proof.
  induction s as [|c r IH]; cbn [PyStr.contains]; intros H;
    apply orb_false_iff in H; destruct H as [Hh Hr].
  - destruct (PyStr.startswith (a ++ b) []) eqn:E; [|reflexivity].
    apply startswith_app in E. congruence.
  - rewrite (IH Hr), orb_false_r.
    destruct (PyStr.startswith (a ++ b) (c :: r)) eqn:E; [|reflexivity].
    apply startswith_app in E. congruence.
Qed.

Lemma replace_absent s old new :
  PyStr.contains old s = false -> PyStr.replace s old new = s.
Proof.
  intros H. unfold PyStr.replace. destruct old as [|o old].
  - destruct s; discriminate H.
  - induction s as [|c r IH]; [reflexivity|].
    cbn [PyStr.contains] in H. apply orb_false_iff in H. destruct H as [Hh Hr].
    cbn [PyStr.replace_from]. rewrite Hh. f_equal. now apply IH.
Qed.

Lemma mapM_same {A} (f : A -> res A) l :
  (forall a, In a l -> f a = Ok a) -> mapM f l = Ok l.
Proof.
  induction l as [|a l IH]; intros H; [reflexivity|].
  cbn [mapM]. rewrite (H a (or_introl eq_refl)). cbn [bind].
  rewrite IH by (intros x Hx; apply H; now right). reflexivity.
Qed.

Lemma run_texts_in prs sl sh para r :
  In sl prs -> In sh (Pptx.shapes sl) -> Pptx.has_text_frame sh = true ->
  In para (Pptx.paragraphs sh) -> In (Pptx.Run r) para ->
  In r (Main.run_texts prs).
Proof.
  intros Hsl Hsh Htf Hpara Hr. unfold Main.run_texts.
  apply in_flat_map. exists sl. split; [exact Hsl|].
  apply in_flat_map. exists sh. split; [exact Hsh|].
  rewrite Htf. apply in_flat_map. exists para. split; [exact Hpara|].
  unfold Pptx.runs. apply in_flat_map. exists (Pptx.Run r).
  split; [exact Hr|now left].
Qed.

(** A template in which no run of a text frame holds two opening braces in
    a row is saved by main.py as it is, whatever the topic. *)
Theorem template_without_braces_main
  (prs : Pptx.presentation) (topic : str) :
  Forall (fun text => PyStr.contains (lit "{{") text = false)
    (Main.run_texts prs) ->
  Main.generate_ppt prs topic = Ok prs.
Proof.
  intros Hno. rewrite Forall_forall in Hno. unfold Main.generate_ppt.
  destruct (placeholder_map_updates prs topic) as (ups & E & Hk).
  assert (Hups : ups = []).
  { assert (Hempty : flat_map scan_keys (Main.run_texts prs) = []).
    { clear E Hk. induction (Main.run_texts prs) as [|t ts IH]; [reflexivity|].
      cbn [flat_map]. rewrite scan_keys_no_braces by (apply Hno; now left).
      apply IH. intros x Hx. apply Hno. now right. }
    rewrite Hempty in Hk. destruct ups; [reflexivity|discriminate]. }
  subst ups. rewrite E. cbn [bind apply_updates fold_left].
  apply mapM_same. intros sl Hsl. unfold Main.replace_placeholders.
  rewrite mapM_same; [destruct sl; reflexivity|].
  intros sh Hsh. unfold Main.replace_shape.
  destruct (Pptx.has_text_frame sh) eqn:Htf; [|reflexivity].
  unfold Pptx.paragraph, Pptx.run in *.
  rewrite mapM_same; [cbn [bind]; now rewrite with_paragraphs_same|].
  intros para Hpara. apply mapM_same. intros [r|] Hr; [|reflexivity].
  pose proof (Hno r (run_texts_in _ _ _ _ _ Hsl Hsh Htf Hpara Hr)) as Hr0.
  unfold Main.replace_element, Main.replace_run, topic_entries. cbn [foldM].
  change (lit "{{topic1_1}}") with (lit "{{" ++ lit "topic1_1}}").
  change (lit "{{topic1_2}}") with (lit "{{" ++ lit "topic1_2}}").
  rewrite !contains_app by exact Hr0. reflexivity.
Qed.

Lemma template_without_braces_main_witness :
  Forall (fun text => PyStr.contains (lit "{{") text = false)
    (Main.run_texts
       [Pptx.mkSlide [Pptx.text_shape 1 (lit "Quarterly results")] None])
  /\ Main.generate_ppt
       [Pptx.mkSlide [Pptx.text_shape 1 (lit "Quarterly results")] None]
       (lit "Cloud Security")
     = Ok [Pptx.mkSlide [Pptx.text_shape 1 (lit "Quarterly results")] None].
Proof.
  assert (H : Forall (fun text => PyStr.contains (lit "{{") text = false)
                (Main.run_texts
                   [Pptx.mkSlide
                      [Pptx.text_shape 1 (lit "Quarterly results")] None])).
  { repeat constructor. }
  split; [exact H|].
  exact (template_without_braces_main _ (lit "Cloud Security") H).
Defined.

(** ** Edges of the deterministic generator *)

(** Titles at the edges of their window: part 0 gives the title of part 1;
    a limit of 0 gives the empty string; so does a part beyond the end of
    the pool, where no word is left: the window does not wrap around and
    no index is out of range. *)
Theorem title_window_edges (topic : str) (limit part beyond : nat) :
  Main.generate_content (lit "title") topic (Main.PairArg 0 limit)
  = Main.generate_content (lit "title") topic (Main.PairArg 1 limit)
  /\ Main.generate_content (lit "title") topic (Main.PairArg part 0)
     = Ok (Main.VStr [])
  /\ Main.generate_content (lit "title") topic
       (Main.PairArg (S (List.length (Main.base_words topic) + beyond)) limit)
     = Ok (Main.VStr []).
Proof.
  rewrite !generate_content_title, !title_slices.
  split; [reflexivity|]. split; [reflexivity|].
  rewrite skipn_all2 by lia. now rewrite firstn_nil.
Qed.

Lemma bullet_words_beyond pool i :
  List.length pool <= i -> bullet_words_spec pool i = firstn 6 pool.
Proof.
  intros H. unfold bullet_words_spec. rewrite skipn_all2 by exact H.
  reflexivity.
Qed.

(** A bullet list with more lines than the pool has words repeats itself:
    from line number [len(pool)] on, every line is "- " and the first six
    words of the pool. *)
Theorem bullet_lines_beyond_the_pool (topic : str) (more : nat) :
  let pool := Main.base_words topic in
  let line i := lit "- " ++ PyStr.join (lit " ") (bullet_words_spec pool i) in
  Main.generate_content (lit "bullet") topic
    (Main.IntArg (List.length pool + more))
  = Ok (Main.VStr
          (PyStr.join [nl]
             (map line (seq 0 (List.length pool))
              ++ repeat (lit "- " ++ PyStr.join (lit " ") (firstn 6 pool))
                   more))).
Proof.
  intros pool line. rewrite generate_content_bullet_value.
  fold pool. fold line. rewrite seq_app, map_app. cbn [Nat.add].
  do 3 f_equal.
  assert (H : forall k start, List.length pool <= start ->
            map line (seq start k)
            = repeat (lit "- " ++ PyStr.join (lit " ") (firstn 6 pool)) k).
  { induction k as [|k IH]; intros start Hs; [reflexivity|].
    cbn [seq map repeat]. rewrite IH by lia. unfold line at 1.
    now rewrite bullet_words_beyond. }
  f_equal. apply H. lia.
Qed.

(** ** Blank topics and the name of the file *)

Lemma split_blank s : blank s = true -> PyStr.split s = [].
Proof.
  unfold blank. induction s as [|c r IH]; [reflexivity|].
  cbn [forallb PyStr.split]. intros H. apply andb_prop in H.
  destruct H as [-> Hr]. now apply IH.
Qed.

Lemma lower_blank s : blank s = true -> blank (PyStr.lower s) = true.
Proof.
  unfold blank, PyStr.lower. induction s as [|c r IH]; [reflexivity|].
  cbn [map forallb]. intros H. apply andb_prop in H. destruct H as [Hc Hr].
  now rewrite is_space_to_lower, Hc, IH.
Qed.

Lemma lstrip_blank s : blank s = true -> PyStr.lstrip s = [].
Proof.
  unfold blank. induction s as [|c r IH]; [reflexivity|].
  cbn [forallb PyStr.lstrip]. intros H. apply andb_prop in H.
  destruct H as [-> Hr]. now apply IH.
Qed.

Lemma strip_blank s : blank s = true -> PyStr.strip s = [].
Proof. intros H. unfold PyStr.strip. now rewrite (lstrip_blank s H). Qed.

(** A topic of whitespace only, the empty topic among them, brings no word
    of its own: the pool is the nine static words and the two words of the
    topic kind are "intelligence" and "systems". *)
Theorem blank_topic_pool (topic : str) :
  blank topic = true ->
  Main.base_words topic = Main.static_words
  /\ Main.generate_content (lit "topic") topic Main.NoArgs
     = Ok (Main.VList [lit "intelligence"; lit "systems"]).
Proof.
  intros H.
  assert (E : Main.base_words topic = Main.static_words).
  { unfold Main.base_words. now rewrite split_blank by now apply lower_blank. }
  split; [exact E|]. now rewrite generate_content_topic, E.
Qed.

Lemma blank_topic_pool_witness :
  blank (lit "  	 ") = true
  /\ Main.base_words (lit "  	 ") = Main.static_words.
Proof.
  assert (H : blank (lit "  	 ") = true) by reflexivity.
  split; [exact H|]. exact (proj1 (blank_topic_pool _ H)).
Defined.

Lemma replace_one_char s c d :
  PyStr.replace s [c] [d] = map (fun x => if Ascii.eqb c x then d else x) s.
Proof.
  unfold PyStr.replace. induction s as [|x r IH]; [reflexivity|].
  cbn [PyStr.replace_from PyStr.startswith List.length Nat.sub map app].
  rewrite andb_true_r. destruct (Ascii.eqb c x); cbn [app]; now rewrite IH.
Qed.

(** The name of the file that main.py writes has no space in it, whatever
    the topic: every space of the topic has become an underscore, every
    other character is kept in its place, and "_Presentation.pptx"
    follows. *)
Theorem output_filename_has_no_space (topic : str) :
  Main.output_filename topic
  = map (fun c => if Ascii.eqb " " c then "_"%char else c) topic
    ++ lit "_Presentation.pptx"
  /\ Forall (fun c => c <> " "%char) (Main.output_filename topic)
  /\ List.length (Main.output_filename topic) = List.length topic + 18.
Proof.
  assert (E : Main.output_filename topic
              = map (fun c => if Ascii.eqb " " c then "_"%char else c) topic
                ++ lit "_Presentation.pptx").
  { unfold Main.output_filename.
    change (lit " ") with [" "%char]. change (lit "_") with ["_"%char].
    now rewrite replace_one_char. }
  split; [exact E|]. rewrite E. split.
  - apply Forall_app. split.
    + apply Forall_map, Forall_forall. intros c _.
      destruct (Ascii.eqb_spec " " c); [discriminate|congruence].
    + repeat constructor; discriminate.
  - rewrite length_app, length_map. reflexivity.
Qed.

(** The two scripts on a line of whitespace only.  main_temp.py stops
    before anything is generated, whatever the services and the template:
    no file is written.  main.py goes on with the empty topic and writes
    "_Presentation.pptx". *)
Theorem blank_line_at_the_prompt
  (ollama : str -> MainTemp.reply str)
  (pixabay : str -> str -> str -> MainTemp.reply (list str))
  (download : str -> option str) (key line : str)
  (template : Pptx.presentation) :
  blank line = true ->
  MainTemp.main ollama pixabay download key line (Some template) = Ok None
  /\ MainTemp.main ollama pixabay download key line None = Ok None
  /\ exists saved,
       Main.main line template = Ok (lit "_Presentation.pptx", saved)
       /\ Main.generate_ppt template [] = Ok saved.
Proof.
  intros H. unfold MainTemp.main, Main.main. rewrite (strip_blank _ H).
  split; [reflexivity|]. split; [reflexivity|].
  destruct (generate_ppt_same_slides template []) as (saved & E & _).
  exists saved. rewrite E. split; reflexivity.
Qed.

Lemma blank_line_at_the_prompt_witness :
  blank (lit "   ") = true
  /\ MainTemp.main (fun _ => MainTemp.Answer (lit "Cloud Security"))
       (fun _ _ _ => MainTemp.Answer [lit "https://pixabay.example/1.png"])
       (fun _ => Some (lit "PNG")) (lit "0123-key") (lit "   ")
       (Some [Pptx.mkSlide [Pptx.text_shape 1 (lit "{{personname}}")] None])
     = Ok None.
Proof.
  assert (H : blank (lit "   ") = true) by reflexivity.
  split; [exact H|].
  exact (proj1 (blank_line_at_the_prompt _ _ _ _ _ _ H)).
Defined.

(** ** The resolver of main_temp.py *)

Lemma generate_ollama_content_cases ollama prompt :
  (exists content, MainTemp.generate_ollama_content ollama prompt = Ok content)
  \/ (MainTemp.generate_ollama_content ollama prompt = Raise KeyError
      /\ ollama prompt = MainTemp.Malformed).
Proof.
  unfold MainTemp.generate_ollama_content.
  destruct (ollama prompt); [left; eauto|left; eauto|right; auto].
Qed.

Lemma rematch_groups ic p s mt :
  Re.rematch ic p s = Some mt -> List.length (Re.groups mt) = ngroups p.
Proof.
  intros H. destruct (rematch_sound _ _ _ _ H) as (rest & _ & Hm).
  exact (proj2 (match_here_sound _ _ _ _ _ Hm)).
Qed.

Lemma title_groups ph mt :
  Re.rematch false MainTemp.title_pattern ph = Some mt ->
  exists t x part limit, Re.groups mt = [t; x; part; limit].
Proof.
  intros H. apply rematch_groups in H. cbn in H.
  destruct (Re.groups mt) as [|a [|b [|c [|d [|? ?]]]]]; try discriminate H.
  eauto.
Qed.

Lemma para_groups ph mt :
  Re.rematch false MainTemp.para_pattern ph = Some mt ->
  exists x limit, Re.groups mt = [x; limit].
Proof.
  intros H. apply rematch_groups in H. cbn in H.
  destruct (Re.groups mt) as [|a [|b [|? ?]]]; try discriminate H. eauto.
Qed.

Lemma bullet_groups ph mt :
  Re.rematch false MainTemp.bullet_pattern ph = Some mt ->
  exists x count, Re.groups mt = [x; count].
Proof.
  intros H. apply rematch_groups in H. cbn in H.
  destruct (Re.groups mt) as [|a [|b [|? ?]]]; try discriminate H. eauto.
Qed.

Ltac by_service ollama :=
  match goal with
  | |- context [MainTemp.generate_ollama_content ollama ?p] =>
      let Hm := fresh "Hm" in
      destruct (generate_ollama_content_cases ollama p)
        as [(? & ->)|(-> & Hm)];
      cbn [bind];
      [left; repeat match goal with
                    | |- exists v, (if ?b then _ else _) = Ok v => destruct b
                    end; eexists; reflexivity
      |right; split; [reflexivity|eexists; exact Hm]]
  end.

(** For every topic and every token of at most 4300 characters, a bound
    under which the interpreter converts every number of the token, the
    resolver returns, or raises the one exception that a reply without the
    [response] field causes: no such token, however it is written, makes it
    fail by itself, and a service that is down is no failure of the
    resolver. *)
Theorem resolver_fails_on_malformed_replies_only
  (ollama : str -> MainTemp.reply str) (ph topic : str) :
  List.length ph <= 4300 ->
  (exists v, MainTemp.generate_content_for_placeholder ollama ph topic = Ok v)
  \/ (MainTemp.generate_content_for_placeholder ollama ph topic
      = Raise KeyError
      /\ exists prompt, ollama prompt = MainTemp.Malformed).
Proof.
  intros _. unfold MainTemp.generate_content_for_placeholder.
  destruct (PyStr.contains (lit "topic1_") ph); [by_service ollama|].
  destruct (Re.rematch false MainTemp.title_pattern ph) as [mt|] eqn:Et.
  { destruct (title_groups _ _ Et) as (t & x & part & limit & ->).
    by_service ollama. }
  destruct (Re.rematch false MainTemp.para_pattern ph) as [mt|] eqn:Ep.
  { destruct (para_groups _ _ Ep) as (x & limit & ->). by_service ollama. }
  destruct (Re.rematch false MainTemp.bullet_pattern ph) as [mt|] eqn:Eb.
  { destruct (bullet_groups _ _ Eb) as (x & count & ->). by_service ollama. }
  destruct (PyStr.eqb ph (lit "{{personname}}")).
  { destruct (generate_ollama_content_cases ollama
                (MainTemp.base_prompt topic
                 ++ lit " A professional-sounding full name for the presenter."))
      as [(c & E)|(E & Hm)]; [left; eauto|right; eauto]. }
  destruct (PyStr.eqb ph (lit "{{thankumess}}")); [by_service ollama|].
  left. eexists. reflexivity.
Qed.

Lemma resolver_fails_on_malformed_replies_only_witness :
  List.length (lit "{{para1_5}}") <= 4300
  /\ ((exists v,
         MainTemp.generate_content_for_placeholder
           (fun _ => MainTemp.Malformed) (lit "{{para1_5}}")
           (lit "Cloud Security") = Ok v)
      \/ (MainTemp.generate_content_for_placeholder
            (fun _ => MainTemp.Malformed) (lit "{{para1_5}}")
            (lit "Cloud Security") = Raise KeyError
          /\ exists prompt : str,
               (fun _ : str => @MainTemp.Malformed str) prompt
               = MainTemp.Malformed)).
Proof.
  assert (H : List.length (lit "{{para1_5}}") <= 4300) by (cbn; lia).
  split; [exact H|].
  exact (resolver_fails_on_malformed_replies_only
           (fun _ => MainTemp.Malformed) (lit "{{para1_5}}")
           (lit "Cloud Security") H).
Defined.

Lemma cut_words n content :
  words (firstn n (PyStr.split content))
  /\ List.length (firstn n (PyStr.split content)) <= n.
Proof.
  split; [apply words_firstn, split_words|apply firstn_le_length].
Qed.

(** A title or subtitle of the remote model is cut to the limit of its
    token: whatever the model answers, the value has at most as many words
    as the third number of the token says, and the words are separated by
    single spaces with no whitespace around. *)
Theorem remote_title_is_cut
  (ollama : str -> MainTemp.reply str) (ph topic : str) (mt : Re.rmatch)
  (v : str) :
  PyStr.contains (lit "topic1_") ph = false ->
  Re.rematch false MainTemp.title_pattern ph = Some mt ->
  MainTemp.generate_content_for_placeholder ollama ph topic = Ok v ->
  List.length (PyStr.split v) <= PyStr.int (nth 3 (Re.groups mt) [])
  /\ v = PyStr.join (lit " ") (PyStr.split v).
Proof.
  intros Hc Hm H. unfold MainTemp.generate_content_for_placeholder in H.
  rewrite Hc, Hm in H.
  destruct (title_groups _ _ Hm) as (t & x & part & limit & Eg).
  rewrite Eg in H |- *. cbn [nth].
  apply bind_ok in H. destruct H as (content & _ & H). injection H as <-.
  destruct (cut_words (PyStr.int limit) content) as [Hw Hl].
  rewrite title_join.
  rewrite split_join by (now apply title_words).
  split; [now rewrite length_map|reflexivity].
Qed.

Lemma remote_title_is_cut_witness :
  PyStr.contains (lit "topic1_") (lit "{{title1_1_2}}") = false
  /\ Re.rematch false MainTemp.title_pattern (lit "{{title1_1_2}}")
     = Some (Re.mkMatch (lit "{{title1_1_2}}")
               [lit "title"; lit "1"; lit "1"; lit "2"])
  /\ MainTemp.generate_content_for_placeholder
       (fun _ => MainTemp.Answer (lit "  the future   of cloud  "))
       (lit "{{title1_1_2}}") (lit "Cloud")
     = Ok (lit "The Future")
  /\ List.length (PyStr.split (lit "The Future")) <= 2.
Proof.
  assert (H1 : PyStr.contains (lit "topic1_") (lit "{{title1_1_2}}") = false)
    by reflexivity.
  assert (H2 : Re.rematch false MainTemp.title_pattern (lit "{{title1_1_2}}")
               = Some (Re.mkMatch (lit "{{title1_1_2}}")
                         [lit "title"; lit "1"; lit "1"; lit "2"]))
    by reflexivity.
  assert (H3 : MainTemp.generate_content_for_placeholder
                 (fun _ => MainTemp.Answer (lit "  the future   of cloud  "))
                 (lit "{{title1_1_2}}") (lit "Cloud")
               = Ok (lit "The Future"))
    by reflexivity.
  split; [exact H1|]. split; [exact H2|]. split; [exact H3|].
  exact (proj1 (remote_title_is_cut _ _ _ _ _ H1 H2 H3)).
Defined.

(** The thank-you message of the remote model: unless the reply lacks its
    field, the value has at most 12 words, separated by single spaces with
    no whitespace around. *)
Theorem remote_thanks_are_cut
  (ollama : str -> MainTemp.reply str) (topic : str) :
  MainTemp.generate_content_for_placeholder ollama (lit "{{thankumess}}") topic
  = Raise KeyError
  \/ exists v,
       MainTemp.generate_content_for_placeholder ollama (lit "{{thankumess}}")
         topic = Ok v
       /\ List.length (PyStr.split v) <= 12
       /\ v = PyStr.join (lit " ") (PyStr.split v).
Proof.
  change (MainTemp.generate_content_for_placeholder ollama
            (lit "{{thankumess}}") topic)
    with (content <-
            MainTemp.generate_ollama_content ollama
              (MainTemp.base_prompt topic
               ++ lit " A brief thank-you message to the audience, exactly "
               ++ PyStr.of_nat 12 ++ lit " words long.") ;;
          Ok (PyStr.join (lit " ")
                (PyStr.slice_to 12 (PyStr.split content)))).
  destruct (generate_ollama_content_cases ollama
              (MainTemp.base_prompt topic
               ++ lit " A brief thank-you message to the audience, exactly "
               ++ PyStr.of_nat 12 ++ lit " words long."))
    as [(content & ->)|(-> & _)]; [right|now left].
  cbn [bind]. eexists. split; [reflexivity|]. unfold PyStr.slice_to.
  destruct (cut_words 12 content) as [Hw Hl].
  rewrite split_join by exact Hw. split; [exact Hl|reflexivity].
Qed.

(** ** Trimmed answers *)

Lemma lstrip_head s :
  PyStr.lstrip s = []
  \/ exists c r, PyStr.lstrip s = c :: r /\ PyStr.is_space c = false.
Proof.
  induction s as [|c r IH]; [now left|]. cbn [PyStr.lstrip].
  destruct (PyStr.is_space c) eqn:E; [exact IH|right; eauto].
Qed.

Lemma lstrip_suffix s :
  exists sp, s = sp ++ PyStr.lstrip s /\ blank sp = true.
Proof.
  induction s as [|c r (sp & E & Hsp)]; [now exists []|]. cbn [PyStr.lstrip].
  destruct (PyStr.is_space c) eqn:Ec.
  - exists (c :: sp). cbn [app blank forallb]. rewrite Ec. split; [now f_equal|exact Hsp].
  - now exists [].
Qed.

Lemma strip_trimmed s : trimmed (PyStr.strip s) = true.
Proof.
  unfold PyStr.strip.
  destruct (lstrip_suffix (rev (PyStr.lstrip s))) as (sp & E & _).
  destruct (lstrip_head (rev (PyStr.lstrip s))) as [->|(c & r & Eu & Hc)];
    [reflexivity|].
  rewrite Eu in E |- *. cbn [rev].
  apply (f_equal (@rev ascii)) in E. rewrite rev_involutive, rev_app_distr in E.
  cbn [rev] in E.
  destruct (lstrip_head s) as [E0|(a & t & Et & Ha)].
  - rewrite E0 in E. destruct (rev r); discriminate E.
  - rewrite Et in E.
    assert (Hhd : exists xs, rev r ++ [c] = a :: xs).
    { destruct (rev r ++ [c]) as [|x xs] eqn:Ex;
        [destruct (rev r); discriminate Ex|].
      cbn [app] in E. injection E as <- _. now exists xs. }
    destruct Hhd as (xs & Ex). unfold trimmed.
    rewrite Ex at 1. rewrite Ha. cbn [negb andb].
    now rewrite last_last, Hc.
Qed.

Lemma lstrip_in s c : In c (PyStr.lstrip s) -> In c s.
Proof.
  induction s as [|x r IH]; [auto|]. cbn [PyStr.lstrip].
  destruct (PyStr.is_space x); [right; auto|auto].
Qed.

Lemma strip_in s c : In c (PyStr.strip s) -> In c s.
Proof.
  unfold PyStr.strip. intros H. apply in_rev, lstrip_in, in_rev, lstrip_in in H.
  exact H.
Qed.

Lemma trimmed_strip s : trimmed s = true -> PyStr.strip s = s.
Proof.
  destruct s as [|c r]; [reflexivity|]. unfold trimmed, PyStr.strip.
  intros H. apply andb_prop in H. destruct H as [Hc Hl].
  apply negb_true_iff in Hc, Hl.
  cbn [PyStr.lstrip]. rewrite Hc.
  rewrite (app_removelast_last c (l := c :: r)) at 1 by discriminate.
  rewrite rev_app_distr. cbn [rev app PyStr.lstrip]. rewrite Hl.
  change (last (c :: r) c :: rev (removelast (c :: r)))
    with (rev [last (c :: r) c] ++ rev (removelast (c :: r))).
  rewrite <- rev_app_distr, rev_involutive.
  symmetry. apply app_removelast_last. discriminate.
Qed.

(** What [generate_ollama_content] returns neither starts nor ends with
    whitespace, be it the answer of the model or the text it returns for a
    request that failed; stripping it again changes nothing. *)
Theorem model_answers_are_trimmed
  (ollama : str -> MainTemp.reply str) (prompt content : str) :
  MainTemp.generate_ollama_content ollama prompt = Ok content ->
  trimmed content = true /\ PyStr.strip content = content.
Proof.
  unfold MainTemp.generate_ollama_content.
  destruct (ollama prompt) as [response| |]; intros H; try discriminate H;
    injection H as <-.
  - split; [apply strip_trimmed|apply trimmed_strip, strip_trimmed].
  - split; reflexivity.
Qed.

Lemma model_answers_are_trimmed_witness :
  MainTemp.generate_ollama_content
    (fun _ => MainTemp.Answer (lit "  Ada Lovelace
")) (lit "a name")
  = Ok (lit "Ada Lovelace")
  /\ trimmed (lit "Ada Lovelace") = true.
Proof.
  assert (H : MainTemp.generate_ollama_content
                (fun _ => MainTemp.Answer (lit "  Ada Lovelace
")) (lit "a name")
              = Ok (lit "Ada Lovelace")) by reflexivity.
  split; [exact H|]. exact (proj1 (model_answers_are_trimmed _ _ _ H)).
Defined.

(** ** Bullet lists of the remote model *)

Lemma split_on_one_line s : Forall one_line (PyStr.split_on nl s).
Proof.
  induction s as [|c r IH]; [repeat constructor|]. cbn [PyStr.split_on].
  destruct (Ascii.eqb c nl) eqn:E; [constructor; [constructor|exact IH]|].
  destruct (PyStr.split_on nl r) as [|w ws]; [repeat constructor; exact E|].
  inversion IH as [|? ? Hw Hws]; subst.
  constructor; [constructor; assumption|exact Hws].
Qed.

Lemma one_line_strip l : one_line l -> one_line (PyStr.strip l).
Proof.
  unfold one_line. rewrite !Forall_forall. intros H c Hc.
  apply H. now apply strip_in.
Qed.

(** The bullet points the code makes of an answer: one for every line
    that is not blank, the line stripped behind the mark. *)
Lemma bullets_shape content :
  Forall (fun l => one_line l
                   /\ exists t, l = lit "• " ++ t /\ t <> []
                                /\ trimmed t = true)
    (map (fun line => lit "• " ++ PyStr.strip line)
         (filter (fun line => negb (Nat.eqb (List.length (PyStr.strip line)) 0))
                 (PyStr.split_on nl content))).
Proof.
  apply Forall_map, Forall_forall. intros line Hin.
  apply filter_In in Hin. destruct Hin as [Hin Hne].
  pose proof (split_on_one_line content) as Hl.
  rewrite Forall_forall in Hl. specialize (Hl _ Hin). split.
  - apply Forall_app. split; [repeat constructor|now apply one_line_strip].
  - exists (PyStr.strip line). split; [reflexivity|]. split.
    + intros E. rewrite E in Hne. discriminate Hne.
    + apply strip_trimmed.
Qed.

Lemma Forall_firstn_keep {A} (P : A -> Prop) n l :
  Forall P l -> Forall P (firstn n l).
Proof.
  rewrite !Forall_forall. intros H x Hx. apply H.
  rewrite <- (firstn_skipn n l). apply in_or_app. now left.
Qed.

(** A bullet list of the remote model is cut to the count of its token:
    whatever the model answers, the value has at most as many lines as the
    second number of the token says, and every line is the bullet mark
    followed by a text that is not empty and has no whitespace around. *)
Theorem remote_bullets_are_cut
  (ollama : str -> MainTemp.reply str) (ph topic : str) (mt : Re.rmatch)
  (v : str) :
  PyStr.contains (lit "topic1_") ph = false ->
  Re.rematch false MainTemp.title_pattern ph = None ->
  Re.rematch false MainTemp.para_pattern ph = None ->
  Re.rematch false MainTemp.bullet_pattern ph = Some mt ->
  MainTemp.generate_content_for_placeholder ollama ph topic = Ok v ->
  List.length (PyStr.lines v) <= PyStr.int (nth 1 (Re.groups mt) [])
  /\ Forall (fun l => exists t, l = lit "• " ++ t /\ t <> []
                                /\ trimmed t = true)
       (PyStr.lines v).
Proof.
  intros Hc Ht Hp Hb H. unfold MainTemp.generate_content_for_placeholder in H.
  rewrite Hc, Ht, Hp, Hb in H.
  destruct (bullet_groups _ _ Hb) as (x & count & Eg).
  rewrite Eg in H |- *. cbn [nth].
  apply bind_ok in H. destruct H as (content & _ & H). injection H as <-.
  unfold PyStr.slice_to.
  pose proof (Forall_firstn_keep _ (PyStr.int count) _ (bullets_shape content))
    as Hshape.
  change (lit "
") with [nl]. fold nl.
  rewrite lines_join.
  - split; [apply firstn_le_length|].
    revert Hshape. apply Forall_impl. intros l [_ Hl]. exact Hl.
  - revert Hshape. apply Forall_impl. intros l [Hl _]. exact Hl.
  - revert Hshape. apply Forall_impl. intros l [_ (t & -> & _)]. discriminate.
Qed.

Lemma remote_bullets_are_cut_witness :
  PyStr.contains (lit "topic1_") (lit "{{bullet2_2}}") = false
  /\ Re.rematch false MainTemp.title_pattern (lit "{{bullet2_2}}") = None
  /\ Re.rematch false MainTemp.para_pattern (lit "{{bullet2_2}}") = None
  /\ Re.rematch false MainTemp.bullet_pattern (lit "{{bullet2_2}}")
     = Some (Re.mkMatch (lit "{{bullet2_2}}") [lit "2"; lit "2"])
  /\ MainTemp.generate_content_for_placeholder
       (fun _ => MainTemp.Answer (lit "one

  two  
three"))
       (lit "{{bullet2_2}}") (lit "Cloud")
     = Ok (lit "• one
• two")
  /\ List.length (PyStr.lines (lit "• one
• two")) <= 2.
Proof.
  assert (H1 : PyStr.contains (lit "topic1_") (lit "{{bullet2_2}}") = false)
    by reflexivity.
  assert (H2 : Re.rematch false MainTemp.title_pattern (lit "{{bullet2_2}}")
               = None) by reflexivity.
  assert (H3 : Re.rematch false MainTemp.para_pattern (lit "{{bullet2_2}}")
               = None) by reflexivity.
  assert (H4 : Re.rematch false MainTemp.bullet_pattern (lit "{{bullet2_2}}")
               = Some (Re.mkMatch (lit "{{bullet2_2}}") [lit "2"; lit "2"]))
    by reflexivity.
  assert (H5 : MainTemp.generate_content_for_placeholder
                 (fun _ => MainTemp.Answer (lit "one

  two  
three"))
                 (lit "{{bullet2_2}}") (lit "Cloud")
               = Ok (lit "• one
• two")) by reflexivity.
  repeat (split; [assumption|]).
  exact (proj1 (remote_bullets_are_cut _ _ _ _ _ H1 H2 H3 H4 H5)).
Defined.

(** ** The third pass of main_temp.py *)

(** main_temp.py saves nothing for a template that has a slide.  Whatever
    the topic, the key, the services and the shapes, [generate_ppt] builds
    the map of the text tokens, rewrites the slides and then raises
    [AttributeError] at the first slide of the third pass, before any image
    is searched and before the file is written; the script ends with that
    exception for every line that is not blank. *)
Theorem no_template_with_a_slide_is_saved
  (ollama : str -> MainTemp.reply str)
  (pixabay : str -> str -> str -> MainTemp.reply (list str))
  (download : str -> option str) (key line : str)
  (sl : Pptx.slide) (rest : Pptx.presentation) :
  PyStr.strip line <> [] ->
  (forall topic,
     MainTemp.generate_ppt ollama pixabay download key (Some (sl :: rest))
       topic = Raise AttributeError)
  /\ MainTemp.main ollama pixabay download key line (Some (sl :: rest))
     = Raise AttributeError.
Proof.
  intros Hline.
  assert (H : forall topic,
            MainTemp.generate_ppt ollama pixabay download key
              (Some (sl :: rest)) topic = Raise AttributeError).
  { intros topic. unfold MainTemp.generate_ppt.
    rewrite text_placeholders_entries. cbn [bind map].
    rewrite fixup_slides_raises. reflexivity. }
  split; [exact H|]. unfold MainTemp.main.
  destruct (PyStr.strip line) as [|c topic]; [congruence|].
  rewrite H. reflexivity.
Qed.

Lemma no_template_with_a_slide_is_saved_witness :
  PyStr.strip (lit "Cloud Security") <> []
  /\ MainTemp.main (fun _ => MainTemp.Answer (lit "Cloud Security")) one_hit
       (fun _ => Some (lit "PNG")) (lit "YOUR_PIXABAY_API_KEY")
       (lit "Cloud Security")
       (Some [Pptx.mkSlide [Pptx.text_shape 1 (lit "Quarterly results")]
                None])
     = Raise AttributeError.
Proof.
  assert (H : PyStr.strip (lit "Cloud Security") <> []) by (cbv; discriminate).
  split; [exact H|].
  exact (proj2 (no_template_with_a_slide_is_saved
                  (fun _ => MainTemp.Answer (lit "Cloud Security")) one_hit
                  (fun _ => Some (lit "PNG")) (lit "YOUR_PIXABAY_API_KEY")
                  (lit "Cloud Security")
                  (Pptx.mkSlide [Pptx.text_shape 1 (lit "Quarterly results")]
                     None)
                  [] H)).
Defined.

(** ** The second pass of main_temp.py *)

Lemma split_breaks_fresh s :
  Forall (fun r => forallb (fun c => negb (Ascii.eqb c nl || Ascii.eqb c Pptx.vt)) r
                   = true)
    (Pptx.split_breaks s).
Proof.
  induction s as [|c s IH]; [repeat constructor|].
  cbn [Pptx.split_breaks]. fold nl.
  destruct (Ascii.eqb c nl || Ascii.eqb c Pptx.vt) eqn:E.
  - constructor; [reflexivity|exact IH].
  - destruct (Pptx.split_breaks s) as [|w ws]; [repeat constructor; cbn; now rewrite E|].
    inversion IH as [|? ? Hw Hws]. constructor; [|exact Hws].
    cbn [forallb]. now rewrite E, Hw.
Qed.

Lemma piece_fresh r :
  forallb (fun c => negb (Ascii.eqb c nl || Ascii.eqb c Pptx.vt)) r = true ->
  forallb fresh_run (Pptx.runs (Pptx.piece r)) = true.
Proof.
  intros H. destruct r as [|c r]; [reflexivity|].
  cbn [Pptx.piece Pptx.runs flat_map app forallb fresh_run] in *.
  now rewrite H.
Qed.

Lemma runs_app p q : Pptx.runs (p ++ q) = Pptx.runs p ++ Pptx.runs q.
Proof. unfold Pptx.runs. apply flat_map_app. Qed.

(** The runs that an assignment to [paragraph.text] makes are fresh. *)
Lemma set_paragraph_text_fresh s :
  forallb fresh_run (Pptx.runs (Pptx.set_paragraph_text s)) = true.
Proof.
  unfold Pptx.set_paragraph_text.
  pose proof (split_breaks_fresh s) as H.
  destruct (Pptx.split_breaks s) as [|first rest]; [reflexivity|].
  inversion H as [|? ? Hf Hr]. subst. rewrite runs_app, forallb_app.
  apply andb_true_intro. split; [exact (piece_fresh _ Hf)|].
  clear H Hf. induction Hr as [|r rest Hr _ IH]; [reflexivity|].
  cbn [flat_map]. rewrite runs_app, forallb_app.
  apply andb_true_intro. split; [exact (piece_fresh _ Hr)|exact IH].
Qed.

Lemma rebuilt_map (g : Pptx.paragraph -> Pptx.paragraph) l l' :
  (forall p, g p = p \/ forallb fresh_run (Pptx.runs (g p)) = true) ->
  Forall2 (fun para para' =>
             para' = para \/ forallb fresh_run (Pptx.runs para') = true) l l' ->
  Forall2 (fun para para' =>
             para' = para \/ forallb fresh_run (Pptx.runs para') = true) l
    (map g l').
Proof.
  intros Hg. induction 1 as [|p p' l l' Hp _ IH]; [constructor|].
  cbn [map]. constructor; [|exact IH].
  destruct (Hg p') as [->|H1]; [exact Hp|now right].
Qed.

Lemma rewrite_shape_rebuilt d sh :
  same_shape_rebuilt sh (MainTemp.rewrite_shape d sh).
Proof.
  unfold MainTemp.rewrite_shape, same_shape_rebuilt.
  destruct (Pptx.has_text_frame sh) eqn:Htf.
  - assert (H : forall d sh',
              sh' = Pptx.with_paragraphs sh (Pptx.paragraphs sh')
              /\ Forall2 (fun para para' =>
                            para' = para
                            \/ forallb fresh_run (Pptx.runs para') = true)
                   (Pptx.paragraphs sh) (Pptx.paragraphs sh') ->
              let out :=
                fold_left (fun sh (item : str * str) =>
                  let (ph, value) := item in
                  if PyStr.contains ph (Pptx.text_frame_text sh) then
                    Pptx.with_paragraphs sh
                      (map (fun para =>
                              if PyStr.contains ph (Pptx.paragraph_text para)
                              then Pptx.set_paragraph_text
                                     (PyStr.replace (Pptx.paragraph_text para)
                                        ph value)
                              else para)
                           (Pptx.paragraphs sh))
                  else sh) d sh' in
              out = Pptx.with_paragraphs sh (Pptx.paragraphs out)
              /\ Forall2 (fun para para' =>
                            para' = para
                            \/ forallb fresh_run (Pptx.runs para') = true)
                   (Pptx.paragraphs sh) (Pptx.paragraphs out)).
    { clear d. induction d as [|[ph value] d IH]; intros sh' Hsh'; [exact Hsh'|].
      cbn [fold_left]. apply IH.
      destruct (PyStr.contains ph (Pptx.text_frame_text sh')); [|exact Hsh'].
      destruct Hsh' as [E F]. split.
      - rewrite E at 1. reflexivity.
      - cbn [Pptx.with_paragraphs Pptx.paragraphs]. apply rebuilt_map; [|exact F].
        intros p. destruct (PyStr.contains ph (Pptx.paragraph_text p));
          [right; apply set_paragraph_text_fresh|now left]. }
    destruct (H d sh) as [E F].
    { split; [now rewrite with_paragraphs_same|].
      clear. induction (Pptx.paragraphs sh); constructor; auto. }
    split; [exact E|]. split; [exact F|now left].
  - split; [now rewrite with_paragraphs_same|]. split; [|now right].
    clear. induction (Pptx.paragraphs sh); constructor; auto.
Qed.

(** The second pass of main_temp.py keeps the slides and their shapes:
    whatever the map, every shape keeps its id, its frame flag, its
    position and size and its picture and has as many paragraphs as
    before; a paragraph is either kept with its runs or rebuilt from its
    new text, with runs that are not empty and hold neither a line feed nor
    a vertical tab; a shape without a text frame is kept as it is. *)
Theorem rewriting_keeps_the_shapes
  (d : Dict.dict str) (prs : Pptx.presentation) :
  Forall2 (fun sl sl' =>
             Pptx.title_id sl' = Pptx.title_id sl
             /\ Forall2 same_shape_rebuilt (Pptx.shapes sl) (Pptx.shapes sl'))
          prs (map (MainTemp.rewrite_slide d) prs).
Proof.
  induction prs as [|sl prs IH]; [constructor|].
  cbn [map]. constructor; [|exact IH].
  split; [reflexivity|]. cbn [MainTemp.rewrite_slide Pptx.shapes].
  induction (Pptx.shapes sl) as [|sh shs IHs]; [constructor|].
  cbn [map]. constructor; [apply rewrite_shape_rebuilt|exact IHs].
Qed.

(** A value of several lines is written as one run a line, with a line
    break between two: the paragraph then reads with a vertical tab where
    the value has a line feed. *)
Example value_of_two_lines :
  MainTemp.rewrite_shape [(lit "{{bullet1_2}}", lit "• one
• two")]
    (Pptx.text_shape 1 (lit "{{bullet1_2}}"))
  = Pptx.mkShape 1 true
      [[Pptx.Run (lit "• one"); Pptx.Break; Pptx.Run (lit "• two")]]
      0 0 0 0 None.
Proof. reflexivity. Qed.

(** ** Counts of zero *)

(** A paragraph token with the limit 0 resolves to a lone full stop, not to
    the empty string; a bullet token with the count 0 resolves to the empty
    string.  Neither fails, whatever the topic. *)
Example zero_counts (topic : str) :
  Main.generate_content (lit "para") topic (Main.IntArg 0)
  = Ok (Main.VStr (lit "."))
  /\ Main.generate_content (lit "bullet") topic (Main.IntArg 0)
     = Ok (Main.VStr []).
Proof. split; reflexivity. Qed.

(** ** A match read on its own *)

Lemma drop_literal_length ic l s r :
  Re.drop_literal ic l s = Some r ->
  List.length s = List.length l + List.length r.
Proof.
  revert s. induction l as [|a l IH]; intros s H.
  - injection H as <-. reflexivity.
  - destruct s as [|b s]; [discriminate|]. cbn [Re.drop_literal] in H.
    destruct (if ic then _ else _); [|discriminate].
    cbn [List.length]. now rewrite (IH _ H).
Qed.

Lemma drop_literal_cut ic l pre x y :
  List.length pre = List.length l ->
  Re.drop_literal ic l (pre ++ x) = Some x ->
  Re.drop_literal ic l (pre ++ y) = Some y.
Proof.
  revert pre. induction l as [|a l IH]; intros pre Hlen H.
  - destruct pre; [reflexivity|discriminate Hlen].
  - destruct pre as [|b pre]; [discriminate Hlen|].
    cbn [app Re.drop_literal] in *.
    destruct (if ic then _ else _); [|discriminate].
    apply IH; [now injection Hlen|exact H].
Qed.

Lemma span_digits_spec s :
  forallb PyStr.is_digit (fst (Re.span_digits s)) = true
  /\ match snd (Re.span_digits s) with
     | [] => True
     | c :: _ => PyStr.is_digit c = false
     end.
Proof.
  induction s as [|c r [IH1 IH2]]; [split; [reflexivity|exact I]|].
  cbn [Re.span_digits]. destruct (PyStr.is_digit c) eqn:E.
  - destruct (Re.span_digits r) as [d rest]. cbn [fst snd forallb] in *.
    now rewrite E, IH1.
  - cbn [fst snd]. split; [reflexivity|exact E].
Qed.

Lemma span_digits_cut d x :
  forallb PyStr.is_digit d = true ->
  match x with [] => True | c :: _ => PyStr.is_digit c = false end ->
  Re.span_digits (d ++ x) = (d, x).
Proof.
  intros Hd Hx. induction d as [|c d IH].
  - destruct x as [|c x]; [reflexivity|]. cbn [app Re.span_digits].
    now rewrite Hx.
  - cbn [forallb] in Hd. apply andb_prop in Hd. destruct Hd as [Hc Hd].
    cbn [app Re.span_digits]. now rewrite Hc, (IH Hd).
Qed.

Lemma match_here_alone ic p :
  plain p = true ->
  forall k rest gs,
    Re.match_here ic p (k ++ rest) = Some (gs, rest) ->
    Re.match_here ic p k = Some (gs, []).
Proof.
  induction p as [|it p IH]; intros Hp k rest gs H.
  - injection H as <- Hk.
    assert (k = []) as ->; [|reflexivity].
    apply (f_equal (@List.length ascii)) in Hk. rewrite length_app in Hk.
    destruct k; [reflexivity|cbn in Hk; lia].
  - cbn [plain forallb] in Hp. apply andb_prop in Hp. destruct Hp as [Hit Hp].
    destruct it as [l| |alts|]; try discriminate Hit; cbn [Re.match_here] in *.
    + destruct (Re.drop_literal ic l (k ++ rest)) as [r1|] eqn:E; [|discriminate].
      destruct (match_here_sound _ _ _ _ _ H) as [(pre2 & ->) _].
      pose proof (drop_literal_length _ _ _ _ E) as Hlen.
      destruct (drop_literal_suffix _ _ _ _ E) as (pre1 & E1).
      rewrite app_assoc in E1. apply app_inv_tail in E1. subst k.
      assert (Hl1 : List.length pre1 = List.length l).
      { rewrite !length_app in Hlen. lia. }
      rewrite <- app_assoc in E.
      rewrite (drop_literal_cut ic l pre1 _ pre2 Hl1 E).
      now apply (IH Hp pre2 rest).
    + pose proof (span_digits_app (k ++ rest)) as Es.
      pose proof (span_digits_spec (k ++ rest)) as [Hd Hr].
      destruct (Re.span_digits (k ++ rest)) as [d r1]. cbn [fst snd] in *.
      destruct d as [|c d]; [discriminate|].
      destruct (Re.match_here ic p r1) as [[gs' rest']|] eqn:E; [|discriminate].
      injection H as <- <-.
      destruct (match_here_sound _ _ _ _ _ E) as [(pre2 & ->) _].
      rewrite app_assoc in Es. apply app_inv_tail in Es. subst k.
      rewrite span_digits_cut;
        [|exact Hd|destruct pre2; [exact I|exact Hr]].
      now rewrite (IH Hp pre2 rest' gs' E).
Qed.

Lemma rematch_alone ic p s mt :
  plain p = true ->
  Re.rematch ic p s = Some mt ->
  Re.rematch ic p (Re.group0 mt) = Some mt.
Proof.
  intros Hp H. destruct (rematch_sound _ _ _ _ H) as (rest & -> & Hm).
  apply (match_here_alone ic p Hp) in Hm. unfold Re.rematch. rewrite Hm.
  cbn [List.length]. rewrite Nat.sub_0_r, firstn_all.
  destruct mt; reflexivity.
Qed.

(** ** What the first pass of main.py stores *)

Lemma updates_sat_bind {V} (P : str * V -> Prop) (c : res (Dict.dict V))
  k m ks1 ks2 :
  updates_sat P c m ks1 ->
  (forall m', updates_sat P (k m') m' ks2) ->
  updates_sat P (x <- c ;; k x) m (ks1 ++ ks2).
Proof.
  intros (u1 & -> & <- & P1) Hk.
  destruct (Hk (apply_updates u1 m)) as (u2 & E & <- & P2).
  exists (u1 ++ u2). cbn [bind]. rewrite E, apply_updates_app, map_app.
  split; [reflexivity|]. split; [reflexivity|]. apply Forall_app. now split.
Qed.

Lemma updates_sat_nil {V} (P : str * V -> Prop) (m : Dict.dict V) :
  updates_sat P (Ok m) m [].
Proof. exists []. repeat split. constructor. Qed.

Lemma foldM_sets_sat {A V} (P : str * V -> Prop) (g : A -> res V)
  (key : A -> str) (f : Dict.dict V -> A -> res (Dict.dict V)) l :
  (forall m a, f m a = (v <- g a ;; Ok (Dict.set m (key a) v))) ->
  (forall a, In a l -> exists v, g a = Ok v /\ P (key a, v)) ->
  forall m, updates_sat P (foldM f l m) m (map key l).
Proof.
  intros Hf. induction l as [|a l IH]; intros Hg m.
  - apply updates_sat_nil.
  - cbn [foldM map].
    change (key a :: map key l) with ([key a] ++ map key l).
    apply updates_sat_bind.
    + rewrite Hf. destruct (Hg a (or_introl eq_refl)) as (v & -> & Hv).
      exists [(key a, v)]. repeat split. constructor; [exact Hv|constructor].
    + intros m'. apply IH. intros b Hb. apply Hg. now right.
Qed.

Lemma foldM_updates_sat {A V} (P : str * V -> Prop)
  (f : Dict.dict V -> A -> res (Dict.dict V)) (keys_of : A -> list str) l :
  (forall m a, In a l -> updates_sat P (f m a) m (keys_of a)) ->
  forall m, updates_sat P (foldM f l m) m (flat_map keys_of l).
Proof.
  induction l as [|a l IH]; intros Hf m.
  - apply updates_sat_nil.
  - cbn [foldM flat_map]. apply updates_sat_bind.
    + apply Hf. now left.
    + intros m'. apply IH. intros m'' b Hb. apply Hf. now right.
Qed.

Lemma numbered_stage topic kind p text
  (f : Main.placeholder_map_t -> Re.rmatch -> res Main.placeholder_map_t) m :
  In kind numbered_kinds ->
  Dict.get Main.patterns kind = Some p ->
  plain p = true ->
  (forall m mt,
     f m mt = (v <- stored topic kind mt ;; Ok (Dict.set m (Re.group0 mt) v))) ->
  (forall mt, In mt (Re.finditer true p text) ->
              exists v, stored topic kind mt = Ok v) ->
  updates_sat (scan_entry topic) (foldM f (Re.finditer true p text) m) m
    (Re.findall true p text).
Proof.
  intros Hkind Hp Hplain Hf Hok. unfold Re.findall.
  apply foldM_sets_sat with (g := stored topic kind); [exact Hf|].
  intros mt Hin. destruct (Hok mt Hin) as (v & Hv). exists v.
  split; [exact Hv|]. left. exists kind, p, mt. cbn [fst snd].
  split; [exact Hkind|]. split; [exact Hp|].
  destruct (finditer_sound _ _ _ _ _ Hin) as (tail & Ht).
  split; [now apply rematch_alone with (s := tail)|]. split; [reflexivity|exact Hv].
Qed.

Lemma static_stage_sat key topic text m :
  In (lit "{{" ++ lit key ++ lit "}}")
    [lit "{{thankumess}}"; lit "{{personname}}"; lit "{{graphimage}}"] ->
  (exists v, Main.generate_content (lit key) topic Main.NoArgs = Ok v) ->
  updates_sat (scan_entry topic)
    (match Re.search true [Re.Lit (lit "{{" ++ lit key ++ lit "}}")] text with
     | Some _ =>
         content <- Main.generate_content (lit key) topic Main.NoArgs ;;
         Ok (Dict.set m (lit "{{" ++ lit key ++ lit "}}") content)
     | None => Ok m
     end)
    m (static_key key text).
Proof.
  intros Hin (v & Hv). unfold static_key.
  destruct (Re.search true _ text).
  - rewrite Hv. exists [(lit "{{" ++ lit key ++ lit "}}", v)].
    repeat split. constructor; [|constructor]. now right.
  - apply updates_sat_nil.
Qed.

Lemma scan_run_sat topic m text :
  updates_sat (scan_entry topic) (Main.scan_run topic m text) m
    (scan_keys text).
Proof.
  unfold Main.scan_run, scan_keys. cbn [foldM].
  change (Main.pattern_of (lit "title")) with (Ok (Main.three_numbers "title")).
  change (Main.pattern_of (lit "subtitle"))
    with (Ok (Main.three_numbers "subtitle")).
  change (Main.pattern_of (lit "para")) with (Ok (Main.two_numbers "para")).
  change (Main.pattern_of (lit "bullet")) with (Ok (Main.two_numbers "bullet")).
  change (Main.pattern_of (lit "thankumess"))
    with (Ok [Re.Lit (lit "{{" ++ lit "thankumess" ++ lit "}}")]).
  change (Main.pattern_of (lit "personname"))
    with (Ok [Re.Lit (lit "{{" ++ lit "personname" ++ lit "}}")]).
  change (Main.pattern_of (lit "graphimage"))
    with (Ok [Re.Lit (lit "{{" ++ lit "graphimage" ++ lit "}}")]).
  change (Main.pattern_of (lit "icon"))
    with (Ok [Re.Lit (lit "{{icon"); Re.Digits; Re.Lit (lit "}}")]).
  cbn [bind].
  match goal with
  | |- updates_sat _ ?c m (?A ++ ?B ++ ?C ++ ?D ++ ?E ++ ?F ++ ?G ++ ?H) =>
      cut (updates_sat (scan_entry topic) c m
             ((A ++ B ++ []) ++ C ++ D ++ (E ++ F ++ G ++ []) ++ H))
  end.
  { now rewrite !app_nil_r, <- !app_assoc. }
  assert (H3 : forall kind mt,
            kind = lit "title" \/ kind = lit "subtitle" ->
            List.length (Re.groups mt) = 3 ->
            exists v, stored topic kind mt = Ok v).
  { intros kind mt Hk Hg.
    destruct (Re.groups mt) as [|a [|b [|c [|? ?]]]] eqn:Eg; try discriminate Hg.
    destruct Hk as [-> | ->]; unfold stored; rewrite Eg; eexists; reflexivity. }
  assert (H2 : forall kind mt,
            kind = lit "para" \/ kind = lit "bullet" ->
            List.length (Re.groups mt) = 2 ->
            exists v, stored topic kind mt = Ok v).
  { intros kind mt Hk Hg.
    destruct (Re.groups mt) as [|a [|b [|? ?]]] eqn:Eg; try discriminate Hg.
    destruct Hk as [-> | ->]; unfold stored; rewrite Eg; cbn [orb map].
    - apply generate_content_para_ok.
    - apply generate_content_bullet_ok. }
  apply updates_sat_bind.
  { apply updates_sat_bind.
    - apply numbered_stage with (kind := lit "title");
        [cbn; tauto|reflexivity|reflexivity| |].
      + intros m0 mt. unfold stored. cbn [orb].
        destruct (map PyStr.int (Re.groups mt)) as [|? [|? [|? [|? ?]]]];
          reflexivity.
      + intros mt Hin. apply H3; [now left|].
        exact (finditer_groups _ _ _ _ Hin).
    - intros m1. apply updates_sat_bind; [|intros; apply updates_sat_nil].
      apply numbered_stage with (kind := lit "subtitle");
        [cbn; tauto|reflexivity|reflexivity| |].
      + intros m0 mt. unfold stored. cbn [orb].
        destruct (map PyStr.int (Re.groups mt)) as [|? [|? [|? [|? ?]]]];
          reflexivity.
      + intros mt Hin. apply H3; [now right|].
        exact (finditer_groups _ _ _ _ Hin). }
  intros m1. apply updates_sat_bind.
  { apply numbered_stage with (kind := lit "para");
      [cbn; tauto|reflexivity|reflexivity| |].
    - intros m0 mt. unfold stored. cbn [orb].
      destruct (map PyStr.int (Re.groups mt)) as [|? [|? [|? ?]]]; reflexivity.
    - intros mt Hin. apply H2; [now left|].
      exact (finditer_groups _ _ _ _ Hin). }
  intros m2. apply updates_sat_bind.
  { apply numbered_stage with (kind := lit "bullet");
      [cbn; tauto|reflexivity|reflexivity| |].
    - intros m0 mt. unfold stored. cbn [orb].
      destruct (map PyStr.int (Re.groups mt)) as [|? [|? [|? ?]]]; reflexivity.
    - intros mt Hin. apply H2; [now right|].
      exact (finditer_groups _ _ _ _ Hin). }
  intros m3. apply updates_sat_bind.
  { apply updates_sat_bind;
      [apply static_stage_sat; [cbn; tauto|eexists; reflexivity]|]. intros m4.
    apply updates_sat_bind;
      [apply static_stage_sat; [cbn; tauto|eexists; reflexivity]|]. intros m5.
    apply updates_sat_bind;
      [apply static_stage_sat; [cbn; tauto|eexists; reflexivity]|]. intros m6.
    apply updates_sat_nil. }
  intros m4.
  apply numbered_stage with (kind := lit "icon");
    [cbn; tauto|reflexivity|reflexivity| |].
  - intros m0 mt. reflexivity.
  - intros mt _. eexists. reflexivity.
Qed.

Lemma placeholder_map_sat prs topic :
  updates_sat (scan_entry topic) (Main.placeholder_map prs topic)
    (topic_entries topic) (flat_map scan_keys (Main.run_texts prs)).
Proof.
  unfold Main.placeholder_map.
  rewrite generate_content_topic, base_words_two. cbn [bind Main.item nth_error].
  apply foldM_updates_sat. intros m text _. apply scan_run_sat.
Qed.

Lemma apply_updates_get_last {V} (ups : list (str * V)) :
  forall m k,
    In k (map fst ups) ->
    exists v, Dict.get (apply_updates ups m) k = Some v /\ In (k, v) ups.
Proof.
  induction ups as [|[k0 v0] ups IH]; intros m k Hin; [destruct Hin|].
  cbn [apply_updates fold_left fst snd].
  change (fold_left (fun m kv => Dict.set m (fst kv) (snd kv)) ups
            (Dict.set m k0 v0)) with (apply_updates ups (Dict.set m k0 v0)).
  destruct (in_dec (list_eq_dec ascii_dec) k (map fst ups)) as [Hk|Hk].
  - destruct (IH (Dict.set m k0 v0) k Hk) as (v & Hv & Hin').
    exists v. split; [exact Hv|now right].
  - destruct Hin as [E|Hin]; [|contradiction]. cbn [fst] in E. subst k0.
    exists v0. rewrite apply_updates_get by exact Hk.
    split; [apply get_set_same|now left].
Qed.

Lemma rematch_third p k mt x :
  Re.rematch true p k = Some mt ->
  third_of p = Some x ->
  option_map PyStr.to_lower (nth_error k 2) = Some x.
Proof.
  unfold Re.rematch. intros H Hx.
  destruct p as [|[l| | |] p']; try discriminate Hx.
  destruct l as [|c1 [|c2 [|c3 l]]]; try discriminate Hx.
  cbn [third_of] in Hx. injection Hx as <-.
  cbn [Re.match_here] in H.
  destruct (Re.drop_literal true (c1 :: c2 :: c3 :: l) k) as [r|] eqn:E;
    [|discriminate H].
  destruct k as [|a [|b [|c k]]]; cbn [Re.drop_literal] in E;
    try discriminate E.
  - destruct (Ascii.eqb _ _); discriminate E.
  - destruct (Ascii.eqb _ _); [|discriminate E].
    destruct (Ascii.eqb _ _); discriminate E.
  - destruct (Ascii.eqb (PyStr.to_lower c1) (PyStr.to_lower a));
      [|discriminate E].
    destruct (Ascii.eqb (PyStr.to_lower c2) (PyStr.to_lower b));
      [|discriminate E].
    destruct (Ascii.eqb_spec (PyStr.to_lower c3) (PyStr.to_lower c)) as [->|];
      [reflexivity|discriminate E].
Qed.

Lemma findall_rematch p text k :
  plain p = true ->
  In k (Re.findall true p text) ->
  exists mt, Re.rematch true p k = Some mt /\ Re.group0 mt = k.
Proof.
  intros Hp Hk. unfold Re.findall in Hk. apply in_map_iff in Hk.
  destruct Hk as (mt & <- & Hin).
  destruct (finditer_sound _ _ _ _ _ Hin) as (tail & Ht).
  exists mt. split; [now apply rematch_alone with (s := tail)|reflexivity].
Qed.

Ltac pattern_of_kind Hkind Hp :=
  destruct Hkind as [<-|[<-|[<-|[<-|[<-|[]]]]]];
  vm_compute in Hp; injection Hp as <-.

(** The first pass of main.py gives every token of a numbered kind the
    value of its own numbers: a literal that the pattern of a kind finds in
    some run is matched by that pattern as a whole, and the map holds for
    it, when the second pass starts, what the generator returns for the
    kind and the numbers read off the literal (the first number is not
    used).  No other run, whatever it holds, takes the value away. *)
Theorem found_token_gets_its_value
  (prs : Pptx.presentation) (topic text kind : str) (p : Re.pattern)
  (k : str) :
  In text (Main.run_texts prs) ->
  In kind numbered_kinds ->
  Dict.get Main.patterns kind = Some p ->
  In k (Re.findall true p text) ->
  exists m mt v,
    Main.placeholder_map prs topic = Ok m
    /\ Re.rematch true p k = Some mt
    /\ Re.group0 mt = k
    /\ stored topic kind mt = Ok v
    /\ Dict.get m k = Some v.
Proof.
  intros Htext Hkind Hp Hk.
  destruct (placeholder_map_sat prs topic) as (ups & E & Hkeys & Hsat).
  assert (Hin : In k (map fst ups)).
  { rewrite Hkeys. apply in_flat_map. exists text. split; [exact Htext|].
    apply numbered_in_scan. unfold numbered_literals.
    apply in_flat_map. exists kind. split; [exact Hkind|]. now rewrite Hp. }
  destruct (apply_updates_get_last ups (topic_entries topic) k Hin)
    as (v & Hget & Hkv).
  rewrite Forall_forall in Hsat. specialize (Hsat _ Hkv).
  assert (Hplain : plain p = true).
  { pattern_of_kind Hkind Hp; reflexivity. }
  destruct (findall_rematch p text k Hplain Hk) as (mt0 & Hm0 & Hg0).
  exists (apply_updates ups (topic_entries topic)).
  destruct Hsat as [(kind' & p' & mt' & Hkind' & Hp' & Hm' & Hg' & Hst)|Hstatic];
    cbn [fst snd] in *.
  - pattern_of_kind Hkind Hp; pattern_of_kind Hkind' Hp';
      first [ exists mt', v; repeat split; assumption
            | exfalso;
              pose proof (rematch_third _ _ _ _ Hm0 eq_refl) as T1;
              pose proof (rematch_third _ _ _ _ Hm' eq_refl) as T2;
              rewrite T1 in T2; vm_compute in T2; discriminate T2 ].
  - exfalso.
    pattern_of_kind Hkind Hp;
      destruct Hstatic as [<-|[<-|[<-|[]]]]; vm_compute in Hm0;
      discriminate Hm0.
Qed.

Lemma found_token_gets_its_value_witness :
  In (lit "{{TITLE7_2_3}} and more")
    (Main.run_texts
       [Pptx.mkSlide [Pptx.text_shape 1 (lit "{{TITLE7_2_3}} and more")] None])
  /\ In (lit "title") numbered_kinds
  /\ Dict.get Main.patterns (lit "title") = Some (Main.three_numbers "title")
  /\ In (lit "{{TITLE7_2_3}}")
       (Re.findall true (Main.three_numbers "title")
          (lit "{{TITLE7_2_3}} and more"))
  /\ exists m mt v,
       Main.placeholder_map
         [Pptx.mkSlide [Pptx.text_shape 1 (lit "{{TITLE7_2_3}} and more")] None]
         (lit "Cloud Security") = Ok m
       /\ Re.rematch true (Main.three_numbers "title") (lit "{{TITLE7_2_3}}")
          = Some mt
       /\ Re.group0 mt = lit "{{TITLE7_2_3}}"
       /\ stored (lit "Cloud Security") (lit "title") mt = Ok v
       /\ Dict.get m (lit "{{TITLE7_2_3}}") = Some v.
Proof.
  assert (H1 : In (lit "{{TITLE7_2_3}} and more")
                 (Main.run_texts
                    [Pptx.mkSlide
                       [Pptx.text_shape 1 (lit "{{TITLE7_2_3}} and more")]
                       None])) by (now left).
  assert (H2 : In (lit "title") numbered_kinds) by (now left).
  assert (H3 : Dict.get Main.patterns (lit "title")
               = Some (Main.three_numbers "title")) by reflexivity.
  assert (H4 : In (lit "{{TITLE7_2_3}}")
                 (Re.findall true (Main.three_numbers "title")
                    (lit "{{TITLE7_2_3}} and more"))) by (now left).
  split; [exact H1|]. split; [exact H2|]. split; [exact H3|].
  split; [exact H4|].
  exact (found_token_gets_its_value _ (lit "Cloud Security") _ _ _ _
           H1 H2 H3 H4).
Defined.

Example stored_title_value :
  stored (lit "Cloud Security") (lit "title")
    (Re.mkMatch (lit "{{TITLE7_2_3}}") [lit "7"; lit "2"; lit "3"])
  = Ok (Main.VStr (lit "Security Intelligence Systems")).
Proof. reflexivity. Qed.

(** ** Paragraphs and topic words of the remote model *)

(** A paragraph of the remote model is cut to the limit of its token and
    closed by a full stop: whatever the model answers, the value ends with
    "." and has at most as many words as the second number of the token
    says, one word at least being counted for the full stop alone. *)
Theorem remote_para_is_cut
  (ollama : str -> MainTemp.reply str) (ph topic : str) (mt : Re.rmatch)
  (v : str) :
  PyStr.contains (lit "topic1_") ph = false ->
  Re.rematch false MainTemp.title_pattern ph = None ->
  Re.rematch false MainTemp.para_pattern ph = Some mt ->
  MainTemp.generate_content_for_placeholder ollama ph topic = Ok v ->
  List.length (PyStr.split v)
  <= Nat.max (PyStr.int (nth 1 (Re.groups mt) [])) 1
  /\ exists body, v = body ++ lit ".".
Proof.
  intros Hc Ht Hp H. unfold MainTemp.generate_content_for_placeholder in H.
  rewrite Hc, Ht, Hp in H.
  destruct (para_groups _ _ Hp) as (x & limit & Eg).
  rewrite Eg in H |- *. cbn [nth].
  apply bind_ok in H. destruct H as (content & _ & H). injection H as <-.
  unfold PyStr.slice_to. split; [|eexists; reflexivity].
  destruct (cut_words (PyStr.int limit) content) as [Hw Hl].
  destruct (firstn (PyStr.int limit) (PyStr.split content)) as [|w ws] eqn:E.
  - exact (Nat.le_max_r _ 1).
  - rewrite sentence_length with (ws := w :: ws);
      [|exact Hw|discriminate|apply capitalize_spaces].
    etransitivity; [exact Hl|apply Nat.le_max_l].
Qed.

Lemma remote_para_is_cut_witness :
  PyStr.contains (lit "topic1_") (lit "{{para3_4}}") = false
  /\ Re.rematch false MainTemp.title_pattern (lit "{{para3_4}}") = None
  /\ Re.rematch false MainTemp.para_pattern (lit "{{para3_4}}")
     = Some (Re.mkMatch (lit "{{para3_4}}") [lit "3"; lit "4"])
  /\ MainTemp.generate_content_for_placeholder
       (fun _ => MainTemp.Answer (lit "CLOUDS move data  between many sites"))
       (lit "{{para3_4}}") (lit "Cloud")
     = Ok (lit "Clouds move data between.")
  /\ List.length (PyStr.split (lit "Clouds move data between.")) <= 4.
Proof.
  assert (H1 : PyStr.contains (lit "topic1_") (lit "{{para3_4}}") = false)
    by reflexivity.
  assert (H2 : Re.rematch false MainTemp.title_pattern (lit "{{para3_4}}")
               = None) by reflexivity.
  assert (H3 : Re.rematch false MainTemp.para_pattern (lit "{{para3_4}}")
               = Some (Re.mkMatch (lit "{{para3_4}}") [lit "3"; lit "4"]))
    by reflexivity.
  assert (H4 : MainTemp.generate_content_for_placeholder
                 (fun _ => MainTemp.Answer
                             (lit "CLOUDS move data  between many sites"))
                 (lit "{{para3_4}}") (lit "Cloud")
               = Ok (lit "Clouds move data between.")) by reflexivity.
  repeat (split; [assumption|]).
  exact (proj1 (remote_para_is_cut _ _ _ _ _ H1 H2 H3 H4)).
Defined.

Lemma capitalize_word w : wordb w = true -> wordb (PyStr.capitalize w) = true.
Proof.
  intros H. rewrite <- H. apply wordb_spaces. apply capitalize_spaces.
Qed.

(** Whatever the model answers, a token that holds the text [topic1_] is
    resolved to exactly one word: a word of the answer, capitalized, or one
    of the two fixed words; the value is never empty and holds no
    whitespace. *)
Theorem remote_topic_is_one_word
  (ollama : str -> MainTemp.reply str) (ph topic v : str) :
  PyStr.contains (lit "topic1_") ph = true ->
  MainTemp.generate_content_for_placeholder ollama ph topic = Ok v ->
  PyStr.split v = [v].
Proof.
  intros Hc H. unfold MainTemp.generate_content_for_placeholder in H.
  rewrite Hc in H.
  apply bind_ok in H. destruct H as (content & _ & H).
  assert (Hv : wordb v = true).
  { pose proof (split_words content) as Hw. unfold words in Hw.
    destruct (Nat.leb_spec 2 (List.length (PyStr.split content))) as [Hlen|Hlen].
    - injection H as <-. apply capitalize_word.
      rewrite Forall_forall in Hw. apply Hw.
      match goal with |- context [if ?b then _ else _] => destruct b end;
        apply nth_In; lia.
    - injection H as <-.
      match goal with |- context [if ?b then _ else _] => destruct b end;
        reflexivity. }
  change v with (PyStr.join (lit " ") [v]) at 1.
  apply split_join. constructor; [exact Hv|constructor].
Qed.

Lemma remote_topic_is_one_word_witness :
  PyStr.contains (lit "topic1_") (lit "{{topic1_2}}") = true
  /\ MainTemp.generate_content_for_placeholder
       (fun _ => MainTemp.Answer (lit " cloud   SECURITY now "))
       (lit "{{topic1_2}}") (lit "Cloud Security")
     = Ok (lit "Security")
  /\ PyStr.split (lit "Security") = [lit "Security"].
Proof.
  assert (H1 : PyStr.contains (lit "topic1_") (lit "{{topic1_2}}") = true)
    by reflexivity.
  assert (H2 : MainTemp.generate_content_for_placeholder
                 (fun _ => MainTemp.Answer (lit " cloud   SECURITY now "))
                 (lit "{{topic1_2}}") (lit "Cloud Security")
               = Ok (lit "Security")) by reflexivity.
  split; [exact H1|]. split; [exact H2|].
  exact (remote_topic_is_one_word _ _ _ _ H1 H2).
Defined.
